(** * Gym management API: route handlers and their response contract

    A shallow embedding of the Next.js route handlers of the repository
    (members, pricing plans, transactions) together with the fragment of
    JavaScript they rely on: numbers, [parseInt], truthiness, regular
    expressions and the reply protocol of the hosted store client.

    Modelling conventions.
    - A JavaScript string is a [string]: every [ascii] is one UTF-16 code
      unit below 256.  Code units above 255 are outside the model.
    - A JavaScript number is a [number]: NaN, the two infinities, negative
      zero, or a finite rational.  The results of [parseInt], [+], [-],
      [*] and [/] are rounded to the nearest double, ties to even, with
      overflow to an infinity and underflow to a zero ([JS.round]).
    - Request bodies follow the TypeScript interfaces of the handlers
      ([CreateMemberRequest], [CreatePricingPlanRequest], [Transaction]):
      every field may be absent ([None], JavaScript [undefined]) and a
      present field holds a value of its declared type.  Keys outside the
      interface, which the handlers hand on to the store untouched, and
      values of another JSON type are outside the model; what is said of
      a field that got past validation is said in the terms of the
      handler's own tests (truthy, not [<= 0], matched by the pattern).
    - The store client and jsonwebtoken are external.  A handler is a
      finite program that issues store calls and continues with whatever
      reply comes back, so every theorem holds for every behaviour of the
      store; [verify] is a field of the environment.
    - [console.error] is not modelled. *)

From Stdlib Require Import ZArith QArith Qround String Ascii List Bool Lia.
Import ListNotations.

Set Implicit Arguments.
Set Warnings "-register-all".

Open Scope Z_scope.
Open Scope string_scope.

(** ** JavaScript numbers *)

Module JS.

Inductive number : Type :=
| NaN
| PosInf
| NegInf
| NegZero
| Fin (q : Q).

Definition of_Z (z : Z) : number := Fin (inject_Z z).

Definition is_zero (q : Q) : bool := Qeq_bool q 0.

(** Sign bit (NaN has none that matters here). *)
Definition sgn (n : number) : bool :=
  match n with
  | NegInf | NegZero => true
  | Fin q => negb (Qle_bool 0 q)
  | _ => false
  end.

Definition zero (s : bool) : number := if s then NegZero else Fin 0.
Definition inf (s : bool) : number := if s then NegInf else PosInf.

(** Finite value; zero for both zeros. *)
Definition val (n : number) : Q :=
  match n with Fin q => q | _ => 0%Q end.

Definition is_nan (n : number) : bool :=
  match n with NaN => true | _ => false end.

Definition is_inf (n : number) : bool :=
  match n with PosInf | NegInf => true | _ => false end.

Definition is_zero_num (n : number) : bool :=
  match n with NegZero => true | Fin q => is_zero q | _ => false end.

(** The double nearest to a rational.  A double is [m * 2^e] with
    [|m| < 2^53] and [-1074 <= e <= 971]. *)

(** Nearest integer to [num / den] for [den > 0], ties to even. *)
Definition nearest_even (num den : Z) : Z :=
  let q := num / den in
  let r := num mod den in
  if (2 * r <? den)%Z then q
  else if (den <? 2 * r)%Z then q + 1
  else if Z.even q then q else q + 1.

(** [floor (log2 (a / b))] for positive [a] and [b]. *)
Definition log2_ratio (a b : Z) : Z :=
  let k := Z.log2 a - Z.log2 b in
  if (a * 2 ^ Z.max (- k) 0 <? b * 2 ^ Z.max k 0)%Z then k - 1 else k.

(** The double nearest to [a / b] for positive [a] and [b]: the quotient
    is scaled to 53 significant bits (fewer below [2^-1022]) and rounded
    there.  [None] when the result is beyond the largest double. *)
Definition round_magnitude (a b : Z) : option Q :=
  let e := Z.max (log2_ratio a b - 52) (-1074) in
  let m := nearest_even (a * 2 ^ Z.max (- e) 0) (b * 2 ^ Z.max e 0) in
  let n := m * 2 ^ Z.max e 0 in
  if (2 ^ 1024 <=? n)%Z then None
  else Some (Qred (n # Z.to_pos (2 ^ Z.max (- e) 0))).

(** Rounding of an exact result.  An integer up to [2^53] in absolute
    value is a double. *)
Definition round (q : Q) : number :=
  let z := Qfloor q in
  if Qeq_bool q (inject_Z z) && (Z.abs z <=? 2 ^ 53)%Z then Fin (inject_Z z)
  else
    let negative := (Qnum q <? 0)%Z in
    match round_magnitude (Z.abs (Qnum q)) (Zpos (Qden q)) with
    | None => inf negative
    | Some v => if is_zero v then zero negative
                else Fin (if negative then - v else v)
    end.

(** Unary minus. *)
Definition neg (n : number) : number :=
  match n with
  | NaN => NaN
  | PosInf => NegInf
  | NegInf => PosInf
  | NegZero => Fin 0
  | Fin q => if is_zero q then NegZero else Fin (- q)
  end.

(** [a + b]. *)
Definition add (a b : number) : number :=
  match a, b with
  | NaN, _ | _, NaN => NaN
  | PosInf, NegInf | NegInf, PosInf => NaN
  | PosInf, _ | _, PosInf => PosInf
  | NegInf, _ | _, NegInf => NegInf
  | NegZero, NegZero => NegZero
  | NegZero, Fin q => Fin q
  | Fin p, NegZero => Fin p
  | Fin p, Fin q => round (p + q)
  end.

(** [a - b]. *)
Definition sub (a b : number) : number := add a (neg b).

(** [a * b]. *)
Definition mul (a b : number) : number :=
  if is_nan a || is_nan b then NaN
  else if is_inf a || is_inf b then
    if is_zero_num a || is_zero_num b then NaN
    else inf (xorb (sgn a) (sgn b))
  else if is_zero_num a || is_zero_num b then zero (xorb (sgn a) (sgn b))
  else round (val a * val b).

(** [a / b]. *)
Definition div (a b : number) : number :=
  if is_nan a || is_nan b then NaN
  else if is_inf a then
    if is_inf b then NaN else inf (xorb (sgn a) (sgn b))
  else if is_inf b then zero (xorb (sgn a) (sgn b))
  else if is_zero_num b then
    if is_zero_num a then NaN else inf (xorb (sgn a) (sgn b))
  else if is_zero_num a then zero (xorb (sgn a) (sgn b))
  else round (val a / val b).

(** [Math.ceil]. *)
Definition Math_ceil (n : number) : number :=
  match n with
  | Fin q =>
      let c := Qceiling q in
      if (c =? 0)%Z && negb (Qle_bool 0 q) then NegZero else of_Z c
  | _ => n
  end.

(** [a < b] on numbers: false as soon as one side is NaN; the two zeros
    compare equal. *)
Definition lt (a b : number) : bool :=
  match a, b with
  | NaN, _ | _, NaN => false
  | _, NegInf => false
  | NegInf, _ => true
  | PosInf, _ => false
  | _, PosInf => true
  | _, _ => negb (Qle_bool (val b) (val a))
  end.

Definition gt (a b : number) : bool := lt b a.

(** [a <= b]. *)
Definition le (a b : number) : bool :=
  match a, b with
  | NaN, _ | _, NaN => false
  | NegInf, _ => true
  | _, PosInf => true
  | _, NegInf => false
  | PosInf, _ => false
  | _, _ => Qle_bool (val a) (val b)
  end.

(** ToBoolean on a number: [0], [-0] and [NaN] are falsy. *)
Definition truthy_number (n : number) : bool :=
  negb (is_nan n || is_zero_num n).

(** ToBoolean on a string: only the empty string is falsy. *)
Definition truthy_string (s : string) : bool :=
  match s with EmptyString => false | _ => true end.

End JS.

(** ** Strings: the [String.prototype] methods the handlers call *)

Module Str.

Definition code (c : ascii) : N := N_of_ascii c.

Definition in_range (lo hi : N) (c : ascii) : bool :=
  ((lo <=? code c) && (code c <=? hi))%N.

(** White space and line terminators among the code units below 256:
    TAB, LF, VT, FF, CR, SP and NBSP.  This is both the class [\s] of a
    regular expression and what [parseInt] skips. *)
Definition is_space (c : ascii) : bool :=
  in_range 9 13 c || (code c =? 32)%N || (code c =? 160)%N.

Definition is_digit (c : ascii) : bool := in_range 48 57 c.

Fixpoint eqb_ascii_in (c : ascii) (l : list ascii) : bool :=
  match l with
  | [] => false
  | x :: l' => Ascii.eqb c x || eqb_ascii_in c l'
  end.

(** [s.split(sep)] for a one-character separator. *)
Fixpoint split (sep : ascii) (s : string) : list string :=
  match s with
  | EmptyString => [EmptyString]
  | String a s' =>
      if Ascii.eqb a sep then EmptyString :: split sep s'
      else match split sep s' with
           | h :: t => String a h :: t
           | [] => [String a EmptyString]
           end
  end.

(** [s.startsWith(p)]. *)
Definition startsWith (p s : string) : bool := String.prefix p s.

(** [s.includes(sub)]. *)
Fixpoint includes (sub s : string) : bool :=
  String.prefix sub s ||
  match s with
  | EmptyString => false
  | String _ s' => includes sub s'
  end.

(** [s.substring(n)]. *)
Fixpoint substring_from (n : nat) (s : string) : string :=
  match n, s with
  | O, _ => s
  | S n', String _ s' => substring_from n' s'
  | S _, EmptyString => EmptyString
  end.

Fixpoint trim_start (s : string) : string :=
  match s with
  | String c s' => if is_space c then trim_start s' else s
  | EmptyString => s
  end.

(** Value of a digit in the given radix, if it is one. *)
Definition digit_val (radix : N) (c : ascii) : option N :=
  let v :=
    if is_digit c then Some (code c - 48)%N
    else if in_range 97 122 c then Some (code c - 87)%N
    else if in_range 65 90 c then Some (code c - 55)%N
    else None in
  match v with
  | Some d => if (d <? radix)%N then Some d else None
  | None => None
  end.

(** Longest prefix of radix digits, read as an integer; [None] when the
    prefix is empty. *)
Fixpoint digits (radix : N) (s : string) (acc : option N) : option N :=
  match s with
  | EmptyString => acc
  | String c s' =>
      match digit_val radix c with
      | Some d =>
          digits radix s'
            (Some (match acc with Some a => a * radix + d | None => d end)%N)
      | None => acc
      end
  end.

(** [parseInt(s)] with no radix argument: the integer the digits denote,
    as a number, that is rounded to the nearest double. *)
Definition parseInt (s : string) : JS.number :=
  let s1 := trim_start s in
  let '(negative, s2) :=
    match s1 with
    | String "-" r => (true, r)
    | String "+" r => (false, r)
    | _ => (false, s1)
    end in
  let '(radix, s3) :=
    match s2 with
    | String "0" (String "x" r) => (16%N, r)
    | String "0" (String "X" r) => (16%N, r)
    | _ => (10%N, s2)
    end in
  match digits radix s3 None with
  | None => JS.NaN
  | Some n =>
      if (n =? 0)%N then JS.zero negative
      else JS.round (inject_Z (if negative then - Z.of_N n else Z.of_N n))
  end.

End Str.

(** ** Regular expressions

    The handlers only use anchored patterns ([^...$] without the multiline
    flag), so [test] is a match of the whole string.  Matching is by
    Brzozowski derivatives. *)

Module Regex.

Inductive regex : Type :=
| Void
| Eps
| Class (p : ascii -> bool)
| Cat (r1 r2 : regex)
| Alt (r1 r2 : regex)
| Star (r : regex).

(** [r+] *)
Definition Plus (r : regex) : regex := Cat r (Star r).

(** [r?] *)
Definition Opt (r : regex) : regex := Alt Eps r.

(** [r{n}] followed by [k] *)
Fixpoint Times (n : nat) (r k : regex) : regex :=
  match n with
  | O => k
  | S n' => Cat r (Times n' r k)
  end.

(** at most [n] times [r], followed by [k] *)
Fixpoint UpTo (n : nat) (r k : regex) : regex :=
  match n with
  | O => k
  | S n' => Alt k (Cat r (UpTo n' r k))
  end.

(** [r{lo,hi}] followed by [k] *)
Definition Between (lo hi : nat) (r k : regex) : regex :=
  Times lo r (UpTo (hi - lo) r k).

Definition Chr (c : ascii) : regex := Class (Ascii.eqb c).

Fixpoint nullable (r : regex) : bool :=
  match r with
  | Void => false
  | Eps => true
  | Class _ => false
  | Cat r1 r2 => nullable r1 && nullable r2
  | Alt r1 r2 => nullable r1 || nullable r2
  | Star _ => true
  end.

Definition cat (r1 r2 : regex) : regex :=
  match r1, r2 with
  | Void, _ | _, Void => Void
  | Eps, _ => r2
  | _, _ => Cat r1 r2
  end.

Definition alt (r1 r2 : regex) : regex :=
  match r1, r2 with
  | Void, _ => r2
  | _, Void => r1
  | _, _ => Alt r1 r2
  end.

Fixpoint deriv (c : ascii) (r : regex) : regex :=
  match r with
  | Void | Eps => Void
  | Class p => if p c then Eps else Void
  | Cat r1 r2 =>
      alt (cat (deriv c r1) r2) (if nullable r1 then deriv c r2 else Void)
  | Alt r1 r2 => alt (deriv c r1) (deriv c r2)
  | Star r1 => cat (deriv c r1) (Star r1)
  end.

(** [/^r$/.test(s)] *)
Fixpoint test (r : regex) (s : string) : bool :=
  match s with
  | EmptyString => nullable r
  | String c s' => test (deriv c r) s'
  end.

(** The strings a pattern denotes. *)
Inductive matches : regex -> string -> Prop :=
| m_eps : matches Eps EmptyString
| m_class p c : p c = true -> matches (Class p) (String c EmptyString)
| m_cat r1 r2 s1 s2 :
    matches r1 s1 -> matches r2 s2 -> matches (Cat r1 r2) (s1 ++ s2)
| m_alt_l r1 r2 s : matches r1 s -> matches (Alt r1 r2) s
| m_alt_r r1 r2 s : matches r2 s -> matches (Alt r1 r2) s
| m_star_nil r : matches (Star r) EmptyString
| m_star_more r s1 s2 :
    matches r s1 -> matches (Star r) s2 -> matches (Star r) (s1 ++ s2).

(** [[0-9a-f]] under the [i] flag.  Case folding without the [u] flag
    never maps a code unit above 127 to an ASCII letter, so the class is
    the two ASCII ranges of letters and the digits. *)
Definition hex_i (c : ascii) : bool :=
  Str.is_digit c || Str.in_range 97 102 c || Str.in_range 65 70 c.

(** [/^[0-9a-f]{8}-[0-9a-f]{4}-[0-9a-f]{4}-[0-9a-f]{4}-[0-9a-f]{12}$/i] *)
Definition uuidRegex : regex :=
  Times 8 (Class hex_i) (Cat (Chr "-")
  (Times 4 (Class hex_i) (Cat (Chr "-")
  (Times 4 (Class hex_i) (Cat (Chr "-")
  (Times 4 (Class hex_i) (Cat (Chr "-")
  (Times 12 (Class hex_i) Eps)))))))).

(** [[^\s@]] *)
Definition not_space_at (c : ascii) : bool :=
  negb (Str.is_space c || Ascii.eqb c "@").

(** [/^[^\s@]+@[^\s@]+\.[^\s@]+$/] *)
Definition emailRegex : regex :=
  Cat (Plus (Class not_space_at))
  (Cat (Chr "@")
  (Cat (Plus (Class not_space_at))
  (Cat (Chr ".")
       (Plus (Class not_space_at))))).

(** [[\d\s\-\(\)]] *)
Definition phone_char (c : ascii) : bool :=
  Str.is_digit c || Str.is_space c || Str.eqb_ascii_in c ["-"; "("; ")"]%char.

(** [/^\+?[\d\s\-\(\)]{7,15}$/] *)
Definition phoneRegex : regex :=
  Cat (Opt (Chr "+")) (Between 7 15 (Class phone_char) Eps).

Definition isUUID (s : string) : bool := test uuidRegex s.

End Regex.


(** ** JSON values, requests and responses *)

Inductive json : Type :=
| JNull
| JBool (b : bool)
| JNum (n : JS.number)
| JStr (s : string)
| JArr (l : list json)
| JObj (fields : list (string * json)).

(** A row of the store: a JSON object. *)
Definition Row : Type := list (string * json).

(** Property read [row.key]; [None] is [undefined]. *)
Fixpoint get_prop (key : string) (row : Row) : option json :=
  match row with
  | [] => None
  | (k, v) :: row' => if String.eqb k key then Some v else get_prop key row'
  end.

(** What a client reads back after [JSON.stringify]: a number that is not
    finite becomes [null] and negative zero becomes [0]. *)
Fixpoint wire (v : json) : json :=
  match v with
  | JNum n =>
      match n with
      | JS.NaN | JS.PosInf | JS.NegInf => JNull
      | JS.NegZero => JNum (JS.Fin 0)
      | JS.Fin _ => v
      end
  | JArr l => JArr (map wire l)
  | JObj fields => JObj (map (fun kv => (fst kv, wire (snd kv))) fields)
  | _ => v
  end.

(** ToBoolean on a JSON value. *)
Definition truthy_json (v : json) : bool :=
  match v with
  | JNull => false
  | JBool b => b
  | JNum n => JS.truthy_number n
  | JStr s => JS.truthy_string s
  | JArr _ | JObj _ => true
  end.

Module NextResponse.

Record t : Type := mk { status : Z; body : option json }.

(** [NextResponse.json(value, { status })] *)
Definition json (value : json) (status : Z) : t :=
  mk status (Some (wire value)).

(** [new NextResponse(null, { status })] *)
Definition empty (status : Z) : t := mk status None.

End NextResponse.

Definition Response : Type := NextResponse.t.

(** [errorResponse(message, status)]; the source's default status is 400. *)
Definition errorResponse (message : string) (status : Z) : Response :=
  NextResponse.json (JObj [("error", JStr message)]) status.

(** [successResponse(data, status)]; the source's default status is 200. *)
Definition successResponse (data : json) (status : Z) : Response :=
  NextResponse.json (JObj [("data", data)]) status.

(** The part of a [NextRequest] the handlers read.  [json_body] is the
    outcome of [await request.json()]: [None] when the promise rejects, and
    also when the body is [null], on which the first property access of
    every handler throws just the same. *)
Record Request (B : Type) : Type := {
  searchParams : list (string * string);
  pathname : string;
  authorization : option string;
  json_body : option B
}.

(** [searchParams.get(name)]: the first value under that name, or [null]. *)
Fixpoint searchParams_get (name : string) (ps : list (string * string))
  : option string :=
  match ps with
  | [] => None
  | (k, v) :: ps' =>
      if String.eqb k name then Some v else searchParams_get name ps'
  end.

(** Process environment and the two impure library calls: the clock and
    [verify] of jsonwebtoken: [None] when it throws, otherwise the
    [memberId] property of the decoded payload, which is [undefined]
    (the inner [None]) when the payload has no such claim. *)
Record Env : Type := {
  ADMIN_API_KEY : option string;
  JWT_SECRET : option string;
  verify : string -> option string -> option (option string);
  now_ISO : string
}.

(** ToBoolean of a string-or-absent value. *)
Definition truthy (o : option string) : bool :=
  match o with
  | Some s => JS.truthy_string s
  | None => false
  end.

(** [o || d] *)
Definition or_else (o : option string) (d : string) : string :=
  match o with
  | Some s => if JS.truthy_string s then s else d
  | None => d
  end.

(** The filter argument of [if (o) query = query.eq(..., o)]. *)
Definition if_truthy (o : option string) : option string :=
  if truthy o then o else None.

(** [validateApiKey]: [apiKey === process.env.ADMIN_API_KEY], where a
    missing parameter is [null] and an unset variable is [undefined]. *)
Definition validateApiKey {B} (env : Env) (request : Request B) : bool :=
  match searchParams_get "api_key" (searchParams request), ADMIN_API_KEY env with
  | Some apiKey, Some secret => String.eqb apiKey secret
  | _, _ => false
  end.

(** What [validateMemberToken] returns: [null], or [decoded.memberId],
    which is [undefined] when the payload has no such claim and a string
    otherwise, as the handler's cast [as { memberId: string }] has it. *)
Inductive MemberId : Type :=
| IdNull
| IdUndefined
| Id (memberId : string).

(** [!memberId] *)
Definition no_id (memberId : MemberId) : bool :=
  match memberId with
  | Id m => negb (JS.truthy_string m)
  | IdNull | IdUndefined => true
  end.

(** [validateMemberToken]: [null] unless the header starts with
    ["Bearer "] and [verify] accepts the rest; then the [memberId] of the
    payload. *)
Definition validateMemberToken {B} (env : Env) (request : Request B)
  : MemberId :=
  match authorization request with
  | Some authHeader =>
      if Str.startsWith "Bearer " authHeader
      then match verify env (Str.substring_from 7 authHeader)
                   (JWT_SECRET env) with
           | Some (Some memberId) => Id memberId
           | Some None => IdUndefined
           | None => IdNull
           end
      else IdNull
  | None => IdNull
  end.

(** Last element of [pathname.split('/')]. *)
Definition last_segment (pathname : string) : string :=
  List.last (Str.split "/" pathname) EmptyString.

(** [new Date().toISOString().split('T')[0]] *)
Definition today (env : Env) : string :=
  List.hd EmptyString (Str.split "T" (now_ISO env)).

(** [regex.test(v)] on a possibly absent string: [undefined] is tested as
    the string ["undefined"]. *)
Definition regex_test (r : Regex.regex) (v : option string) : bool :=
  Regex.test r (match v with Some s => s | None => "undefined" end).

(** ** Request bodies *)

(** [interface CreateMemberRequest]; also [UpdateMemberRequest], its
    [Partial]. *)
Record CreateMemberRequest : Type := {
  first_name : option string;
  last_name : option string;
  photo_url : option string;
  phone : option string;
  email : option string;
  address : option string;
  health_issues : option string;
  subscription_plan_id : option string;
  subscription_start_date : option string;
  subscription_expiry_date : option string;
  last_fee_paid_date : option string
}.

(** An update body: the member fields and the [id] key the handler strips. *)
Record UpdateMemberRequest : Type := {
  update_id : option string;
  update_fields : CreateMemberRequest
}.

(** [interface CreatePricingPlanRequest] *)
Record CreatePricingPlanRequest : Type := {
  name : option string;
  description : option string;
  price : option JS.number;
  duration_days : option JS.number;
  features : option (list string);
  is_active : option bool
}.

(** An update body of a pricing plan, with the [id] key the handler strips. *)
Record UpdatePricingPlanRequest : Type := {
  plan_update_id : option string;
  plan_update_fields : CreatePricingPlanRequest
}.

(** The body of a transaction create request, typed after
    [interface Transaction].  [status] is left an arbitrary JSON value:
    the handler only asks whether it is truthy and hands it on. *)
Record TransactionData : Type := {
  member_id : option string;
  plan_id : option string;
  amount : option JS.number;
  payment_method : option string;
  transaction_date : option string;
  status : option json;
  notes : option string
}.

(** ** The store client *)

(** [error] of a reply. *)
Record PostgrestError : Type := { code : string; message : string }.

(** [{ data, error, count }] *)
Record Reply (A : Type) : Type := {
  data : option A;
  error : option PostgrestError;
  count : option Z
}.

(** The four head counts of the statistics endpoint. *)
Inductive CountFilter : Type :=
| AllMembers
| ExpiryGte (day : string)
| ExpiryLtNotNull (day : string)
| PlanIsNull.

(** Every query a handler builds and awaits. *)
Inductive Call : Type :=
| MembersSelectById (id : string)
| MembersCount (f : CountFilter)
| MembersList (search plan active_since : option string)
    (sort : string) (ascending : bool) (range_from range_to : JS.number)
| MembersInsert (row : CreateMemberRequest)
| MembersUpdate (id : string) (row : CreateMemberRequest) (updated_at : string)
| MembersSelectId (id : option string)
| MembersUsingPlan (planId : string)
| PlansList (active_only : bool) (search : option string)
    (sort : string) (ascending : bool) (range_from range_to : JS.number)
| PlansInsert (row : CreatePricingPlanRequest)
| PlansUpdate (id : string) (row : CreatePricingPlanRequest) (updated_at : string)
| PlansDelete (id : string)
| PlansSelectId (id : option string)
| TransactionsList
    (member plan status_is method date_from date_to : option string)
    (sort : string) (ascending : bool) (range_from range_to : JS.number)
| TransactionsInsert (row : TransactionData)
| TransactionsSelectById (id : string).

(** What [data] holds: one row after [.single()], an array of rows after a
    plain select, nothing after a delete. *)
Definition DataOf (c : Call) : Type :=
  match c with
  | MembersCount _ | MembersList _ _ _ _ _ _ _ | MembersUsingPlan _
  | PlansList _ _ _ _ _ _
  | TransactionsList _ _ _ _ _ _ _ _ _ _ => list Row
  | PlansDelete _ => unit
  | _ => Row
  end.

(** A handler between its store calls.  [Throw] is an exception on its way
    to the enclosing [catch]. *)
Inductive Prog (R : Type) : Type :=
| Ret (r : R)
| Throw
| Await (c : Call) (k : Reply (DataOf c) -> Prog R).

Arguments Throw {R}.

Fixpoint bind {A B} (m : Prog A) (f : A -> Prog B) : Prog B :=
  match m with
  | Ret a => f a
  | Throw => Throw
  | Await c k => Await c (fun r => bind (k r) f)
  end.

(** [try { p } catch { h }] *)
Fixpoint try_catch {R} (p : Prog R) (h : Prog R) : Prog R :=
  match p with
  | Ret r => Ret r
  | Throw => h
  | Await c k => Await c (fun r => try_catch (k r) h)
  end.

Notation "x <- m ;; f" := (bind m (fun x => f))
  (at level 61, m at next level, right associativity).

(** [await query] *)
Definition await (c : Call) : Prog (Reply (DataOf c)) := Await c (@Ret _).

(** A store answers every call, possibly depending on the calls before. *)
Definition Store : Type := list Call -> forall c : Call, Reply (DataOf c).

(** Running a handler against a store: the outcome ([None] for an uncaught
    exception) and the calls issued, in order. *)
Fixpoint run_from {R} (store : Store) (issued : list Call) (p : Prog R)
  : option R * list Call :=
  match p with
  | Ret r => (Some r, issued)
  | Throw => (None, issued)
  | Await c k => run_from store (issued ++ [c]) (k (store issued c))
  end.

Definition run {R} (store : Store) (p : Prog R) : option R * list Call :=
  run_from store [] p.

(** ** Pieces shared by the route files *)

(** [error.code === c] *)
Definition code_is (c : string) (e : PostgrestError) : bool :=
  String.eqb (code e) c.

(** [data] of a [.single()] reply as a JSON value. *)
Definition row_json (d : option Row) : json :=
  match d with
  | Some row => JObj row
  | None => JNull
  end.

(** [data] of a list reply as a JSON value. *)
Definition rows_json (d : option (list Row)) : json :=
  match d with
  | Some rows => JArr (map JObj rows)
  | None => JNull
  end.

(** [count || 0] *)
Definition count_or_0 (count : option Z) : JS.number :=
  match count with
  | Some c => JS.of_Z c
  | None => JS.of_Z 0
  end.

(** [count] as a JSON value: a number or [null]. *)
Definition count_json (count : option Z) : json :=
  match count with
  | Some c => JNum (JS.of_Z c)
  | None => JNull
  end.

(** The [pagination] object of a list response, before serialisation. *)
Record Pagination : Type := {
  page : JS.number;
  limit : JS.number;
  total : option Z;
  totalPages : JS.number;
  hasNext : bool;
  hasPrev : bool
}.

(** The summary the three list handlers compute alike:
<<
    const totalPages = Math.ceil((count || 0) / limit);
    pagination: { page, limit, total: count, totalPages,
                  hasNext: page < totalPages, hasPrev: page > 1 }
>> *)
Definition pagination (page limit : JS.number) (count : option Z)
  : Pagination :=
  let totalPages := JS.Math_ceil (JS.div (count_or_0 count) limit) in
  {| page := page;
     limit := limit;
     total := count;
     totalPages := totalPages;
     hasNext := JS.lt page totalPages;
     hasPrev := JS.gt page (JS.of_Z 1) |}.

Definition pagination_json (p : Pagination) : json :=
  JObj [("page", JNum (page p));
        ("limit", JNum (limit p));
        ("total", count_json (total p));
        ("totalPages", JNum (totalPages p));
        ("hasNext", JBool (hasNext p));
        ("hasPrev", JBool (hasPrev p))].

(** [NextResponse.json({ data, pagination })] *)
Definition listResponse (rows : option (list Row)) (p : Pagination)
  : Response :=
  NextResponse.json
    (JObj [("data", rows_json rows); ("pagination", pagination_json p)]) 200.

(** [page] and [limit] of a list request. *)
Definition page_of {B} (request : Request B) : JS.number :=
  Str.parseInt (or_else (searchParams_get "page" (searchParams request)) "1").

Definition limit_of {B} (request : Request B) : JS.number :=
  Str.parseInt (or_else (searchParams_get "limit" (searchParams request)) "10").

(** [offset = (page - 1) * limit] *)
Definition offset_of (page limit : JS.number) : JS.number :=
  JS.mul (JS.sub page (JS.of_Z 1)) limit.

(** [offset + limit - 1] *)
Definition range_end (offset limit : JS.number) : JS.number :=
  JS.sub (JS.add offset limit) (JS.of_Z 1).

(** [NextResponse.json({ error: 'Missing required fields', missing }, 400)] *)
Definition missingResponse (missingFields : list string) : Response :=
  NextResponse.json
    (JObj [("error", JStr "Missing required fields");
           ("missing", JArr (map JStr missingFields))]) 400.

(** The [catch] block every handler ends with. *)
Definition internal_error : Prog Response :=
  Ret (errorResponse "Internal server error" 500).

(** [await request.json()] *)
Definition request_json {B} (request : Request B) : Prog B :=
  match json_body request with
  | Some b => Ret b
  | None => Throw
  end.

(** ** [app/api/members]: list, single member, statistics, create, update *)

Module Members.

Definition requiredFields : list string :=
  ["first_name"; "last_name"; "phone"; "email"].

(** [memberData[field]] for the required field names. *)
Definition field (memberData : CreateMemberRequest) (f : string)
  : option string :=
  if String.eqb f "first_name" then first_name memberData
  else if String.eqb f "last_name" then last_name memberData
  else if String.eqb f "phone" then phone memberData
  else if String.eqb f "email" then email memberData
  else None.

Definition missingFields (memberData : CreateMemberRequest) : list string :=
  filter (fun f => negb (truthy (field memberData f))) requiredFields.

Definition stat (count : option Z) : json := JNum (count_or_0 count).

(** The list query: search, plan and active filters, then [order] and
    [range(offset, offset + limit - 1)]. *)
Definition query (env : Env) (request : Request unit) : Call :=
  let get := fun k => searchParams_get k (searchParams request) in
  let page := page_of request in
  let limit := limit_of request in
  let sort := or_else (get "sort") "created_at" in
  let order := or_else (get "order") "desc" in
  let offset := offset_of page limit in
  MembersList
    (if_truthy (get "search"))
    (if_truthy (get "subscription_plan_id"))
    (match get "active_only" with
     | Some a => if String.eqb a "true" then Some (today env) else None
     | None => None
     end)
    sort (String.eqb order "asc")
    offset (range_end offset limit).

Definition GET (env : Env) (request : Request unit) : Prog Response :=
  try_catch
    (if negb (validateApiKey env request) then
       Ret (errorResponse "Invalid or missing API key" 401)
     else
       let memberId := last_segment (pathname request) in
       let isUUID := Regex.isUUID memberId in
       if isUUID && negb (String.eqb memberId "members") then
         r <- await (MembersSelectById memberId) ;;
         match error r with
         | Some e =>
             if code_is "PGRST116" e
             then Ret (errorResponse "Member not found" 404)
             else Ret (errorResponse "Failed to fetch member" 500)
         | None => Ret (successResponse (row_json (data r)) 200)
         end
       else if Str.includes "/stats" (pathname request) then
         let today := today env in
         r1 <- await (MembersCount AllMembers) ;;
         r2 <- await (MembersCount (ExpiryGte today)) ;;
         r3 <- await (MembersCount (ExpiryLtNotNull today)) ;;
         r4 <- await (MembersCount PlanIsNull) ;;
         Ret (successResponse
                (JObj [("totalMembers", stat (count r1));
                       ("activeSubscriptions", stat (count r2));
                       ("expiredSubscriptions", stat (count r3));
                       ("noSubscription", stat (count r4))]) 200)
       else
         let page := page_of request in
         let limit := limit_of request in
         r <- await (query env request) ;;
         match error r with
         | Some _ => Ret (errorResponse "Failed to fetch members" 500)
         | None => Ret (listResponse (data r) (pagination page limit (count r)))
         end)
    internal_error.

Definition POST (env : Env) (request : Request CreateMemberRequest)
  : Prog Response :=
  try_catch
    (if negb (validateApiKey env request) then
       Ret (errorResponse "Invalid or missing API key" 401)
     else
       memberData <- request_json request ;;
       let missingFields := missingFields memberData in
       if (0 <? length missingFields)%nat then
         Ret (missingResponse missingFields)
       else if negb (regex_test Regex.emailRegex (email memberData)) then
         Ret (errorResponse "Invalid email format" 400)
       else if negb (regex_test Regex.phoneRegex (phone memberData)) then
         Ret (errorResponse "Invalid phone format" 400)
       else
         r <- await (MembersInsert memberData) ;;
         match error r with
         | Some e =>
             if code_is "23505" e
             then Ret (errorResponse
                         "Member with this email or phone already exists" 409)
             else Ret (errorResponse "Failed to create member" 500)
         | None => Ret (successResponse (row_json (data r)) 201)
         end)
    internal_error.

Definition PUT (env : Env) (request : Request UpdateMemberRequest)
  : Prog Response :=
  try_catch
    (if negb (validateApiKey env request) then
       Ret (errorResponse "Invalid or missing API key" 401)
     else
       let memberId := last_segment (pathname request) in
       if negb (JS.truthy_string memberId) || String.eqb memberId "members" then
         Ret (errorResponse "Member ID is required" 400)
       else
         body <- request_json request ;;
         (* delete updateData.id *)
         let updateData := update_fields body in
         if truthy (email updateData)
            && negb (regex_test Regex.emailRegex (email updateData)) then
           Ret (errorResponse "Invalid email format" 400)
         else if truthy (phone updateData)
                 && negb (regex_test Regex.phoneRegex (phone updateData)) then
           Ret (errorResponse "Invalid phone format" 400)
         else
           r <- await (MembersUpdate memberId updateData (now_ISO env)) ;;
           match error r with
           | Some e =>
               if code_is "PGRST116" e then
                 Ret (errorResponse "Member not found" 404)
               else if code_is "23505" e then
                 Ret (errorResponse
                        "Email or phone already exists for another member" 409)
               else Ret (errorResponse "Failed to update member" 500)
           | None => Ret (successResponse (row_json (data r)) 200)
           end)
    internal_error.

End Members.

(** ** [app/api/pricing_plans]: list and create *)

Module PricingPlans.

Definition requiredFields : list string := ["name"; "price"; "duration_days"].

Definition truthy_num (o : option JS.number) : bool :=
  match o with
  | Some n => JS.truthy_number n
  | None => false
  end.

(** [!planData[field]] for the required field names. *)
Definition missing (planData : CreatePricingPlanRequest) (f : string) : bool :=
  if String.eqb f "name" then negb (truthy (name planData))
  else if String.eqb f "price" then negb (truthy_num (price planData))
  else if String.eqb f "duration_days"
       then negb (truthy_num (duration_days planData))
  else true.

Definition missingFields (planData : CreatePricingPlanRequest) : list string :=
  filter (missing planData) requiredFields.

(** [v <= 0]; [undefined <= 0] is false. *)
Definition le_0 (v : option JS.number) : bool :=
  match v with
  | Some n => JS.le n (JS.of_Z 0)
  | None => false
  end.

(** [{ ...planData, is_active: planData.is_active !== undefined
                                ? planData.is_active : true }] *)
Definition planWithDefaults (planData : CreatePricingPlanRequest)
  : CreatePricingPlanRequest :=
  {| name := name planData;
     description := description planData;
     price := price planData;
     duration_days := duration_days planData;
     features := features planData;
     is_active := match is_active planData with
                  | Some b => Some b
                  | None => Some true
                  end |}.

(** The list query: active and search filters, then [order] and
    [range(offset, offset + limit - 1)]. *)
Definition query (request : Request unit) : Call :=
  let get := fun k => searchParams_get k (searchParams request) in
  let page := page_of request in
  let limit := limit_of request in
  let sort := or_else (get "sort") "price" in
  let order := or_else (get "order") "asc" in
  let offset := offset_of page limit in
  PlansList
    (match get "active_only" with
     | Some a => String.eqb a "true"
     | None => false
     end)
    (if_truthy (get "search"))
    sort (String.eqb order "asc")
    offset (range_end offset limit).

Definition GET (env : Env) (request : Request unit) : Prog Response :=
  try_catch
    (let page := page_of request in
     let limit := limit_of request in
     r <- await (query request) ;;
     match error r with
     | Some _ => Ret (errorResponse "Failed to fetch pricing plans" 500)
     | None => Ret (listResponse (data r) (pagination page limit (count r)))
     end)
    internal_error.

Definition POST (env : Env) (request : Request CreatePricingPlanRequest)
  : Prog Response :=
  try_catch
    (if negb (validateApiKey env request) then
       Ret (errorResponse "Invalid or missing API key" 401)
     else
       planData <- request_json request ;;
       let missingFields := missingFields planData in
       if (0 <? length missingFields)%nat then
         Ret (missingResponse missingFields)
       else if le_0 (price planData) then
         Ret (errorResponse "Price must be greater than 0" 400)
       else if le_0 (duration_days planData) then
         Ret (errorResponse "Duration days must be greater than 0" 400)
       else
         r <- await (PlansInsert (planWithDefaults planData)) ;;
         match error r with
         | Some e =>
             if code_is "23505" e
             then Ret (errorResponse
                         "Pricing plan with this name already exists" 409)
             else Ret (errorResponse "Failed to create pricing plan" 500)
         | None => Ret (successResponse (row_json (data r)) 201)
         end)
    internal_error.

End PricingPlans.

(** ** [app/api/pricing_plans/[id]]: update and delete *)

Module PricingPlan.

(** [v !== undefined && v <= 0] *)
Definition given_le_0 (v : option JS.number) : bool :=
  match v with
  | Some n => JS.le n (JS.of_Z 0)
  | None => false
  end.

Definition PUT (env : Env) (request : Request UpdatePricingPlanRequest)
  (planId : string) : Prog Response :=
  try_catch
    (if negb (validateApiKey env request) then
       Ret (errorResponse "Invalid or missing API key" 401)
     else if negb (Regex.isUUID planId) then
       Ret (errorResponse "Invalid pricing plan ID format" 400)
     else
       body <- request_json request ;;
       (* delete updateData.id *)
       let updateData := plan_update_fields body in
       if given_le_0 (price updateData) then
         Ret (errorResponse "Price must be greater than 0" 400)
       else if given_le_0 (duration_days updateData) then
         Ret (errorResponse "Duration days must be greater than 0" 400)
       else
         r <- await (PlansUpdate planId updateData (now_ISO env)) ;;
         match error r with
         | Some e =>
             if code_is "PGRST116" e then
               Ret (errorResponse "Pricing plan not found" 404)
             else if code_is "23505" e then
               Ret (errorResponse
                      "Pricing plan with this name already exists" 409)
             else Ret (errorResponse "Failed to update pricing plan" 500)
         | None => Ret (successResponse (row_json (data r)) 200)
         end)
    internal_error.

(** [membersUsingPlan && membersUsingPlan.length > 0] *)
Definition in_use (membersUsingPlan : option (list Row)) : bool :=
  match membersUsingPlan with
  | Some rows => (0 <? length rows)%nat
  | None => false
  end.

Definition DELETE (env : Env) (request : Request unit) (planId : string)
  : Prog Response :=
  try_catch
    (if negb (validateApiKey env request) then
       Ret (errorResponse "Invalid or missing API key" 401)
     else if negb (Regex.isUUID planId) then
       Ret (errorResponse "Invalid pricing plan ID format" 400)
     else
       check <- await (MembersUsingPlan planId) ;;
       match error check with
       | Some _ => Ret (errorResponse "Failed to check plan usage" 500)
       | None =>
           if in_use (data check) then
             Ret (errorResponse
                    "Cannot delete pricing plan that is currently in use by members"
                    409)
           else
             r <- await (PlansDelete planId) ;;
             match error r with
             | Some _ => Ret (errorResponse "Failed to delete pricing plan" 500)
             | None => Ret (NextResponse.empty 204)
             end
       end)
    internal_error.

End PricingPlan.

(** ** [app/api/transactions]: list and create *)

Module Transactions.

Definition requiredFields : list string :=
  ["member_id"; "amount"; "payment_method"; "transaction_date"].

(** [!transactionData[field]] for the required field names. *)
Definition missing (transactionData : TransactionData) (f : string) : bool :=
  if String.eqb f "member_id" then negb (truthy (member_id transactionData))
  else if String.eqb f "amount"
       then negb (PricingPlans.truthy_num (amount transactionData))
  else if String.eqb f "payment_method"
       then negb (truthy (payment_method transactionData))
  else if String.eqb f "transaction_date"
       then negb (truthy (transaction_date transactionData))
  else true.

Definition missingFields (transactionData : TransactionData) : list string :=
  filter (missing transactionData) requiredFields.

(** [transactionData.status || 'pending'] *)
Definition status_or_pending (status : option json) : json :=
  match status with
  | Some v => if truthy_json v then v else JStr "pending"
  | None => JStr "pending"
  end.

(** [{ ...transactionData, status: transactionData.status || 'pending' }] *)
Definition with_status (transactionData : TransactionData) : TransactionData :=
  {| member_id := member_id transactionData;
     plan_id := plan_id transactionData;
     amount := amount transactionData;
     payment_method := payment_method transactionData;
     transaction_date := transaction_date transactionData;
     status := Some (status_or_pending (status transactionData));
     notes := notes transactionData |}.

(** The list query: equality and date filters, then [order] and
    [range(offset, offset + limit - 1)]. *)
Definition query (request : Request unit) : Call :=
  let get := fun k => searchParams_get k (searchParams request) in
  let page := page_of request in
  let limit := limit_of request in
  let sort := or_else (get "sort") "created_at" in
  let order := or_else (get "order") "desc" in
  let offset := offset_of page limit in
  TransactionsList
    (if_truthy (get "member_id"))
    (if_truthy (get "plan_id"))
    (if_truthy (get "status"))
    (if_truthy (get "payment_method"))
    (if_truthy (get "date_from"))
    (if_truthy (get "date_to"))
    sort (String.eqb order "asc")
    offset (range_end offset limit).

Definition GET (env : Env) (request : Request unit) : Prog Response :=
  try_catch
    (if negb (validateApiKey env request) then
       Ret (errorResponse "Invalid or missing API key" 401)
     else
       let page := page_of request in
       let limit := limit_of request in
       r <- await (query request) ;;
       match error r with
       | Some _ => Ret (errorResponse "Failed to fetch transactions" 500)
       | None => Ret (listResponse (data r) (pagination page limit (count r)))
       end)
    internal_error.

(** [!member] on the [data] of a reply *)
Definition absent {A} (d : option A) : bool :=
  match d with Some _ => false | None => true end.

Definition POST (env : Env) (request : Request TransactionData)
  : Prog Response :=
  try_catch
    (if negb (validateApiKey env request) then
       Ret (errorResponse "Invalid or missing API key" 401)
     else
       transactionData <- request_json request ;;
       let missingFields := missingFields transactionData in
       if (0 <? length missingFields)%nat then
         Ret (missingResponse missingFields)
       else if PricingPlans.le_0 (amount transactionData) then
         Ret (errorResponse "Amount must be greater than 0" 400)
       else
         member <- await (MembersSelectId (member_id transactionData)) ;;
         if absent (data member) then
           Ret (errorResponse "Member not found" 404)
         else
           let insert :=
             r <- await (TransactionsInsert (with_status transactionData)) ;;
             match error r with
             | Some _ => Ret (errorResponse "Failed to create transaction" 500)
             | None => Ret (successResponse (row_json (data r)) 201)
             end in
           if truthy (plan_id transactionData) then
             plan <- await (PlansSelectId (plan_id transactionData)) ;;
             if absent (data plan) then
               Ret (errorResponse "Pricing plan not found" 404)
             else insert
           else insert)
    internal_error.

End Transactions.

(** ** [app/api/transactions/[id]]: read one transaction *)

Module Transaction.

(** [authenticatedMemberId !== transaction.member_id], the left side being
    a string, [null] or [undefined] and the right side a JSON value or
    [undefined]: two strings that are equal, [null] and [null], and
    [undefined] and [undefined] are the only pairs that are strictly
    equal. *)
Definition strict_neq (authenticatedMemberId : MemberId)
  (owner : option json) : bool :=
  match authenticatedMemberId, owner with
  | Id a, Some (JStr b) => negb (String.eqb a b)
  | IdNull, Some JNull => false
  | IdUndefined, None => false
  | _, _ => true
  end.

Definition GET (env : Env) (request : Request unit) (transactionId : string)
  : Prog Response :=
  try_catch
    (if negb (Regex.isUUID transactionId) then
       Ret (errorResponse "Invalid transaction ID format" 400)
     else
       r <- await (TransactionsSelectById transactionId) ;;
       match error r with
       | Some e =>
           if code_is "PGRST116" e
           then Ret (errorResponse "Transaction not found" 404)
           else Ret (errorResponse "Failed to fetch transaction" 500)
       | None =>
           let transaction := data r in
           let isAdmin := validateApiKey env request in
           let authenticatedMemberId := validateMemberToken env request in
           if isAdmin then Ret (successResponse (row_json transaction) 200)
           else
             match transaction with
             | None => Throw (* transaction.member_id on null *)
             | Some row =>
                 if strict_neq authenticatedMemberId (get_prop "member_id" row)
                 then Ret (errorResponse
                             "Access denied. Admin access or transaction ownership required"
                             403)
                 else Ret (successResponse (row_json transaction) 200)
             end
       end)
    internal_error.

End Transaction.

(** ** Vocabulary of the statements *)

(** The three list endpoints. *)
Inductive Listing : Type := ListMembers | ListTransactions | ListPricingPlans.

Definition list_GET (l : Listing) (env : Env) (request : Request unit)
  : Prog Response :=
  match l with
  | ListMembers => Members.GET env request
  | ListTransactions => Transactions.GET env request
  | ListPricingPlans => PricingPlans.GET env request
  end.

(** The reply of the store to the list query of the request. *)
Definition list_reply (store : Store) (l : Listing) (env : Env)
  (request : Request unit) : Reply (list Row) :=
  match l with
  | ListMembers => store [] (Members.query env request)
  | ListTransactions => store [] (Transactions.query request)
  | ListPricingPlans => store [] (PricingPlans.query request)
  end.

(** The request gets past authorization and is served by the list branch
    of its handler: members and transactions want the admin key, and the
    members route lists unless its path names a member or the statistics;
    pricing plans are public. *)
Definition lists (l : Listing) (env : Env) (request : Request unit) : bool :=
  match l with
  | ListMembers =>
      let memberId := last_segment (pathname request) in
      validateApiKey env request
      && negb (Regex.isUUID memberId && negb (String.eqb memberId "members"))
      && negb (Str.includes "/stats" (pathname request))
  | ListTransactions => validateApiKey env request
  | ListPricingPlans => true
  end.

(** The 403 of the owner gate. *)
Definition access_denied : Response :=
  errorResponse
    "Access denied. Admin access or transaction ownership required" 403.


(** ** Concrete requests, used to run the handlers *)

Module Examples.

Definition admin_env : Env :=
  {| ADMIN_API_KEY := Some "s3cret";
     JWT_SECRET := Some "jwt-key";
     verify := fun token _ =>
       if String.eqb token "token-of-member-2" then Some (Some "member-2")
       else if String.eqb token "token-without-member" then Some None
       else None;
     now_ISO := "2024-05-01T10:00:00.000Z" |}.

Definition get_request (path : string) (params : list (string * string))
  (auth : option string) : Request unit :=
  {| searchParams := params; pathname := path;
     authorization := auth; json_body := None |}.

Definition body_request {B} (path : string) (body : B) : Request B :=
  {| searchParams := [("api_key", "s3cret")]; pathname := path;
     authorization := None; json_body := Some body |}.

(** [GET /api/members?api_key=s3cret&page=2&limit=10] *)
Definition members_page_2 : Request unit :=
  get_request "/api/members"
    [("api_key", "s3cret"); ("page", "2"); ("limit", "10")] None.

Definition no_reply (c : Call) : Reply (DataOf c) :=
  {| data := None; error := None; count := None |}.

(** A store holding 25 members, one of them on the plan asked about, and
    one transaction, owned by member-1. *)
Definition transaction_row : Row :=
  [("id", JStr "123e4567-e89b-12d3-a456-426614174000");
   ("member_id", JStr "member-1");
   ("amount", JNum (JS.of_Z 50))].

Definition store : Store := fun _ c =>
  match c return Reply (DataOf c) with
  | MembersList _ _ _ _ _ _ _ =>
      {| data := Some []; error := None; count := Some 25 |}
  | MembersUsingPlan _ =>
      {| data := Some [[("id", JStr "member-1")]]; error := None;
         count := None |}
  | MembersSelectId _ =>
      {| data := Some [("id", JStr "member-1")]; error := None;
         count := None |}
  | MembersInsert _ =>
      {| data := None;
         error := Some {| code := "23505"; message := "duplicate key" |};
         count := None |}
  | TransactionsSelectById _ =>
      {| data := Some transaction_row; error := None; count := None |}
  | c' => no_reply c'
  end.

Definition transaction_id : string := "123e4567-e89b-12d3-a456-426614174000".

Definition plan_uuid : string := "0f8fad5b-d9cb-469f-a165-70867728950e".

(** [DELETE /api/pricing_plans/0f8fad5b-...?api_key=s3cret] *)
Definition delete_plan : Request unit :=
  get_request "/api/pricing_plans/0f8fad5b-d9cb-469f-a165-70867728950e"
    [("api_key", "s3cret")] None.

(** No credential at all. *)
Definition anonymous : Request unit :=
  get_request "/api/transactions/123e4567-e89b-12d3-a456-426614174000" [] None.

(** A valid bearer token of member-2, who does not own the transaction. *)
Definition as_member_2 : Request unit :=
  get_request "/api/transactions/123e4567-e89b-12d3-a456-426614174000" []
    (Some "Bearer token-of-member-2").

(** [{ name: "Gold", price: 0, duration_days: 30 }] *)
Definition gold : CreatePricingPlanRequest :=
  {| name := Some "Gold"; description := None;
     price := Some (JS.of_Z 0); duration_days := Some (JS.of_Z 30);
     features := None; is_active := None |}.


Definition good_member : CreateMemberRequest :=
  {| first_name := Some "Ada"; last_name := Some "Lovelace";
     photo_url := None; phone := Some "+1 555-123-4567";
     email := Some "ada@example.org";
     address := None; health_issues := None; subscription_plan_id := None;
     subscription_start_date := None; subscription_expiry_date := None;
     last_fee_paid_date := None |}.

Definition payment : TransactionData :=
  {| member_id := Some "member-1"; plan_id := None;
     amount := Some (JS.of_Z 50); payment_method := Some "card";
     transaction_date := Some "2024-05-01"; status := None; notes := None |}.

Definition silver : CreatePricingPlanRequest :=
  {| name := Some "Silver"; description := None;
     price := Some (JS.of_Z 20); duration_days := Some (JS.of_Z 30);
     features := None; is_active := None |}.

End Examples.

(** ** The other handlers of the route files

    [DELETE /api/members/:id], [GET /api/pricing_plans/:id],
    [PUT /api/transactions/:id], the two [/api/members/me] handlers and
    the OAuth callback.  They issue calls the handlers above do not: two
    more store queries, a delete, and the two calls to the identity
    provider.  [Effect] adds them to [Call]; a [Task] is a handler over
    effects, as a [Prog] is a handler over store calls. *)

(** [s.replace(pattern, replacement)] with a string pattern: the first
    occurrence only. *)
Fixpoint replace_first (pattern replacement s : string) : string :=
  if String.prefix pattern s
  then replacement ++ Str.substring_from (String.length pattern) s
  else match s with
       | EmptyString => EmptyString
       | String c s' => String c (replace_first pattern replacement s')
       end.

(** Every code unit of the string satisfies [p]. *)
Fixpoint all_chars (p : ascii -> bool) (s : string) : bool :=
  match s with
  | EmptyString => true
  | String c s' => p c && all_chars p s'
  end.

(** An update body of a transaction, with the [id] key the handler
    strips. *)
Record UpdateTransactionRequest : Type := {
  transaction_update_id : option string;
  transaction_update_fields : TransactionData
}.

(** [error] of an identity-provider reply. *)
Record AuthError : Type := { auth_message : string }.

(** [{ data: { user }, error }] of [auth.getUser]: the user is known by
    its [id]. *)
Record UserReply : Type := {
  user_id : option string;
  userError : option AuthError
}.

(** [{ data: { user }, error }] of [auth.exchangeCodeForSession]: the user
    object, or [null]. *)
Record SessionReply : Type := {
  session_user : option json;
  exchangeError : option AuthError
}.

Inductive Effect : Type :=
| Query (c : Call)
| MembersDelete (id : string)
| PlansSelectById (id : string)
| TransactionsUpdate (id : string) (row : TransactionData) (updated_at : string)
| AuthGetUser (token : string)
| AuthExchangeCodeForSession (code : string).

(** What comes back.  The code exchange may also reject ([None]); the
    callback has a [catch] for it. *)
Definition Answer (e : Effect) : Type :=
  match e with
  | Query c => Reply (DataOf c)
  | MembersDelete _ => Reply unit
  | PlansSelectById _ | TransactionsUpdate _ _ _ => Reply Row
  | AuthGetUser _ => UserReply
  | AuthExchangeCodeForSession _ => option SessionReply
  end.

Inductive Task (R : Type) : Type :=
| Done (r : R)
| Raise
| Perform (e : Effect) (k : Answer e -> Task R).

Arguments Raise {R}.

Fixpoint and_then {A B} (m : Task A) (f : A -> Task B) : Task B :=
  match m with
  | Done a => f a
  | Raise => Raise
  | Perform e k => Perform e (fun r => and_then (k r) f)
  end.

(** [try { p } catch { h }] *)
Fixpoint catch {R} (p : Task R) (h : Task R) : Task R :=
  match p with
  | Done r => Done r
  | Raise => h
  | Perform e k => Perform e (fun r => catch (k r) h)
  end.

Notation "x <~ m ;; f" := (and_then m (fun x => f))
  (at level 61, m at next level, right associativity).

(** [await] of one effect *)
Definition perform (e : Effect) : Task (Answer e) := Perform e (@Done _).

(** A handler over store calls is a handler over effects. *)
Fixpoint lift {R} (p : Prog R) : Task R :=
  match p with
  | Ret r => Done r
  | Throw => Raise
  | Await c k => Perform (Query c) (fun r => lift (k r))
  end.

(** The store and the identity provider together. *)
Definition World : Type := list Effect -> forall e : Effect, Answer e.

Fixpoint perform_from {R} (world : World) (done : list Effect) (p : Task R)
  : option R * list Effect :=
  match p with
  | Done r => (Some r, done)
  | Raise => (None, done)
  | Perform e k => perform_from world (done ++ [e]) (k (world done e))
  end.

Definition perform_all {R} (world : World) (p : Task R)
  : option R * list Effect :=
  perform_from world [] p.

(** The store a handler over store calls sees in a world. *)
Definition store_of (world : World) : Store :=
  fun issued c => world (map Query issued) (Query c).

Definition caught : Task Response :=
  Done (errorResponse "Internal server error" 500).

(** *** [app/api/members/[id]]: delete *)

Module MemberById.

Definition DELETE (env : Env) (request : Request unit) : Task Response :=
  catch
    (if negb (validateApiKey env request) then
       Done (errorResponse "Invalid or missing API key" 401)
     else
       let memberId := last_segment (pathname request) in
       if negb (JS.truthy_string memberId) || String.eqb memberId "members" then
         Done (errorResponse "Member ID is required" 400)
       else
         r <~ perform (MembersDelete memberId) ;;
         match error r with
         | Some _ => Done (errorResponse "Failed to delete member" 500)
         | None => Done (NextResponse.empty 204)
         end)
    caught.

End MemberById.

(** *** [app/api/pricing_plans/[id]]: read one plan *)

Module PlanById.

Definition GET (env : Env) (request : Request unit) (planId : string)
  : Task Response :=
  catch
    (if negb (Regex.isUUID planId) then
       Done (errorResponse "Invalid pricing plan ID format" 400)
     else
       r <~ perform (PlansSelectById planId) ;;
       match error r with
       | Some e =>
           if code_is "PGRST116" e
           then Done (errorResponse "Pricing plan not found" 404)
           else Done (errorResponse "Failed to fetch pricing plan" 500)
       | None => Done (successResponse (row_json (data r)) 200)
       end)
    caught.

End PlanById.

(** *** [app/api/transactions/[id]]: update *)

Module TransactionById.

(** [v !== undefined && v <= 0] *)
Definition given_le_0 (v : option JS.number) : bool :=
  match v with
  | Some n => JS.le n (JS.of_Z 0)
  | None => false
  end.

Definition PUT (env : Env) (request : Request UpdateTransactionRequest)
  (transactionId : string) : Task Response :=
  catch
    (if negb (validateApiKey env request) then
       Done (errorResponse "Invalid or missing API key" 401)
     else if negb (Regex.isUUID transactionId) then
       Done (errorResponse "Invalid transaction ID format" 400)
     else
       body <~ lift (request_json request) ;;
       (* delete updateData.id *)
       let updateData := transaction_update_fields body in
       if given_le_0 (amount updateData) then
         Done (errorResponse "Amount must be greater than 0" 400)
       else
         let update :=
           r <~ perform (TransactionsUpdate transactionId updateData
                           (now_ISO env)) ;;
           match error r with
           | Some e =>
               if code_is "PGRST116" e
               then Done (errorResponse "Transaction not found" 404)
               else Done (errorResponse "Failed to update transaction" 500)
           | None => Done (successResponse (row_json (data r)) 200)
           end in
         let check_plan :=
           if truthy (plan_id updateData) then
             plan <~ perform (Query (PlansSelectId (plan_id updateData))) ;;
             if Transactions.absent (data plan) then
               Done (errorResponse "Pricing plan not found" 404)
             else update
           else update in
         if truthy (member_id updateData) then
           member <~ perform (Query (MembersSelectId (member_id updateData))) ;;
           if Transactions.absent (data member) then
             Done (errorResponse "Member not found" 404)
           else check_plan
         else check_plan)
    caught.

End TransactionById.

(** *** [app/api/members/me]: the profile of the caller *)

Module Me.

Definition GET (env : Env) (request : Request unit) : Prog Response :=
  try_catch
    (let memberId := validateMemberToken env request in
     if no_id memberId then
       Ret (errorResponse "Invalid or missing authentication token" 401)
     else
       r <- await (MembersSelectById
                     (match memberId with Id m => m | _ => "" end)) ;;
       match error r with
       | Some e =>
           if code_is "PGRST116" e
           then Ret (errorResponse "Member not found" 404)
           else Ret (errorResponse "Failed to fetch member profile" 500)
       | None => Ret (successResponse (row_json (data r)) 200)
       end)
    internal_error.

End Me.

(** *** [pages/api/members/me.js]

    The handler has no [try]: the two awaited calls are taken to resolve,
    with their failures reported in [error]. *)

Module PagesMe.

(** What the handler reads of [req]. *)
Record Req : Type := {
  method : string;
  headers_authorization : option string
}.

(** [res.status(status).json(value)] *)
Definition respond (status : Z) (value : json) : Response :=
  NextResponse.mk status (Some (wire value)).

Definition handler (req : Req) : Task Response :=
  if negb (String.eqb (method req) "GET") then
    Done (respond 405 (JObj [("error", JStr "Method Not Allowed")]))
  else
    (* req.headers.authorization?.replace('Bearer ', '') *)
    let token :=
      match headers_authorization req with
      | Some h => Some (replace_first "Bearer " "" h)
      | None => None
      end in
    if negb (truthy token) then
      Done (respond 401 (JObj [("error", JStr "Missing auth token")]))
    else
      u <~ perform (AuthGetUser (match token with Some t => t | None => "" end)) ;;
      match userError u, user_id u with
      | None, Some id =>
          r <~ perform (Query (MembersSelectById id)) ;;
          match error r with
          | Some memberError =>
              Done (respond 500 (JObj [("error", JStr (message memberError))]))
          | None => Done (respond 200 (JObj [("member", row_json (data r))]))
          end
      | _, _ =>
          Done (respond 401 (JObj [("error", JStr "Invalid or expired token")]))
      end.

End PagesMe.

(** *** The OAuth callback, [GET] and [POST] *)

Module AuthCallback.

(** [new URL(input, base)] and the [searchParams.set] calls made on it, in
    order.  The resolution of [input] against [base] is left to [URL]. *)
Record URL : Type := {
  input : string;
  base : string;
  set_params : list (string * string)
}.

(** A JSON response, or [NextResponse.redirect(url)]. *)
Inductive Outcome : Type :=
| Json (r : Response)
| Redirect (url : URL).

Definition to_login (origin : string) (params : list (string * string))
  : Outcome :=
  Redirect {| input := "/login"; base := origin; set_params := params |}.

Definition value (o : option string) : string :=
  match o with Some s => s | None => EmptyString end.

(** [parses input base] tells whether [new URL(input, base)] succeeds; it
    throws otherwise.  [/login] against the origin of the request always
    parses. *)
Definition GET (parses : string -> string -> bool) (request : Request unit)
  (origin : string) : Task Outcome :=
  let get := fun k => searchParams_get k (searchParams request) in
  let code := get "code" in
  (* searchParams.get('next') ?? '/dashboard' *)
  let next := match get "next" with Some n => n | None => "/dashboard" end in
  let error := get "error" in
  let errorDescription := get "error_description" in
  if truthy error then
    Done (to_login origin
            (("error", value error)
             :: if truthy errorDescription
                then [("error_description", value errorDescription)]
                else []))
  else
    let no_code :=
      Done (to_login origin
              [("error", "missing_code");
               ("error_description", "No authorization code found")]) in
    if truthy code then
      returned <~
        catch
          (exchange <~ perform (AuthExchangeCodeForSession (value code)) ;;
           match exchange with
           | None => Raise
           | Some reply =>
               match exchangeError reply with
               | Some exchangeError =>
                   Done (Some (to_login origin
                                 [("error", "auth_error");
                                  ("error_description",
                                   auth_message exchangeError)]))
               | None =>
                   match session_user reply with
                   | Some _ =>
                       if parses next origin then
                         Done (Some (Redirect
                                       {| input := next; base := origin;
                                          set_params :=
                                            [("auth", "success")] |}))
                       else Raise
                   | None => Done None
                   end
               end
           end)
          (Done (Some (to_login origin
                         [("error", "unexpected_error");
                          ("error_description",
                           "An unexpected error occurred during authentication")]))) ;;
      match returned with
      | Some outcome => Done outcome
      | None => no_code
      end
    else no_code.

(** [{ code, next = '/dashboard' }] of the request body *)
Record Body : Type := {
  body_code : option string;
  body_next : option string
}.

Definition POST (request : Request Body) : Task Response :=
  catch
    (body <~ lift (request_json request) ;;
     let code := body_code body in
     let next := match body_next body with
                 | Some n => n
                 | None => "/dashboard"
                 end in
     if negb (truthy code) then
       Done (NextResponse.json
               (JObj [("error", JStr "Authorization code is required")]) 400)
     else
       exchange <~ perform (AuthExchangeCodeForSession (value code)) ;;
       match exchange with
       | None => Raise
       | Some reply =>
           match exchangeError reply with
           | Some error =>
               Done (NextResponse.json
                       (JObj [("error", JStr (auth_message error))]) 400)
           | None =>
               Done (NextResponse.json
                       (JObj [("success", JBool true);
                              ("user", match session_user reply with
                                       | Some user => user
                                       | None => JNull
                                       end);
                              ("redirect", JStr next)]) 200)
           end
       end)
    caught.

End AuthCallback.

(** ** More vocabulary of the statements *)

(** The list query of a list endpoint. *)
Definition list_call (l : Listing) (env : Env) (request : Request unit)
  : Call :=
  match l with
  | ListMembers => Members.query env request
  | ListTransactions => Transactions.query request
  | ListPricingPlans => PricingPlans.query request
  end.

(** The two arguments of [range] in a list query. *)
Definition range_of (c : Call) : option (JS.number * JS.number) :=
  match c with
  | MembersList _ _ _ _ _ from to => Some (from, to)
  | PlansList _ _ _ _ from to => Some (from, to)
  | TransactionsList _ _ _ _ _ _ _ _ from to => Some (from, to)
  | _ => None
  end.

(** ** More concrete requests *)

Module Cases.

(** A world in which the store is [Examples.store], the other store calls
    find nothing and report nothing, the identity provider knows the
    token ["good"] as user ["member-1"] and the code ["c0de"]. *)
Definition world : World := fun done e =>
  match e return Answer e with
  | Query c => Examples.store [] c
  | MembersDelete _ | PlansSelectById _ | TransactionsUpdate _ _ _ =>
      {| data := None; error := None; count := None |}
  | AuthGetUser token =>
      if String.eqb token "good"
      then {| user_id := Some "member-1"; userError := None |}
      else {| user_id := None;
              userError := Some {| auth_message := "invalid JWT" |} |}
  | AuthExchangeCodeForSession code =>
      if String.eqb code "c0de"
      then Some {| session_user := Some (JObj [("id", JStr "member-1")]);
                   exchangeError := None |}
      else Some {| session_user := None;
                   exchangeError :=
                     Some {| auth_message := "invalid grant" |} |}
  end.

(** The same world with the store down. *)
Definition world_down : World := fun done e =>
  match e return Answer e with
  | Query c =>
      {| data := None;
         error := Some {| code := "PGRST116"; message := "no rows returned" |};
         count := None |}
  | e' => world done e'
  end.

(** A GET of the profile with the bare token as header. *)
Definition bare_token : PagesMe.Req :=
  {| PagesMe.method := "GET"; PagesMe.headers_authorization := Some "good" |}.

(** The provider sends the browser back with an error and a code. *)
Definition denied : Request unit :=
  Examples.get_request "/auth/callback"
    [("error", "access_denied"); ("code", "c0de")] None.

(** The provider sends the browser back with a code and a [next]. *)
Definition granted : Request unit :=
  Examples.get_request "/auth/callback"
    [("code", "c0de"); ("next", "https://elsewhere.example/")] None.

(** A programmatic exchange with no code. *)
Definition post_no_code : Request AuthCallback.Body :=
  Examples.body_request "/auth/callback"
    {| AuthCallback.body_code := None; AuthCallback.body_next := None |}.

(** [DELETE /api/members/some-id?api_key=guess] *)
Definition delete_guess : Request unit :=
  Examples.get_request "/api/members/some-id" [("api_key", "guess")] None.

(** [DELETE /api/members/some-id?api_key=s3cret] *)
Definition delete_some_id : Request unit :=
  Examples.get_request "/api/members/some-id" [("api_key", "s3cret")] None.

(** [GET /api/transactions/:id?api_key=s3cret] *)
Definition admin_reads : Request unit :=
  Examples.get_request
    "/api/transactions/123e4567-e89b-12d3-a456-426614174000"
    [("api_key", "s3cret")] None.

(** A store that is down: every call comes back with an error and no
    data. *)
Definition down : Store := fun _ c =>
  {| data := None;
     error := Some {| code := "08006"; message := "connection failure" |};
     count := None |}.

(** A store that finds nothing and reports nothing. *)
Definition quiet : Store := fun _ c => Examples.no_reply c.

(** [POST /api/members?api_key=s3cret] with a body that is not JSON *)
Definition no_body : Request CreateMemberRequest :=
  {| searchParams := [("api_key", "s3cret")]; pathname := "/api/members";
     authorization := None; json_body := None |}.

(** [GET /api/members?api_key=s3cret&page=abc] *)
Definition members_page_abc : Request unit :=
  Examples.get_request "/api/members"
    [("api_key", "s3cret"); ("page", "abc")] None.

(** [GET /api/members/stats?api_key=s3cret] *)
Definition members_stats : Request unit :=
  Examples.get_request "/api/members/stats" [("api_key", "s3cret")] None.

(** [PUT /api/members/some-id?api_key=s3cret] blanking email and phone *)
Definition blank_contact : Request UpdateMemberRequest :=
  Examples.body_request "/api/members/some-id"
    {| update_id := None;
       update_fields :=
         {| first_name := None; last_name := None; photo_url := None;
            phone := Some ""; email := Some ""; address := None;
            health_issues := None; subscription_plan_id := None;
            subscription_start_date := None;
            subscription_expiry_date := None;
            last_fee_paid_date := None |} |}.

(** A bearer token of member-2 on [GET /api/members/me] *)
Definition me_as_member_2 : Request unit :=
  Examples.get_request "/api/members/me" []
    (Some "Bearer token-of-member-2").

(** [PUT /api/transactions/:id?api_key=s3cret] with [{ amount: 0 }] *)
Definition amount_zero : Request UpdateTransactionRequest :=
  Examples.body_request "/api/transactions/123e4567-e89b-12d3-a456-426614174000"
    {| transaction_update_id := None;
       transaction_update_fields :=
         {| member_id := None; plan_id := None; amount := Some (JS.of_Z 0);
            payment_method := None; transaction_date := None;
            status := None; notes := None |} |}.



(** A verified bearer token whose payload has no [memberId]. *)
Definition without_member : Request unit :=
  Examples.get_request
    "/api/transactions/123e4567-e89b-12d3-a456-426614174000" []
    (Some "Bearer token-without-member").

(** An update of a pricing plan that only empties its name. *)
Definition empty_name : Request UpdatePricingPlanRequest :=
  Examples.body_request "/api/pricing_plans/123e4567-e89b-12d3-a456-426614174000"
    {| plan_update_id := None;
       plan_update_fields :=
         {| name := Some ""; description := None; price := None;
            duration_days := None; features := None; is_active := None |} |}.

End Cases.

(** * Properties *)

Unset Implicit Arguments.

(** ** The JavaScript fragment on examples *)

Example parseInt_examples :
  Str.parseInt "2" = JS.of_Z 2 /\ Str.parseInt "10" = JS.of_Z 10 /\
  Str.parseInt "  -42px" = JS.of_Z (-42) /\ Str.parseInt "0x1f" = JS.of_Z 31 /\
  Str.parseInt "abc" = JS.NaN /\ Str.parseInt "-0" = JS.NegZero /\
  Str.parseInt "" = JS.NaN.
Proof. repeat split; reflexivity. Qed.

(** Beyond [2^53] the digits are rounded to the nearest number, and a
    quotient is rounded to 53 bits. *)
Example rounding_examples :
  Str.parseInt "9007199254740993" = JS.of_Z 9007199254740992 /\
  Str.parseInt "9007199254740995" = JS.of_Z 9007199254740996 /\
  Str.parseInt "-9007199254740993" = JS.of_Z (-9007199254740992) /\
  JS.round (inject_Z (10 ^ 309)) = JS.PosInf /\
  JS.div (JS.of_Z 1) (JS.of_Z 10) =
    JS.Fin (3602879701896397 # 36028797018963968).
Proof. repeat split; vm_compute; reflexivity. Qed.

Example regex_examples :
  Regex.isUUID "123e4567-e89b-12d3-a456-426614174000" = true /\
  Regex.isUUID "123E4567-E89B-12D3-A456-42661417400G" = false /\
  Regex.isUUID "members" = false /\
  Regex.test Regex.emailRegex "a@b.co" = true /\
  Regex.test Regex.emailRegex "a@b" = false /\
  Regex.test Regex.emailRegex "a b@c.d" = false /\
  Regex.test Regex.phoneRegex "abc" = false /\
  Regex.test Regex.phoneRegex "+1 555-123-4567" = true /\
  Regex.test Regex.phoneRegex "123456" = false /\
  Regex.test Regex.phoneRegex "1234567890123456" = false.
Proof. repeat split; vm_compute; reflexivity. Qed.

(** ** Numbers *)

Section Numbers.

Lemma of_Z_lt (a b : Z) : JS.lt (JS.of_Z a) (JS.of_Z b) = (a <? b)%Z.
Proof.
  unfold JS.lt, JS.of_Z, JS.val, Qle_bool; simpl.
  rewrite !Z.mul_1_r.
  destruct (Z.leb_spec b a), (Z.ltb_spec a b); simpl; trivial; lia.
Qed.

Lemma of_Z_gt (a b : Z) : JS.gt (JS.of_Z a) (JS.of_Z b) = (b <? a)%Z.
Proof. unfold JS.gt. apply of_Z_lt. Qed.

Lemma of_Z_zero (z : Z) : JS.is_zero_num (JS.of_Z z) = (z =? 0)%Z.
Proof.
  unfold JS.is_zero_num, JS.of_Z, JS.is_zero, Qeq_bool; simpl.
  rewrite Z.mul_1_r. reflexivity.
Qed.

Lemma of_Z_sgn (z : Z) : JS.sgn (JS.of_Z z) = (z <? 0)%Z.
Proof.
  unfold JS.sgn, JS.of_Z, Qle_bool; simpl. rewrite Z.mul_1_r.
  destruct (Z.leb_spec 0 z), (Z.ltb_spec z 0); simpl; trivial; lia.
Qed.

(** Ceiling of an exact quotient of two integers, through the floor of
    the integer division. *)
Lemma Qceiling_quotient (t l : Z) :
  l <> 0 -> Qceiling (inject_Z t / inject_Z l) = - ((- t) / l).
Proof.
  intros Hl. unfold Qceiling. f_equal.
  rewrite (Zdiv_Qdiv (- t) l).
  apply Qfloor_comp.
  rewrite inject_Z_opp. field.
  intros H. apply Hl. apply (inject_Z_injective l 0). exact H.
Qed.

(** An integer up to [2^53] in absolute value is not rounded. *)
Lemma round_integer (q : Q) (z : Z) :
  (q == inject_Z z)%Q -> Z.abs z <= 2 ^ 53 -> JS.round q = JS.of_Z z.
Proof.
  intros Hq Hz. unfold JS.round.
  assert (Hf : Qfloor q = z).
  { rewrite (Qfloor_comp _ _ Hq). apply Qfloor_Z. }
  rewrite Hf.
  assert (H1 : Qeq_bool q (inject_Z z) = true) by (apply Qeq_bool_iff; exact Hq).
  assert (H2 : (Z.abs z <=? 2 ^ 53)%Z = true) by (apply Z.leb_le; exact Hz).
  rewrite H1, H2. reflexivity.
Qed.

(** The nearest integer is within one half. *)
Lemma nearest_even_spec (n d : Z) :
  0 < d -> - d <= 2 * (JS.nearest_even n d * d - n) <= d.
Proof.
  intros Hd. unfold JS.nearest_even.
  pose proof (Z.div_mod n d ltac:(lia)) as E.
  pose proof (Z.mod_pos_bound n d Hd) as B.
  destruct (Z.ltb_spec (2 * (n mod d)) d).
  - nia.
  - destruct (Z.ltb_spec d (2 * (n mod d))).
    + nia.
    + destruct (Z.even (n / d)); nia.
Qed.

(** [2^k <= a / b] for [k = log2_ratio a b], without fractions. *)
Lemma log2_ratio_lower (a b : Z) :
  0 < a -> 0 < b ->
  let k := JS.log2_ratio a b in
  b * 2 ^ Z.max k 0 <= a * 2 ^ Z.max (- k) 0.
Proof.
  intros Ha Hb. unfold JS.log2_ratio.
  set (k0 := Z.log2 a - Z.log2 b).
  destruct (Z.ltb_spec (a * 2 ^ Z.max (- k0) 0) (b * 2 ^ Z.max k0 0)) as [Hlt | Hge];
    cbv zeta; [| lia].
  destruct (Z.log2_spec a Ha) as [La _].
  destruct (Z.log2_spec b Hb) as [_ Lb].
  pose proof (Z.log2_nonneg a) as Na. pose proof (Z.log2_nonneg b) as Nb.
  destruct (Z.le_gt_cases 0 (k0 - 1)) as [Hk | Hk].
  - rewrite (Z.max_l (k0 - 1) 0) by lia. rewrite (Z.max_r (- (k0 - 1)) 0) by lia.
    rewrite Z.pow_0_r, Z.mul_1_r.
    assert (E : 2 ^ Z.log2 a = 2 ^ Z.succ (Z.log2 b) * 2 ^ (k0 - 1)).
    { rewrite <- Z.pow_add_r by lia. f_equal. subst k0. lia. }
    assert (P : 0 < 2 ^ (k0 - 1)) by (apply Z.pow_pos_nonneg; lia).
    nia.
  - rewrite (Z.max_r (k0 - 1) 0) by lia. rewrite (Z.max_l (- (k0 - 1)) 0) by lia.
    rewrite Z.pow_0_r, Z.mul_1_r.
    assert (E : 2 ^ Z.succ (Z.log2 b) = 2 ^ Z.log2 a * 2 ^ (- (k0 - 1))).
    { rewrite <- Z.pow_add_r by lia. f_equal. subst k0. lia. }
    assert (P : 0 < 2 ^ (- (k0 - 1))) by (apply Z.pow_pos_nonneg; lia).
    nia.
Qed.

Lemma log2_ratio_bounds (a b : Z) :
  0 < a < 2 ^ 53 -> 0 < b <= 2 ^ 53 -> -54 <= JS.log2_ratio a b <= 52.
Proof.
  intros Ha Hb. unfold JS.log2_ratio.
  assert (La : Z.log2 a < 53) by (apply Z.log2_lt_pow2; lia).
  assert (Lb : Z.log2 b < 54).
  { apply Z.log2_lt_pow2; [lia |]. 
    assert (2 ^ 53 < 2 ^ 54) by (apply Z.pow_lt_mono_r; lia). lia. }
  pose proof (Z.log2_nonneg a). pose proof (Z.log2_nonneg b).
  destruct (Z.ltb _ _); lia.
Qed.

(** The double nearest to a quotient [a / b] that is not an integer lies
    strictly between the two integers around it, when [a] is below
    [2^53]. *)
Lemma round_magnitude_between (a b : Z) :
  0 < a < 2 ^ 53 -> 0 < b <= 2 ^ 53 -> a mod b <> 0 ->
  exists m E : Z,
    0 < E /\ a / b * E < m < (a / b + 1) * E /\
    JS.round_magnitude a b = Some (Qred (m # Z.to_pos E)).
Proof.
  intros Ha Hb Hr.
  pose proof (log2_ratio_bounds a b Ha Hb) as Hk.
  pose proof (log2_ratio_lower a b ltac:(lia) ltac:(lia)) as Hlow.
  cbv zeta in Hlow.
  unfold JS.round_magnitude.
  set (k := JS.log2_ratio a b) in *.
  rewrite (Z.max_l (k - 52) (-1074)) by lia.
  rewrite (Z.max_r (k - 52) 0) by lia.
  rewrite (Z.max_l (- (k - 52)) 0) by lia.
  rewrite Z.pow_0_r, !Z.mul_1_r.
  set (E := 2 ^ (- (k - 52))).
  assert (PE : 0 < E) by (apply Z.pow_pos_nonneg; lia).
  assert (HE : 2 ^ 52 * b <= a * E).
  { destruct (Z.le_gt_cases 0 k) as [Hk0 | Hk0].
    - rewrite (Z.max_l k 0), (Z.max_r (- k) 0), Z.pow_0_r, Z.mul_1_r in Hlow by lia.
      assert (X : 2 ^ 52 = 2 ^ k * E).
      { subst E. rewrite <- Z.pow_add_r by lia. f_equal. lia. }
      rewrite X. nia.
    - rewrite (Z.max_r k 0), (Z.max_l (- k) 0), Z.pow_0_r, Z.mul_1_r in Hlow by lia.
      assert (X : E = 2 ^ (- k) * 2 ^ 52).
      { subst E. rewrite <- Z.pow_add_r by lia. f_equal. lia. }
      rewrite X. nia. }
  pose proof (nearest_even_spec (a * E) b ltac:(lia)) as Hm.
  set (m := JS.nearest_even (a * E) b) in *.
  pose proof (Z.div_mod a b ltac:(lia)) as D.
  pose proof (Z.mod_pos_bound a b ltac:(lia)) as B.
  set (f := a / b) in *. set (r := a mod b) in *.
  assert (H2E : b < 2 * E).
  { assert (2 ^ 53 = 2 * 2 ^ 52) by reflexivity. nia. }
  assert (Hup : m < (f + 1) * E).
  { assert (2 * (m * b) < 2 * ((f + 1) * E * b)); [| nia].
    assert (a + 1 <= (f + 1) * b) by lia.
    assert (2 * E * (a + 1) <= 2 * E * ((f + 1) * b))
      by (apply Z.mul_le_mono_nonneg_l; lia).
    lia. }
  assert (Hlo : f * E < m).
  { assert (2 * (f * E * b) < 2 * (m * b)); [| nia].
    assert (f * b <= a - 1) by lia.
    assert (2 * E * (f * b) <= 2 * E * (a - 1))
      by (apply Z.mul_le_mono_nonneg_l; lia).
    lia. }
  assert (Hf : 0 <= f) by (subst f; apply Z.div_pos; lia).
  assert (Hf53 : f + 1 <= 2 ^ 53).
  { assert (f < 2 ^ 53); [| lia]. subst f. apply Z.div_lt_upper_bound; nia. }
  assert (HE2 : E <= 2 ^ 106) by (subst E; apply Z.pow_le_mono_r; lia).
  assert (Hbig : m < 2 ^ 1024).
  { assert ((f + 1) * E <= 2 ^ 53 * 2 ^ 106) by (apply Z.mul_le_mono_nonneg; lia).
    assert (2 ^ 53 * 2 ^ 106 < 2 ^ 1024).
    { rewrite <- Z.pow_add_r by lia. apply Z.pow_lt_mono_r; lia. }
    lia. }
  destruct (Z.leb_spec (2 ^ 1024) m); [lia |].
  exists m, E. repeat split; assumption.
Qed.

(** Rounding a positive quotient of two integers below [2^53] does not
    move it across an integer. *)
Lemma round_quotient (q : Q) :
  0 < Qnum q < 2 ^ 53 -> Zpos (Qden q) <= 2 ^ 53 ->
  exists v, JS.round q = JS.Fin v /\ Qceiling v = Qceiling q /\ (0 < v)%Q.
Proof.
  intros Ha Hb. destruct q as [a b]. cbn [Qnum Qden] in *.
  unfold JS.round.
  destruct (Qeq_bool (a # b) (inject_Z (Qfloor (a # b)))
            && (Z.abs (Qfloor (a # b)) <=? 2 ^ 53)%Z) eqn:Hfast.
  - apply andb_true_iff in Hfast as [Hq _]. apply Qeq_bool_iff in Hq.
    exists (inject_Z (Qfloor (a # b))). split; [reflexivity |]. split.
    + rewrite <- Hq. reflexivity.
    + rewrite <- Hq. unfold Qlt. cbn. lia.
  - assert (Hr : a mod Zpos b <> 0).
    { intros Hr. apply andb_false_iff in Hfast as [Hq | Hz].
      - apply Qeq_bool_neq in Hq. apply Hq.
        unfold Qeq, Qfloor. cbn.
        pose proof (Z.div_mod a (Zpos b) ltac:(lia)). nia.
      - apply Z.leb_gt in Hz. unfold Qfloor in Hz.
        assert (0 <= a / Zpos b) by (apply Z.div_pos; lia).
        assert (a / Zpos b <= a) by (apply Z.div_le_upper_bound; nia).
        lia. }
    cbn [Qnum Qden].
    destruct (Z.ltb_spec a 0); [lia |].
    rewrite Z.abs_eq by lia.
    destruct (round_magnitude_between a (Zpos b) Ha ltac:(lia) Hr)
      as [m [E [PE [[Hlo Hup] ->]]]].
    assert (Hf : 0 <= a / Zpos b) by (apply Z.div_pos; lia).
    assert (Hm : 0 < m) by nia.
    assert (Hv : (0 < Qred (m # Z.to_pos E))%Q).
    { rewrite Qred_correct. unfold Qlt. cbn. lia. }
    assert (Hz : JS.is_zero (Qred (m # Z.to_pos E)) = false).
    { unfold JS.is_zero. destruct (Qeq_bool _ 0) eqn:Hq; [| reflexivity].
      apply Qeq_bool_iff in Hq. rewrite Hq in Hv. discriminate Hv. }
    rewrite Hz. eexists. split; [reflexivity |]. split; [| exact Hv].
    rewrite (Qceiling_comp _ _ (Qred_correct _)).
    unfold Qceiling, Qfloor, Qopp. cbn [Qnum Qden].
    rewrite Z2Pos.id by exact PE.
    f_equal.
    pose proof (Z.div_mod a (Zpos b) ltac:(lia)) as D.
    pose proof (Z.mod_pos_bound a (Zpos b) ltac:(lia)) as B.
    transitivity (- (a / Zpos b + 1)).
    + symmetry. apply Z.div_unique with (r := (a / Zpos b + 1) * E - m); lia.
    + apply Z.div_unique with (r := Zpos b - a mod Zpos b); lia.
Qed.

(** [Math.ceil(t / l)] on a count and a positive limit below [2^53] is
    the integer ceiling: the rounding of the quotient does not show. *)
Lemma ceil_div_pos (t l : Z) :
  0 < l <= 2 ^ 53 -> 0 <= t < 2 ^ 53 ->
  JS.Math_ceil (JS.div (JS.of_Z t) (JS.of_Z l)) = JS.of_Z (- ((- t) / l)).
Proof.
  intros Hl Ht. unfold JS.div.
  change (JS.is_nan (JS.of_Z t)) with false.
  change (JS.is_nan (JS.of_Z l)) with false.
  change (JS.is_inf (JS.of_Z t)) with false.
  change (JS.is_inf (JS.of_Z l)) with false.
  cbn [orb]. rewrite !of_Z_zero, !of_Z_sgn.
  destruct (Z.eqb_spec l 0) as [|_]; [lia|].
  destruct (Z.eqb_spec t 0) as [-> | Ht0].
  - destruct (Z.ltb_spec l 0); [lia|]. reflexivity.
  - change (JS.val (JS.of_Z t)) with (inject_Z t).
    change (JS.val (JS.of_Z l)) with (inject_Z l).
    destruct (round_quotient (inject_Z t / inject_Z l)) as [v [-> [Hc Hv]]].
    + destruct l as [| pl | pl]; try lia. cbn. lia.
    + destruct l as [| pl | pl]; try lia. cbn. lia.
    + unfold JS.Math_ceil.
      apply Qlt_le_weak, Qle_bool_iff in Hv. rewrite Hv, andb_false_r.
      rewrite Hc, Qceiling_quotient by lia. reflexivity.
Qed.

(** The integer [- ((- t) / l)] is the ceiling of [t / l]. *)
Lemma ceiling_bounds (t l : Z) :
  0 < l -> let n := - ((- t) / l) in (n - 1) * l < t <= n * l.
Proof.
  intros Hl n. subst n.
  pose proof (Z.div_mod (- t) l) as E.
  pose proof (Z.mod_pos_bound (- t) l Hl) as B.
  nia.
Qed.

End Numbers.

(** ** Regular expressions: [test] decides [matches] *)

Section RegexSemantics.

Import Regex.

Lemma append_empty_r (s : string) : s ++ "" = s.
Proof. induction s as [| c s IH]; cbn; [| rewrite IH]; reflexivity. Qed.

Lemma append_empty (s1 s2 : string) : s1 ++ s2 = "" -> s1 = "" /\ s2 = "".
Proof. destruct s1; cbn; [auto | discriminate]. Qed.

Lemma nullable_matches (r : regex) : nullable r = true <-> matches r "".
Proof.
  split.
  - induction r; cbn; intros H; try discriminate.
    + constructor.
    + apply andb_true_iff in H as [H1 H2].
      change "" with ("" ++ ""). constructor; auto.
    + apply orb_true_iff in H as [H | H];
        [apply m_alt_l | apply m_alt_r]; auto.
    + constructor.
  - intros H. remember "" as s eqn:Es.
    induction H; cbn; try reflexivity; try discriminate.
    + apply append_empty in Es as [-> ->]. rewrite IHmatches1, IHmatches2; auto.
    + rewrite IHmatches; auto.
    + rewrite IHmatches; auto using orb_true_r.
Qed.

Lemma cat_inv (r1 r2 : regex) (s : string) :
  matches (Cat r1 r2) s ->
  exists s1 s2, s = s1 ++ s2 /\ matches r1 s1 /\ matches r2 s2.
Proof. intros H. inversion H; subst. eauto. Qed.

Lemma alt_inv (r1 r2 : regex) (s : string) :
  matches (Alt r1 r2) s -> matches r1 s \/ matches r2 s.
Proof. intros H. inversion H; subst; auto. Qed.

Lemma void_inv (s : string) : ~ matches Void s.
Proof. intros H. inversion H. Qed.

Lemma eps_inv (s : string) : matches Eps s -> s = "".
Proof. intros H. inversion H. reflexivity. Qed.

Lemma matches_cat (r1 r2 : regex) (s : string) :
  matches (cat r1 r2) s <-> matches (Cat r1 r2) s.
Proof.
  split.
  - intros H.
    assert (Hvoid : (r1 = Void \/ r2 = Void) -> matches (Cat r1 r2) s).
    { intros [-> | ->]; [| destruct r1]; cbn in H;
        exfalso; exact (void_inv _ H). }
    assert (Heps : r1 = Eps -> matches (Cat r1 r2) s).
    { intros ->. change s with ("" ++ s). constructor; [constructor |].
      destruct r2; exact H. }
    destruct r1; auto; destruct r2; auto.
  - intros H. apply cat_inv in H as [s1 [s2 [-> [H1 H2]]]].
    destruct r1; try (exfalso; exact (void_inv _ H1));
      destruct r2; try (exfalso; exact (void_inv _ H2)); cbn;
      try (now constructor);
      apply eps_inv in H1; subst s1; exact H2.
Qed.

Lemma matches_alt (r1 r2 : regex) (s : string) :
  matches (alt r1 r2) s <-> matches (Alt r1 r2) s.
Proof.
  split.
  - intros H. destruct r1; try (apply m_alt_r; exact H);
      destruct r2; try (apply m_alt_l; exact H); exact H.
  - intros H. apply alt_inv in H as [H | H].
    + destruct r1; try (exfalso; exact (void_inv _ H));
        destruct r2; cbn; try exact H; now apply m_alt_l.
    + destruct r1; cbn; try exact H;
        destruct r2; try (exfalso; exact (void_inv _ H)); cbn;
        now apply m_alt_r.
Qed.

(** A match of [Star r] against a string that starts with [c] begins with
    a non-empty match of [r]. *)
Lemma star_first (r : regex) (c : ascii) (s : string) :
  matches (Star r) (String c s) ->
  exists s1 s2, s = s1 ++ s2 /\ matches r (String c s1) /\ matches (Star r) s2.
Proof.
  intros H. remember (Star r) as r' eqn:Er. remember (String c s) as cs eqn:Es.
  revert s Es.
  induction H as [| | | | | | r0 s1 s2 H1 _ H2 IH2]; intros t Es;
    try discriminate.
  injection Er as ->.
  destruct s1 as [| c1 s1]; cbn in Es.
  - apply IH2; auto.
  - injection Es as -> <-. exists s1, s2. auto.
Qed.

Lemma deriv_matches (c : ascii) (r : regex) (s : string) :
  matches (deriv c r) s <-> matches r (String c s).
Proof.
  revert s. induction r as [| | p | r1 IH1 r2 IH2 | r1 IH1 r2 IH2 | r1 IH1];
    intros s; cbn.
  - split; intros H; inversion H.
  - split; intros H; inversion H.
  - destruct (p c) eqn:Hp; split; intros H; inversion H; subst.
    + now constructor.
    + constructor.
    + congruence.
  - rewrite matches_alt. split.
    + intros H. apply alt_inv in H as [H | H].
      * apply matches_cat, cat_inv in H as [s1 [s2 [-> [Ha Hb]]]].
        change (String c (s1 ++ s2)) with (String c s1 ++ s2).
        constructor; [apply IH1 |]; assumption.
      * destruct (nullable r1) eqn:Hn; [| exfalso; exact (void_inv _ H)].
        change (String c s) with ("" ++ String c s).
        constructor; [apply nullable_matches | apply IH2]; assumption.
    + intros H. apply cat_inv in H as [s1 [s2 [Es [Ha Hb]]]].
      destruct s1 as [| c1 s1]; cbn in Es.
      * subst s2. apply m_alt_r.
        apply nullable_matches in Ha. rewrite Ha. apply IH2. exact Hb.
      * injection Es as <- ->. apply m_alt_l. apply matches_cat.
        constructor; [apply IH1 |]; assumption.
  - rewrite matches_alt. split; intros H; apply alt_inv in H as [H | H].
    + apply m_alt_l, IH1; assumption.
    + apply m_alt_r, IH2; assumption.
    + apply m_alt_l, IH1; assumption.
    + apply m_alt_r, IH2; assumption.
  - rewrite matches_cat. split.
    + intros H. apply cat_inv in H as [s1 [s2 [-> [Ha Hb]]]].
      change (String c (s1 ++ s2)) with (String c s1 ++ s2).
      constructor; [apply IH1 |]; assumption.
    + intros H. apply star_first in H as [s1 [s2 [-> [Ha Hb]]]].
      constructor; [apply IH1 |]; assumption.
Qed.

(** [test] is a decision procedure for the language of the pattern. *)
Theorem test_matches (r : regex) (s : string) :
  test r s = true <-> matches r s.
Proof.
  revert r. induction s as [| c s IH]; intros r; cbn.
  - apply nullable_matches.
  - rewrite IH. apply deriv_matches.
Qed.

End RegexSemantics.

(** ** Pagination of the three list endpoints *)

Lemma list_GET_run (l : Listing) env request store :
  lists l env request = true ->
  error (list_reply store l env request) = None ->
  fst (run store (list_GET l env request)) =
  Some (listResponse (data (list_reply store l env request))
          (pagination (page_of request) (limit_of request)
             (count (list_reply store l env request)))).
Proof.
  intros Hl He. destruct l; simpl in *.
  - apply andb_true_iff in Hl as [Hl Hstats].
    apply andb_true_iff in Hl as [Hkey Hid].
    unfold Members.GET. rewrite Hkey.
    apply negb_true_iff in Hid, Hstats. rewrite Hid, Hstats.
    unfold run; simpl. rewrite He. reflexivity.
  - unfold Transactions.GET. rewrite Hl.
    unfold run; simpl. rewrite He. reflexivity.
  - unfold PricingPlans.GET, run; simpl. rewrite He. reflexivity.
Qed.

(** The body of a list response, field by field. *)
Lemma list_GET_answer (l : Listing) env request store (t : Z) :
  lists l env request = true ->
  error (list_reply store l env request) = None ->
  count (list_reply store l env request) = Some t ->
  let page := page_of request in
  let limit := limit_of request in
  let totalPages := JS.Math_ceil (JS.div (JS.of_Z t) limit) in
  fst (run store (list_GET l env request)) =
    Some (NextResponse.mk 200
            (Some (JObj [("data",
                          wire (rows_json
                                  (data (list_reply store l env request))));
                         ("pagination",
                          JObj [("page", wire (JNum page));
                                ("limit", wire (JNum limit));
                                ("total", JNum (JS.of_Z t));
                                ("totalPages", wire (JNum totalPages));
                                ("hasNext", JBool (JS.lt page totalPages));
                                ("hasPrev",
                                 JBool (JS.gt page (JS.of_Z 1)))])]))).
Proof.
  intros Hl He Hc.
  rewrite (list_GET_run l env request store Hl He), Hc. reflexivity.
Qed.

(** C1.  Every list request (members, transactions, pricing plans) whose
    query succeeds with a row count [t] is answered 200 with the rows and
    the summary [{page, limit, total: t, totalPages, hasNext, hasPrev}],
    in which [totalPages = Math.ceil(t / limit)],
    [hasNext = page < totalPages] and [hasPrev = page > 1], as the client
    reads them.  When [page] and [limit] are integers and [limit] is
    positive, [totalPages] is the integer ceiling [k] of [t / limit], that
    is [(k - 1) * limit < t <= k * limit].  With [page=2], [limit=10] and
    25 rows the summary is
    [{page:2, limit:10, total:25, totalPages:3, hasNext:true, hasPrev:true}].
    Counts and limits are taken up to [2^53], where every integer is a
    number. *)
Theorem pagination_summary (l : Listing) (env : Env) (request : Request unit)
  (store : Store) (t : Z) :
  lists l env request = true ->
  error (list_reply store l env request) = None ->
  count (list_reply store l env request) = Some t ->
  0 <= t < 2 ^ 53 ->
  let page := page_of request in
  let limit := limit_of request in
  let totalPages := JS.Math_ceil (JS.div (JS.of_Z t) limit) in
  let rows := wire (rows_json (data (list_reply store l env request))) in
  fst (run store (list_GET l env request)) =
    Some (NextResponse.mk 200
            (Some (JObj [("data", rows);
                         ("pagination",
                          JObj [("page", wire (JNum page));
                                ("limit", wire (JNum limit));
                                ("total", JNum (JS.of_Z t));
                                ("totalPages", wire (JNum totalPages));
                                ("hasNext", JBool (JS.lt page totalPages));
                                ("hasPrev",
                                 JBool (JS.gt page (JS.of_Z 1)))])])))
  /\ (forall p n : Z,
        page = JS.of_Z p -> limit = JS.of_Z n -> 0 < n <= 2 ^ 53 ->
        exists k : Z,
          (k - 1) * n < t <= k * n /\
          fst (run store (list_GET l env request)) =
            Some (NextResponse.mk 200
                    (Some (JObj [("data", rows);
                                 ("pagination",
                                  JObj [("page", JNum (JS.of_Z p));
                                        ("limit", JNum (JS.of_Z n));
                                        ("total", JNum (JS.of_Z t));
                                        ("totalPages", JNum (JS.of_Z k));
                                        ("hasNext", JBool (p <? k)%Z);
                                        ("hasPrev", JBool (1 <? p)%Z)])]))))
  /\ (searchParams_get "page" (searchParams request) = Some "2" ->
      searchParams_get "limit" (searchParams request) = Some "10" ->
      t = 25 ->
      fst (run store (list_GET l env request)) =
        Some (NextResponse.mk 200
                (Some (JObj [("data", rows);
                             ("pagination",
                              JObj [("page", JNum (JS.of_Z 2));
                                    ("limit", JNum (JS.of_Z 10));
                                    ("total", JNum (JS.of_Z 25));
                                    ("totalPages", JNum (JS.of_Z 3));
                                    ("hasNext", JBool true);
                                    ("hasPrev", JBool true)])])))).
Proof.
  intros Hl He Hc Ht page limit totalPages rows.
  assert (E : fst (run store (list_GET l env request)) =
    Some (NextResponse.mk 200
            (Some (JObj [("data", rows);
                         ("pagination",
                          JObj [("page", wire (JNum page));
                                ("limit", wire (JNum limit));
                                ("total", JNum (JS.of_Z t));
                                ("totalPages", wire (JNum totalPages));
                                ("hasNext", JBool (JS.lt page totalPages));
                                ("hasPrev",
                                 JBool (JS.gt page (JS.of_Z 1)))])])))).
  { exact (list_GET_answer l env request store t Hl He Hc). }
  split; [exact E | split].
  - intros p n Hp Hn Hpos.
    exists (- ((- t) / n)). split.
    + apply ceiling_bounds. lia.
    + rewrite E. subst totalPages. rewrite Hp, Hn.
      rewrite ceil_div_pos by assumption.
      rewrite of_Z_lt, of_Z_gt. reflexivity.
  - intros Hp Hn ->. rewrite E. subst totalPages page limit.
    unfold page_of, limit_of. rewrite Hp, Hn.
    change (Str.parseInt (or_else (Some "2") "1")) with (JS.of_Z 2).
    change (Str.parseInt (or_else (Some "10") "10")) with (JS.of_Z 10).
    change (JS.Math_ceil (JS.div (JS.of_Z 25) (JS.of_Z 10))) with (JS.of_Z 3).
    reflexivity.
Qed.

Lemma pagination_summary_witness :
  lists ListMembers Examples.admin_env Examples.members_page_2 = true /\
  fst (run Examples.store
         (Members.GET Examples.admin_env Examples.members_page_2)) =
  Some (NextResponse.mk 200
    (Some (JObj
      [("data", JArr []);
       ("pagination",
        JObj [("page", JNum (JS.of_Z 2)); ("limit", JNum (JS.of_Z 10));
              ("total", JNum (JS.of_Z 25)); ("totalPages", JNum (JS.of_Z 3));
              ("hasNext", JBool true); ("hasPrev", JBool true)])]))).
Proof.
  split; [reflexivity |].
  exact (proj2 (proj2 (pagination_summary ListMembers Examples.admin_env
                         Examples.members_page_2 Examples.store
                         25 eq_refl eq_refl eq_refl
                         (conj (proj1 (Z.leb_le 0 25) eq_refl) eq_refl)))
           eq_refl eq_refl eq_refl).
Defined.

(** A limit of zero: [Math.ceil(t / 0)] is [Infinity] for a positive
    count, every page has a next one, and the client reads [totalPages]
    as [null]. *)
Lemma pagination_limit_zero (page : JS.number) (t : Z) :
  0 < t ->
  let P := pagination page (JS.of_Z 0) (Some t) in
  totalPages P = JS.PosInf
  /\ hasNext P = JS.lt page JS.PosInf
  /\ wire (JNum (totalPages P)) = JNull.
Proof.
  intros Ht P. subst P. unfold pagination. cbn [count_or_0].
  assert (E : JS.Math_ceil (JS.div (JS.of_Z t) (JS.of_Z 0)) = JS.PosInf).
  { unfold JS.div.
    change (JS.is_nan (JS.of_Z t)) with false.
    change (JS.is_inf (JS.of_Z t)) with false.
    change (JS.is_nan (JS.of_Z 0)) with false.
    change (JS.is_inf (JS.of_Z 0)) with false.
    cbn [orb]. rewrite !of_Z_zero, !of_Z_sgn.
    destruct (Z.eqb_spec t 0); [lia |].
    destruct (Z.ltb_spec t 0); [lia |]. reflexivity. }
  rewrite E. cbn [totalPages hasNext]. repeat split.
Qed.

(** ** Running a handler step by step *)

Lemma run_await {R} (store : Store) (issued : list Call) (c : Call)
  (k : Reply (DataOf c) -> Prog R) (h : Prog R) :
  run_from store issued (try_catch (x <- await c ;; k x) h) =
  run_from store (issued ++ [c]) (try_catch (k (store issued c)) h).
Proof. reflexivity. Qed.

Lemma run_ret {R} (store : Store) (issued : list Call) (r : R) (h : Prog R) :
  run_from store issued (try_catch (Ret r) h) = (Some r, issued).
Proof. reflexivity. Qed.

(** Issue the next call of the handler and name the parts of its reply. *)
Ltac await_reply d e n :=
  rewrite run_await;
  match goal with
  | |- context [run_from ?s (?i ++ [?c]) _] =>
      destruct (s i c) as [d e n] eqn:?
  end;
  cbn [data error count app].

(** Two responses that differ in status or body. *)
Ltac response_clash H :=
  unfold errorResponse, successResponse, missingResponse, listResponse,
    NextResponse.json, NextResponse.empty in H;
  simpl in H; discriminate H.

(** ** Creating a pricing plan: price zero *)

(** What the required-field filter keeps for [{name:"Gold", price:0,
    duration_days:30}]: [0] is falsy, so [price] counts as missing. *)
Lemma gold_missing planData :
  name planData = Some "Gold" ->
  price planData = Some (JS.of_Z 0) ->
  duration_days planData = Some (JS.of_Z 30) ->
  PricingPlans.missingFields planData = ["price"].
Proof.
  intros Hn Hp Hd. unfold PricingPlans.missingFields, PricingPlans.requiredFields.
  cbn [filter]. unfold PricingPlans.missing. simpl.
  rewrite Hn, Hp, Hd. reflexivity.
Qed.

(** C2.  [POST /api/pricing_plans] with the admin key and
    [{name:"Gold", price:0, duration_days:30}] is answered 400, but by the
    required-field check: the body is
    [{error:"Missing required fields", missing:["price"]}], and the test
    [price <= 0] with its message "Price must be greater than 0" is never
    reached.  No store call is issued. *)
Theorem price_zero_reported_missing (env : Env)
  (request : Request CreatePricingPlanRequest) (store : Store)
  (planData : CreatePricingPlanRequest) :
  validateApiKey env request = true ->
  json_body request = Some planData ->
  name planData = Some "Gold" ->
  price planData = Some (JS.of_Z 0) ->
  duration_days planData = Some (JS.of_Z 30) ->
  run store (PricingPlans.POST env request) =
    (Some (NextResponse.mk 400
             (Some (JObj [("error", JStr "Missing required fields");
                          ("missing", JArr [JStr "price"])]))), [])
  /\ fst (run store (PricingPlans.POST env request)) <>
     Some (errorResponse "Price must be greater than 0" 400).
Proof.
  intros Hkey Hbody Hn Hp Hd.
  assert (E : run store (PricingPlans.POST env request) =
    (Some (NextResponse.mk 400
             (Some (JObj [("error", JStr "Missing required fields");
                          ("missing", JArr [JStr "price"])]))), [])).
  { unfold PricingPlans.POST, request_json. rewrite Hkey, Hbody.
    cbn [negb bind]. rewrite (gold_missing planData Hn Hp Hd).
    reflexivity. }
  split; [exact E |]. rewrite E. discriminate.
Qed.

Lemma price_zero_reported_missing_witness :
  validateApiKey Examples.admin_env
    (Examples.body_request "/api/pricing_plans" Examples.gold) = true /\
  fst (run Examples.store
         (PricingPlans.POST Examples.admin_env
            (Examples.body_request "/api/pricing_plans" Examples.gold))) <>
  Some (errorResponse "Price must be greater than 0" 400).
Proof.
  split; [reflexivity |].
  exact (proj2 (price_zero_reported_missing Examples.admin_env
                  (Examples.body_request "/api/pricing_plans" Examples.gold)
                  Examples.store Examples.gold
                  eq_refl eq_refl eq_refl eq_refl eq_refl)).
Defined.

(** The update handler of the same resource does report a zero price with
    that message: it tests [price !== undefined && price <= 0]. *)
Lemma update_price_zero (env : Env)
  (request : Request UpdatePricingPlanRequest) (store : Store)
  (planId : string) (body : UpdatePricingPlanRequest) :
  validateApiKey env request = true ->
  Regex.isUUID planId = true ->
  json_body request = Some body ->
  price (plan_update_fields body) = Some (JS.of_Z 0) ->
  run store (PricingPlan.PUT env request planId) =
    (Some (errorResponse "Price must be greater than 0" 400), []).
Proof.
  intros Hkey Hid Hbody Hp.
  unfold PricingPlan.PUT, request_json. rewrite Hkey, Hid, Hbody.
  cbn [negb bind]. rewrite Hp. reflexivity.
Qed.

(** In the create handler the message is reserved for negative prices. *)
Lemma create_price_message (env : Env)
  (request : Request CreatePricingPlanRequest) (store : Store)
  (planData : CreatePricingPlanRequest) :
  validateApiKey env request = true ->
  json_body request = Some planData ->
  fst (run store (PricingPlans.POST env request)) =
    Some (errorResponse "Price must be greater than 0" 400) ->
  exists p, price planData = Some p /\ JS.truthy_number p = true
            /\ JS.le p (JS.of_Z 0) = true.
Proof.
  intros Hkey Hbody. unfold PricingPlans.POST, request_json.
  rewrite Hkey, Hbody. cbn [negb bind].
  destruct (PricingPlans.missingFields planData) as [| f fs] eqn:Hm.
  - cbn [length Nat.ltb Nat.leb].
    destruct (PricingPlans.le_0 (price planData)) eqn:Hle.
    + intros _. destruct (price planData) as [p |] eqn:Hp; [| discriminate].
      exists p. split; [reflexivity |]. split; [| exact Hle].
      unfold PricingPlans.missingFields, PricingPlans.requiredFields in Hm.
      cbn [filter] in Hm. unfold PricingPlans.missing in Hm. simpl in Hm.
      rewrite Hp in Hm. cbn [PricingPlans.truthy_num] in Hm.
      destruct (JS.truthy_number p); [reflexivity |].
      destruct (negb (truthy (name planData))); discriminate.
    + destruct (PricingPlans.le_0 (duration_days planData)).
      * unfold run. rewrite run_ret. intros H. response_clash H.
      * unfold run. await_reply d e n. destruct e as [e |].
        -- destruct (code_is "23505" e); rewrite run_ret;
             intros H; response_clash H.
        -- rewrite run_ret. intros H. response_clash H.
  - cbn [length Nat.ltb Nat.leb]. unfold run. rewrite run_ret.
    intros H. response_clash H.
Qed.

(** ** Reading one transaction: the owner gate *)


(** The handler with a well-formed id always starts by fetching the row. *)
Lemma transaction_GET_fetch (env : Env) (request : Request unit)
  (store : Store) (id : string) :
  Regex.isUUID id = true ->
  run store (Transaction.GET env request id) =
  run_from store [TransactionsSelectById id]
    (try_catch
       (let r := store [] (TransactionsSelectById id) in
        match error r with
        | Some e =>
            if code_is "PGRST116" e
            then Ret (errorResponse "Transaction not found" 404)
            else Ret (errorResponse "Failed to fetch transaction" 500)
        | None =>
            if validateApiKey env request
            then Ret (successResponse (row_json (data r)) 200)
            else
              match data r with
              | None => Throw
              | Some row =>
                  if Transaction.strict_neq (validateMemberToken env request)
                       (get_prop "member_id" row)
                  then Ret access_denied
                  else Ret (successResponse (row_json (data r)) 200)
              end
        end) internal_error).
Proof.
  intros Hid. unfold Transaction.GET, run. rewrite Hid. reflexivity.
Qed.

(** A caller who is not admin and whose token does not name the owner of
    the transaction is answered 403, whether the token is missing, invalid
    or that of another member. *)
Lemma transaction_GET_denied (env : Env) (request : Request unit)
  (store : Store) (id : string) (row : Row) (owner : string) :
  Regex.isUUID id = true ->
  error (store [] (TransactionsSelectById id)) = None ->
  data (store [] (TransactionsSelectById id)) = Some row ->
  get_prop "member_id" row = Some (JStr owner) ->
  validateApiKey env request = false ->
  validateMemberToken env request <> Id owner ->
  run store (Transaction.GET env request id) =
    (Some access_denied, [TransactionsSelectById id]).
Proof.
  intros Hid He Hd Hm Hkey Htok.
  rewrite (transaction_GET_fetch env request store id Hid).
  cbv zeta. rewrite He, Hd, Hkey, Hm.
  destruct (validateMemberToken env request) as [| | m]; cbn.
  - reflexivity.
  - reflexivity.
  - destruct (String.eqb_spec m owner) as [-> | _]; [congruence | reflexivity].
Qed.

(** C3, as the handler implements it.  On [GET /api/transactions/:id]
    with a well-formed id of an existing transaction, a caller without the
    admin key is answered 403 both when the bearer token is missing or
    invalid and when it names a member who is not the owner. *)
Theorem owner_gate_answers_403 (env : Env) (request : Request unit)
  (store : Store) (id : string) (row : Row) (owner : string) :
  Regex.isUUID id = true ->
  error (store [] (TransactionsSelectById id)) = None ->
  data (store [] (TransactionsSelectById id)) = Some row ->
  get_prop "member_id" row = Some (JStr owner) ->
  validateApiKey env request = false ->
  (validateMemberToken env request = IdNull \/
   exists m, validateMemberToken env request = Id m /\ m <> owner) ->
  exists response,
    run store (Transaction.GET env request id) =
      (Some response, [TransactionsSelectById id]) /\
    NextResponse.status response = 403.
Proof.
  intros Hid He Hd Hm Hkey Hcred.
  exists access_denied. split; [| reflexivity].
  apply (transaction_GET_denied env request store id row owner Hid He Hd Hm Hkey).
  destruct Hcred as [-> | [m [-> Hneq]]]; congruence.
Qed.

Lemma owner_gate_answers_403_witness :
  validateMemberToken Examples.admin_env Examples.as_member_2 = Id "member-2"
  /\ exists response,
       run Examples.store
         (Transaction.GET Examples.admin_env Examples.as_member_2
            Examples.transaction_id) =
         (Some response, [TransactionsSelectById Examples.transaction_id]) /\
       NextResponse.status response = 403.
Proof.
  split; [reflexivity |].
  apply (owner_gate_answers_403 Examples.admin_env Examples.as_member_2
           Examples.store Examples.transaction_id
           Examples.transaction_row "member-1"
           eq_refl eq_refl eq_refl eq_refl eq_refl).
  right. exists "member-2". split; [reflexivity | discriminate].
Defined.

(** C3, as stated, fails: a request with no api key and no Authorization
    header for an existing transaction is answered 403, not 401. *)
Lemma missing_credential_not_401 :
  Regex.isUUID Examples.transaction_id = true /\
  validateApiKey Examples.admin_env Examples.anonymous = false /\
  validateMemberToken Examples.admin_env Examples.anonymous = IdNull /\
  data (Examples.store [] (TransactionsSelectById Examples.transaction_id)) =
    Some Examples.transaction_row /\
  exists response,
    fst (run Examples.store
           (Transaction.GET Examples.admin_env Examples.anonymous
              Examples.transaction_id)) = Some response /\
    NextResponse.status response = 403 /\
    NextResponse.status response <> 401.
Proof.
  repeat (split; [reflexivity |]).
  exists access_denied. repeat split. discriminate.
Qed.

(** The handler has no 401 answer at all. *)
Lemma transaction_GET_never_401 (env : Env) (request : Request unit)
  (store : Store) (id : string) (response : Response) :
  fst (run store (Transaction.GET env request id)) = Some response ->
  NextResponse.status response <> 401.
Proof.
  destruct (Regex.isUUID id) eqn:Hid.
  - rewrite (transaction_GET_fetch env request store id Hid). cbv zeta.
    destruct (store [] (TransactionsSelectById id)) as [d [e |] n];
      cbn [data error].
    + destruct (code_is "PGRST116" e); rewrite run_ret; cbn;
        intros [= <-]; discriminate.
    + destruct (validateApiKey env request).
      * rewrite run_ret; cbn; intros [= <-]; discriminate.
      * destruct d as [row |].
        -- destruct (Transaction.strict_neq _ _); rewrite run_ret; cbn;
             intros [= <-]; discriminate.
        -- cbn; intros [= <-]; discriminate.
  - unfold Transaction.GET, run. rewrite Hid. cbn.
    intros [= <-]; discriminate.
Qed.




(** ** Validation of create requests *)



Lemma missing_nonempty (l : list string) :
  l <> [] -> (0 <? length l)%nat = true.
Proof. destruct l; [congruence | reflexivity]. Qed.

Lemma members_POST_validation (env : Env)
  (request : Request CreateMemberRequest) (store : Store)
  (memberData : CreateMemberRequest) :
  validateApiKey env request = true ->
  json_body request = Some memberData ->
  run store (Members.POST env request) =
    if (0 <? length (Members.missingFields memberData))%nat then
      (Some (missingResponse (Members.missingFields memberData)), [])
    else if negb (regex_test Regex.emailRegex (email memberData)) then
      (Some (errorResponse "Invalid email format" 400), [])
    else if negb (regex_test Regex.phoneRegex (phone memberData)) then
      (Some (errorResponse "Invalid phone format" 400), [])
    else
      run_from store [MembersInsert memberData]
        (try_catch
           (match error (store [] (MembersInsert memberData)) with
            | Some e =>
                if code_is "23505" e
                then Ret (errorResponse
                            "Member with this email or phone already exists"
                            409)
                else Ret (errorResponse "Failed to create member" 500)
            | None =>
                Ret (successResponse
                       (row_json (data (store [] (MembersInsert memberData))))
                       201)
            end) internal_error).
Proof.
  intros Hkey Hbody. unfold Members.POST, request_json, run.
  rewrite Hkey, Hbody. cbn [negb bind].
  destruct (0 <? length (Members.missingFields memberData))%nat;
    [reflexivity |].
  destruct (negb (regex_test Regex.emailRegex (email memberData)));
    [reflexivity |].
  destruct (negb (regex_test Regex.phoneRegex (phone memberData)));
    reflexivity.
Qed.

Lemma plans_POST_validation (env : Env)
  (request : Request CreatePricingPlanRequest) (store : Store)
  (planData : CreatePricingPlanRequest) :
  validateApiKey env request = true ->
  json_body request = Some planData ->
  run store (PricingPlans.POST env request) =
    if (0 <? length (PricingPlans.missingFields planData))%nat then
      (Some (missingResponse (PricingPlans.missingFields planData)), [])
    else if PricingPlans.le_0 (price planData) then
      (Some (errorResponse "Price must be greater than 0" 400), [])
    else if PricingPlans.le_0 (duration_days planData) then
      (Some (errorResponse "Duration days must be greater than 0" 400), [])
    else
      let insert := PlansInsert (PricingPlans.planWithDefaults planData) in
      run_from store [insert]
        (try_catch
           (match error (store [] insert) with
            | Some e =>
                if code_is "23505" e
                then Ret (errorResponse
                            "Pricing plan with this name already exists" 409)
                else Ret (errorResponse "Failed to create pricing plan" 500)
            | None =>
                Ret (successResponse (row_json (data (store [] insert))) 201)
            end) internal_error).
Proof.
  intros Hkey Hbody. unfold PricingPlans.POST, request_json, run.
  rewrite Hkey, Hbody. cbn [negb bind].
  destruct (0 <? length (PricingPlans.missingFields planData))%nat;
    [reflexivity |].
  destruct (PricingPlans.le_0 (price planData)); [reflexivity |].
  destruct (PricingPlans.le_0 (duration_days planData)); reflexivity.
Qed.







(** ** Deleting a pricing plan that is in use *)

(** C5.  [DELETE /api/pricing_plans/:id] with the admin key and a
    well-formed id: when the usage check comes back without error and with
    at least one member on the plan, the answer has status 409 and the
    only call issued is the check, so no delete reaches the store. *)
Theorem plan_in_use_is_not_deleted (env : Env) (request : Request unit)
  (store : Store) (planId : string) (member : Row) (others : list Row) :
  validateApiKey env request = true ->
  Regex.isUUID planId = true ->
  error (store [] (MembersUsingPlan planId)) = None ->
  data (store [] (MembersUsingPlan planId)) = Some (member :: others) ->
  run store (PricingPlan.DELETE env request planId) =
    (Some (NextResponse.mk 409
             (Some (JObj [("error",
                           JStr "Cannot delete pricing plan that is currently in use by members")]))),
     [MembersUsingPlan planId])
  /\ forall id, ~ In (PlansDelete id)
                    (snd (run store (PricingPlan.DELETE env request planId))).
Proof.
  intros Hkey Hid He Hd.
  assert (E : run store (PricingPlan.DELETE env request planId) =
    (Some (errorResponse
             "Cannot delete pricing plan that is currently in use by members"
             409),
     [MembersUsingPlan planId])).
  { unfold PricingPlan.DELETE, run. rewrite Hkey, Hid. cbn [negb].
    rewrite run_await. rewrite He, Hd. reflexivity. }
  split; [exact E |].
  intros id. rewrite E. cbn. intros [H | []]. discriminate H.
Qed.

Lemma plan_in_use_is_not_deleted_witness :
  validateApiKey Examples.admin_env Examples.delete_plan = true /\
  run Examples.store
    (PricingPlan.DELETE Examples.admin_env Examples.delete_plan
       Examples.plan_uuid) =
  (Some (NextResponse.mk 409
           (Some (JObj [("error",
                         JStr "Cannot delete pricing plan that is currently in use by members")]))),
   [MembersUsingPlan Examples.plan_uuid]).
Proof.
  split; [reflexivity |].
  exact (proj1 (plan_in_use_is_not_deleted Examples.admin_env
                  Examples.delete_plan Examples.store Examples.plan_uuid
                  [("id", JStr "member-1")] []
                  eq_refl eq_refl eq_refl eq_refl)).
Defined.

(** The delete is issued only after a check that came back clean. *)
Lemma plan_delete_only_when_unused (env : Env) (request : Request unit)
  (store : Store) (planId id : string) :
  In (PlansDelete id) (snd (run store (PricingPlan.DELETE env request planId))) ->
  id = planId /\
  error (store [] (MembersUsingPlan planId)) = None /\
  PricingPlan.in_use (data (store [] (MembersUsingPlan planId))) = false.
Proof.
  unfold PricingPlan.DELETE, run.
  destruct (validateApiKey env request); cbn [negb];
    [| rewrite run_ret; intros []].
  destruct (Regex.isUUID planId); cbn [negb]; [| rewrite run_ret; intros []].
  rewrite run_await. cbn [app].
  destruct (store [] (MembersUsingPlan planId)) as [d [e |] n];
    cbn [data error].
  - rewrite run_ret. cbn. intros [H | []]. discriminate H.
  - destruct (PricingPlan.in_use d) eqn:Hu.
    + rewrite run_ret. cbn. intros [H | []]. discriminate H.
    + rewrite run_await. cbn [app].
      match goal with
      | |- context [error ?r] => destruct (error r)
      end; rewrite run_ret; cbn;
        (intros [H | [H | []]]; [discriminate H | injection H as <-]);
        repeat split.
Qed.

(** ** Creating a member: store errors and the phone format *)

(** C6.  [POST /api/members] with the admin key and a body that passes
    validation: a store error with code 23505 is answered 409, any other
    store error is answered with the generic 500. *)
Theorem duplicate_member_is_conflict (env : Env)
  (request : Request CreateMemberRequest) (store : Store)
  (memberData : CreateMemberRequest) (e : PostgrestError) :
  validateApiKey env request = true ->
  json_body request = Some memberData ->
  Members.missingFields memberData = [] ->
  regex_test Regex.emailRegex (email memberData) = true ->
  regex_test Regex.phoneRegex (phone memberData) = true ->
  error (store [] (MembersInsert memberData)) = Some e ->
  (code e = "23505" ->
   run store (Members.POST env request) =
     (Some (NextResponse.mk 409
              (Some (JObj [("error",
                            JStr "Member with this email or phone already exists")]))),
      [MembersInsert memberData]))
  /\ (code e <> "23505" ->
      run store (Members.POST env request) =
        (Some (NextResponse.mk 500
                 (Some (JObj [("error", JStr "Failed to create member")]))),
         [MembersInsert memberData])).
Proof.
  intros Hkey Hbody Hm Hemail Hphone Herr.
  rewrite (members_POST_validation env request store memberData Hkey Hbody).
  rewrite Hm, Hemail, Hphone. cbn [length Nat.ltb Nat.leb negb].
  rewrite Herr. unfold code_is. split; intros Hc.
  - rewrite Hc. reflexivity.
  - apply String.eqb_neq in Hc. rewrite Hc. reflexivity.
Qed.

Lemma duplicate_member_is_conflict_witness :
  validateApiKey Examples.admin_env
    (Examples.body_request "/api/members" Examples.good_member) = true /\
  fst (run Examples.store
         (Members.POST Examples.admin_env
            (Examples.body_request "/api/members" Examples.good_member))) =
  Some (NextResponse.mk 409
          (Some (JObj [("error",
                        JStr "Member with this email or phone already exists")]))).
Proof.
  split; [reflexivity |].
  exact (f_equal fst
           (proj1 (duplicate_member_is_conflict Examples.admin_env
                     (Examples.body_request "/api/members" Examples.good_member)
                     Examples.store Examples.good_member
                     {| code := "23505"; message := "duplicate key" |}
                     eq_refl eq_refl eq_refl eq_refl eq_refl eq_refl)
              eq_refl)).
Defined.

Lemma members_PUT_validation (env : Env)
  (request : Request UpdateMemberRequest) (store : Store)
  (body : UpdateMemberRequest) :
  validateApiKey env request = true ->
  json_body request = Some body ->
  run store (Members.PUT env request) =
    let memberId := last_segment (pathname request) in
    let updateData := update_fields body in
    if negb (JS.truthy_string memberId) || String.eqb memberId "members" then
      (Some (errorResponse "Member ID is required" 400), [])
    else if truthy (email updateData)
            && negb (regex_test Regex.emailRegex (email updateData)) then
      (Some (errorResponse "Invalid email format" 400), [])
    else if truthy (phone updateData)
            && negb (regex_test Regex.phoneRegex (phone updateData)) then
      (Some (errorResponse "Invalid phone format" 400), [])
    else
      let update := MembersUpdate memberId updateData (now_ISO env) in
      run_from store [update]
        (try_catch
           (match error (store [] update) with
            | Some e =>
                if code_is "PGRST116" e then
                  Ret (errorResponse "Member not found" 404)
                else if code_is "23505" e then
                  Ret (errorResponse
                         "Email or phone already exists for another member"
                         409)
                else Ret (errorResponse "Failed to update member" 500)
            | None =>
                Ret (successResponse (row_json (data (store [] update))) 200)
            end) internal_error).
Proof.
  intros Hkey Hbody. unfold Members.PUT, request_json, run.
  rewrite Hkey. cbn [negb]. cbv zeta.
  destruct (negb (JS.truthy_string (last_segment (pathname request)))
            || String.eqb (last_segment (pathname request)) "members");
    [reflexivity |].
  rewrite Hbody. cbn [bind].
  destruct (truthy (email (update_fields body))
            && negb (regex_test Regex.emailRegex (email (update_fields body))));
    [reflexivity |].
  destruct (truthy (phone (update_fields body))
            && negb (regex_test Regex.phoneRegex (phone (update_fields body))));
    reflexivity.
Qed.

(** C7.  The phone pattern rejects ["abc"] and accepts
    ["+1 555-123-4567"].  On create and on update, with the admin key, a
    body whose phone is ["abc"] is answered 400 without any store call,
    with "Invalid phone format" once the checks before the phone check
    pass; a body whose phone is ["+1 555-123-4567"] gets past the phone
    check, so that the row is sent to the store. *)
Theorem phone_format_check :
  (Regex.test Regex.phoneRegex "abc" = false /\
   Regex.test Regex.phoneRegex "+1 555-123-4567" = true)
  /\ (forall env request store memberData,
        validateApiKey env request = true ->
        json_body request = Some memberData ->
        phone memberData = Some "abc" ->
        (exists response,
            run store (Members.POST env request) = (Some response, []) /\
            NextResponse.status response = 400)
        /\ (Members.missingFields memberData = [] ->
            regex_test Regex.emailRegex (email memberData) = true ->
            run store (Members.POST env request) =
              (Some (errorResponse "Invalid phone format" 400), [])))
  /\ (forall env request store memberData,
        validateApiKey env request = true ->
        json_body request = Some memberData ->
        phone memberData = Some "+1 555-123-4567" ->
        Members.missingFields memberData = [] ->
        regex_test Regex.emailRegex (email memberData) = true ->
        snd (run store (Members.POST env request)) =
          [MembersInsert memberData]
        /\ fst (run store (Members.POST env request)) <>
           Some (errorResponse "Invalid phone format" 400))
  /\ (forall env request store body,
        validateApiKey env request = true ->
        json_body request = Some body ->
        phone (update_fields body) = Some "abc" ->
        (exists response,
            run store (Members.PUT env request) = (Some response, []) /\
            NextResponse.status response = 400)
        /\ (let memberId := last_segment (pathname request) in
            JS.truthy_string memberId = true ->
            String.eqb memberId "members" = false ->
            truthy (email (update_fields body))
            && negb (regex_test Regex.emailRegex (email (update_fields body)))
            = false ->
            run store (Members.PUT env request) =
              (Some (errorResponse "Invalid phone format" 400), [])))
  /\ (forall env request store body,
        validateApiKey env request = true ->
        json_body request = Some body ->
        phone (update_fields body) = Some "+1 555-123-4567" ->
        let memberId := last_segment (pathname request) in
        JS.truthy_string memberId = true ->
        String.eqb memberId "members" = false ->
        truthy (email (update_fields body))
        && negb (regex_test Regex.emailRegex (email (update_fields body)))
        = false ->
        snd (run store (Members.PUT env request)) =
          [MembersUpdate memberId (update_fields body) (now_ISO env)]
        /\ fst (run store (Members.PUT env request)) <>
           Some (errorResponse "Invalid phone format" 400)).
Proof.
  split; [split; vm_compute; reflexivity |].
  split; [| split; [| split]].
  - intros env request store memberData Hkey Hbody Hphone.
    rewrite (members_POST_validation env request store memberData Hkey Hbody).
    rewrite Hphone.
    change (regex_test Regex.phoneRegex (Some "abc")) with false.
    cbn [negb]. split.
    + destruct (0 <? length (Members.missingFields memberData))%nat;
        [eexists; split; reflexivity |].
      destruct (negb (regex_test Regex.emailRegex (email memberData)));
        eexists; split; reflexivity.
    + intros Hm He. rewrite Hm, He. reflexivity.
  - intros env request store memberData Hkey Hbody Hphone Hm He.
    rewrite (members_POST_validation env request store memberData Hkey Hbody).
    rewrite Hm, He, Hphone.
    change (regex_test Regex.phoneRegex (Some "+1 555-123-4567")) with true.
    cbn [length Nat.ltb Nat.leb negb].
    destruct (store [] (MembersInsert memberData)) as [d [e |] n];
      cbn [data error].
    + destruct (code_is "23505" e); rewrite run_ret; cbn [fst snd];
        (split; [reflexivity | intros H; response_clash H]).
    + rewrite run_ret; cbn [fst snd].
      split; [reflexivity | intros H; response_clash H].
  - intros env request store body Hkey Hbody Hphone.
    rewrite (members_PUT_validation env request store body Hkey Hbody).
    cbv zeta. rewrite Hphone.
    change (regex_test Regex.phoneRegex (Some "abc")) with false.
    change (truthy (Some "abc")) with true. cbn [negb andb]. split.
    + destruct (negb (JS.truthy_string (last_segment (pathname request)))
                || String.eqb (last_segment (pathname request)) "members");
        [eexists; split; reflexivity |].
      destruct (truthy (email (update_fields body))
                && negb (regex_test Regex.emailRegex
                           (email (update_fields body))));
        eexists; split; reflexivity.
    + intros Hid1 Hid2 He. rewrite Hid1, Hid2, He. reflexivity.
  - intros env request store body Hkey Hbody Hphone memberId Hid1 Hid2 He.
    subst memberId.
    rewrite (members_PUT_validation env request store body Hkey Hbody).
    cbv zeta. rewrite Hid1, Hid2, He, Hphone.
    change (regex_test Regex.phoneRegex (Some "+1 555-123-4567")) with true.
    cbn [negb andb orb].
    match goal with
    | |- context [store [] ?c] => destruct (store [] c) as [d [e |] n]
    end; cbn [data error].
    + destruct (code_is "PGRST116" e); [| destruct (code_is "23505" e)];
        rewrite run_ret; cbn [fst snd];
        (split; [reflexivity | intros H; response_clash H]).
    + rewrite run_ret; cbn [fst snd].
      split; [reflexivity | intros H; response_clash H].
Qed.

Lemma phone_format_check_witness :
  validateApiKey Examples.admin_env
    (Examples.body_request "/api/members" Examples.good_member) = true /\
  snd (run Examples.store
         (Members.POST Examples.admin_env
            (Examples.body_request "/api/members" Examples.good_member))) =
  [MembersInsert Examples.good_member].
Proof.
  split; [reflexivity |].
  exact (proj1 (proj1 (proj2 (proj2 phone_format_check))
                  Examples.admin_env
                  (Examples.body_request "/api/members" Examples.good_member)
                  Examples.store Examples.good_member
                  eq_refl eq_refl eq_refl eq_refl eq_refl)).
Defined.

(** ** Defaults filled in on create *)

(** The transaction create handler once validation has passed: the member
    check, the plan check when a plan is given, then the insert. *)
Lemma transactions_POST_validated (env : Env)
  (request : Request TransactionData) (store : Store)
  (transactionData : TransactionData) :
  validateApiKey env request = true ->
  json_body request = Some transactionData ->
  Transactions.missingFields transactionData = [] ->
  PricingPlans.le_0 (amount transactionData) = false ->
  run store (Transactions.POST env request) =
    let find_member := MembersSelectId (member_id transactionData) in
    let find_plan := PlansSelectId (plan_id transactionData) in
    let insert := TransactionsInsert (Transactions.with_status transactionData) in
    let inserted (issued : list Call) : option Response * list Call :=
      (Some match error (store issued insert) with
            | Some _ => errorResponse "Failed to create transaction" 500
            | None =>
                successResponse (row_json (data (store issued insert))) 201
            end,
       (issued ++ [insert])%list) in
    if Transactions.absent (data (store [] find_member)) then
      (Some (errorResponse "Member not found" 404), [find_member])
    else if truthy (plan_id transactionData) then
      if Transactions.absent (data (store [find_member] find_plan)) then
        (Some (errorResponse "Pricing plan not found" 404),
         [find_member; find_plan])
      else inserted [find_member; find_plan]
    else inserted [find_member].
Proof.
  intros Hkey Hbody Hm Ha. unfold Transactions.POST, request_json, run.
  rewrite Hkey, Hbody. cbn [negb bind]. rewrite Hm, Ha.
  cbn [length Nat.ltb Nat.leb]. cbv zeta.
  rewrite run_await. cbn [app].
  destruct (Transactions.absent (data (store [] _))); [reflexivity |].
  destruct (truthy (plan_id transactionData)).
  - rewrite run_await. cbn [app].
    destruct (Transactions.absent (data (store [_] _))); [reflexivity |].
    rewrite run_await. cbn [app].
    match goal with
    | |- context [error ?r] => destruct (error r)
    end; reflexivity.
  - rewrite run_await. cbn [app].
    match goal with
    | |- context [error ?r] => destruct (error r)
    end; reflexivity.
Qed.

(** The JSON values that are falsy. *)
Lemma falsy_json (v : json) :
  truthy_json v = false <->
  v = JNull \/ v = JBool false \/ v = JStr "" \/
  exists n, v = JNum n /\ JS.truthy_number n = false.
Proof.
  split.
  - destruct v as [| [] | n | [] | |]; cbn; intros H; try discriminate.
    + left; reflexivity.
    + right; left; reflexivity.
    + right; right; right. exists n. split; [reflexivity | exact H].
    + right; right; left; reflexivity.
  - intros [-> | [-> | [-> | [n [-> H]]]]]; auto.
Qed.

(** C8.  [POST /api/transactions] past authorization and validation (the
    admin key, the required fields, a positive amount, the member found,
    and the plan found when one is given): when the body has no [status],
    or a falsy one ([null], [false], [0], [""]), the row sent to the store
    is the body with [status = 'pending'], and it is the last call of the
    handler. *)
Theorem missing_status_defaults_to_pending (env : Env)
  (request : Request TransactionData) (store : Store)
  (transactionData : TransactionData) :
  validateApiKey env request = true ->
  json_body request = Some transactionData ->
  Transactions.missingFields transactionData = [] ->
  PricingPlans.le_0 (amount transactionData) = false ->
  data (store [] (MembersSelectId (member_id transactionData))) <> None ->
  (truthy (plan_id transactionData) = true ->
   data (store [MembersSelectId (member_id transactionData)]
           (PlansSelectId (plan_id transactionData))) <> None) ->
  (status transactionData = None \/
   exists v, status transactionData = Some v /\ truthy_json v = false) ->
  snd (run store (Transactions.POST env request)) =
    ((MembersSelectId (member_id transactionData)
      :: (if truthy (plan_id transactionData)
          then [PlansSelectId (plan_id transactionData)] else []))
     ++ [TransactionsInsert
           {| member_id := member_id transactionData;
              plan_id := plan_id transactionData;
              amount := amount transactionData;
              payment_method := payment_method transactionData;
              transaction_date := transaction_date transactionData;
              status := Some (JStr "pending");
              notes := notes transactionData |}])%list.
Proof.
  intros Hkey Hbody Hm Ha Hmember Hplan Hstatus.
  rewrite (transactions_POST_validated env request store transactionData
             Hkey Hbody Hm Ha). cbv zeta.
  assert (Hrow : Transactions.with_status transactionData =
    {| member_id := member_id transactionData;
       plan_id := plan_id transactionData;
       amount := amount transactionData;
       payment_method := payment_method transactionData;
       transaction_date := transaction_date transactionData;
       status := Some (JStr "pending");
       notes := notes transactionData |}).
  { unfold Transactions.with_status. f_equal. f_equal.
    destruct Hstatus as [-> | [v [-> Hv]]]; cbn; [| rewrite Hv]; reflexivity. }
  rewrite <- Hrow.
  destruct (data (store [] (MembersSelectId (member_id transactionData))))
    as [member |]; [| congruence]. cbn [Transactions.absent].
  destruct (truthy (plan_id transactionData)).
  - destruct (data (store [MembersSelectId (member_id transactionData)]
                      (PlansSelectId (plan_id transactionData))))
      as [plan |]; [reflexivity |].
    exfalso. apply Hplan; reflexivity.
  - reflexivity.
Qed.

Lemma missing_status_defaults_to_pending_witness :
  status Examples.payment = None /\
  snd (run Examples.store
         (Transactions.POST Examples.admin_env
            (Examples.body_request "/api/transactions" Examples.payment))) =
  [MembersSelectId (Some "member-1");
   TransactionsInsert
     {| member_id := Some "member-1"; plan_id := None;
        amount := Some (JS.of_Z 50); payment_method := Some "card";
        transaction_date := Some "2024-05-01";
        status := Some (JStr "pending"); notes := None |}].
Proof.
  split; [reflexivity |].
  refine (missing_status_defaults_to_pending Examples.admin_env
            (Examples.body_request "/api/transactions" Examples.payment)
            Examples.store Examples.payment
            eq_refl eq_refl eq_refl eq_refl _ _ (or_introl eq_refl)).
  - discriminate.
  - discriminate.
Defined.

(** A status that is given and truthy is kept. *)
Lemma given_status_is_kept (transactionData : TransactionData) (v : json) :
  status transactionData = Some v -> truthy_json v = true ->
  status (Transactions.with_status transactionData) = Some v.
Proof.
  intros Hs Hv. unfold Transactions.with_status; cbn. rewrite Hs; cbn.
  rewrite Hv. reflexivity.
Qed.

(** C9.  [POST /api/pricing_plans] past authorization and validation: the
    row sent to the store is the body with [is_active] set to [true] when
    the body has none, and with the body's [is_active] otherwise. *)
Theorem is_active_defaults_to_true (env : Env)
  (request : Request CreatePricingPlanRequest) (store : Store)
  (planData : CreatePricingPlanRequest) :
  validateApiKey env request = true ->
  json_body request = Some planData ->
  PricingPlans.missingFields planData = [] ->
  PricingPlans.le_0 (price planData) = false ->
  PricingPlans.le_0 (duration_days planData) = false ->
  exists row,
    snd (run store (PricingPlans.POST env request)) = [PlansInsert row]
    /\ name row = name planData
    /\ description row = description planData
    /\ price row = price planData
    /\ duration_days row = duration_days planData
    /\ features row = features planData
    /\ (is_active planData = None -> is_active row = Some true)
    /\ (forall b, is_active planData = Some b -> is_active row = Some b).
Proof.
  intros Hkey Hbody Hm Hp Hd.
  exists (PricingPlans.planWithDefaults planData).
  rewrite (plans_POST_validation env request store planData Hkey Hbody).
  rewrite Hm, Hp, Hd. cbn [length Nat.ltb Nat.leb]. cbv zeta.
  split.
  - destruct (store [] (PlansInsert (PricingPlans.planWithDefaults planData)))
      as [d [e |] n]; cbn [data error].
    + destruct (code_is "23505" e); reflexivity.
    + reflexivity.
  - repeat split; cbn.
    + intros ->. reflexivity.
    + intros b ->. reflexivity.
Qed.

Lemma is_active_defaults_to_true_witness :
  is_active Examples.silver = None /\
  exists row,
    snd (run Examples.store
           (PricingPlans.POST Examples.admin_env
              (Examples.body_request "/api/pricing_plans" Examples.silver))) =
    [PlansInsert row] /\
    is_active row = Some true.
Proof.
  split; [reflexivity |].
  destruct (is_active_defaults_to_true Examples.admin_env
              (Examples.body_request "/api/pricing_plans" Examples.silver)
              Examples.store Examples.silver
              eq_refl eq_refl eq_refl eq_refl eq_refl)
    as [row [Hrun [_ [_ [_ [_ [_ [Hdefault _]]]]]]]].
  exists row. split; [exact Hrun | apply Hdefault; reflexivity].
Defined.

(** * Further properties of the handlers *)

(** ** The languages of the three patterns *)

Section Patterns.

Import Regex.

Lemma length_append (s1 s2 : string) :
  String.length (s1 ++ s2) = (String.length s1 + String.length s2)%nat.
Proof. induction s1 as [| c s1 IH]; cbn; [| rewrite IH]; reflexivity. Qed.

Lemma all_chars_append (p : ascii -> bool) (s1 s2 : string) :
  all_chars p (s1 ++ s2) = all_chars p s1 && all_chars p s2.
Proof.
  induction s1 as [| c s1 IH]; cbn; [reflexivity |].
  rewrite IH. apply andb_assoc.
Qed.

Lemma append_assoc (s1 s2 s3 : string) : (s1 ++ s2) ++ s3 = s1 ++ (s2 ++ s3).
Proof. induction s1 as [| c s1 IH]; cbn; [| rewrite IH]; reflexivity. Qed.

(** A string of at least [n] code units splits after the first [n]. *)
Lemma split_at (n : nat) (s : string) :
  (n <= String.length s)%nat ->
  exists a b, s = a ++ b /\ String.length a = n.
Proof.
  revert s. induction n as [| n IH]; intros s H.
  - exists "", s. split; reflexivity.
  - destruct s as [| c s]; cbn in H; [lia |].
    destruct (IH s) as [a [b [-> Hl]]]; [lia |].
    exists (String c a), b. cbn. split; [reflexivity | congruence].
Qed.

Lemma class_cat (p : ascii -> bool) (k : regex) (s : string) :
  matches (Cat (Class p) k) s <->
  exists c s', s = String c s' /\ p c = true /\ matches k s'.
Proof.
  split.
  - intros H. apply cat_inv in H as [s1 [s2 [-> [H1 H2]]]].
    inversion H1; subst. cbn. eauto.
  - intros [c [s' [-> [Hp Hk]]]].
    change (String c s') with (String c "" ++ s').
    constructor; [constructor |]; assumption.
Qed.

(** [c] then [k]. *)
Lemma chr_cat (c0 : ascii) (k : regex) (s : string) :
  matches (Cat (Chr c0) k) s <-> exists s', s = String c0 s' /\ matches k s'.
Proof.
  unfold Chr. rewrite class_cat. split.
  - intros [c [s' [-> [Hc Hk]]]]. apply Ascii.eqb_eq in Hc. subst. eauto.
  - intros [s' [-> Hk]]. exists c0, s'. rewrite Ascii.eqb_refl. auto.
Qed.

(** [[p]{n}] then [k]. *)
Lemma times_class (n : nat) (p : ascii -> bool) (k : regex) (s : string) :
  matches (Times n (Class p) k) s <->
  exists a b, s = a ++ b /\ String.length a = n /\
              all_chars p a = true /\ matches k b.
Proof.
  revert s. induction n as [| n IH]; intros s; cbn [Times].
  - split.
    + intros H. exists "", s. repeat split; assumption.
    + intros [a [b [-> [Hl [_ Hk]]]]]. destruct a; [exact Hk | discriminate].
  - rewrite class_cat. split.
    + intros [c [s' [-> [Hp H]]]].
      apply IH in H as [a [b [-> [Hl [Ha Hk]]]]].
      exists (String c a), b. cbn. rewrite Hp, Ha, Hl. auto.
    + intros [a [b [-> [Hl [Ha Hk]]]]].
      destruct a as [| c a]; [discriminate |]. cbn in *.
      apply andb_true_iff in Ha as [Hp Ha].
      exists c, (a ++ b). repeat split; [assumption |].
      apply IH. exists a, b. repeat split; [congruence | assumption..].
Qed.

(** up to [n] times [[p]], then the end. *)
Lemma upto_class (n : nat) (p : ascii -> bool) (s : string) :
  matches (UpTo n (Class p) Eps) s <->
  (String.length s <= n)%nat /\ all_chars p s = true.
Proof.
  revert s. induction n as [| n IH]; intros s; cbn [UpTo].
  - split.
    + intros H. apply eps_inv in H. subst. split; [cbn; lia | reflexivity].
    + intros [Hl _]. destruct s; [constructor | cbn in Hl; lia].
  - split.
    + intros H. apply alt_inv in H as [H | H].
      * apply eps_inv in H. subst. split; [cbn; lia | reflexivity].
      * apply class_cat in H as [c [s' [-> [Hp H]]]].
        apply IH in H as [Hl Ha]. cbn. rewrite Hp, Ha. split; [lia | reflexivity].
    + intros [Hl Ha]. destruct s as [| c s]; [apply m_alt_l; constructor |].
      cbn in *. apply andb_true_iff in Ha as [Hp Ha].
      apply m_alt_r, class_cat. exists c, s. repeat split; [assumption |].
      apply IH. split; [lia | assumption].
Qed.

(** [[p]*] *)
Lemma star_class (p : ascii -> bool) (s : string) :
  matches (Star (Class p)) s <-> all_chars p s = true.
Proof.
  split.
  - intros H. remember (Star (Class p)) as r eqn:Er.
    induction H as [| | | | | | r0 s1 s2 H1 _ H2 IH2]; try discriminate.
    + reflexivity.
    + injection Er as ->. inversion H1; subst. cbn.
      rewrite IH2 by reflexivity. rewrite H0. reflexivity.
  - induction s as [| c s IH]; cbn; intros H; [constructor |].
    apply andb_true_iff in H as [Hp Ha].
    change (String c s) with (String c "" ++ s).
    constructor; [constructor; assumption | auto].
Qed.

(** [[p]+] then [k]. *)
Lemma plus_class_cat (p : ascii -> bool) (k : regex) (s : string) :
  matches (Cat (Plus (Class p)) k) s <->
  exists a b, s = a ++ b /\ a <> "" /\ all_chars p a = true /\ matches k b.
Proof.
  split.
  - intros H. apply cat_inv in H as [a [b [-> [Ha Hk]]]].
    exists a, b. unfold Plus in Ha.
    apply class_cat in Ha as [c [a' [-> [Hp Ha]]]].
    apply star_class in Ha. cbn. rewrite Hp, Ha.
    repeat split; [discriminate | assumption].
  - intros [a [b [-> [Hne [Ha Hk]]]]]. constructor; [| assumption].
    destruct a as [| c a]; [congruence |]. cbn in Ha.
    apply andb_true_iff in Ha as [Hp Ha].
    apply class_cat. exists c, a. repeat split; [assumption |].
    apply star_class. assumption.
Qed.

End Patterns.

Lemma plus_class (p : ascii -> bool) (s : string) :
  Regex.matches (Regex.Plus (Regex.Class p)) s <->
  s <> "" /\ all_chars p s = true.
Proof.
  unfold Regex.Plus. rewrite class_cat. split.
  - intros [c [s' [-> [Hp H]]]]. apply star_class in H. cbn.
    rewrite Hp, H. split; [discriminate | reflexivity].
  - intros [Hne Ha]. destruct s as [| c s]; [congruence |]. cbn in Ha.
    apply andb_true_iff in Ha as [Hp Ha].
    exists c, s. repeat split; [assumption |]. apply star_class. assumption.
Qed.

(** X1.  The id check accepts exactly the strings made of five groups of
    8, 4, 4, 4 and 12 hexadecimal digits, of either case, with a hyphen
    between two groups. *)
Theorem uuid_language (s : string) :
  Regex.isUUID s = true <->
  exists a b c d e,
    s = a ++ "-" ++ b ++ "-" ++ c ++ "-" ++ d ++ "-" ++ e /\
    String.length a = 8%nat /\ String.length b = 4%nat /\
    String.length c = 4%nat /\ String.length d = 4%nat /\
    String.length e = 12%nat /\
    all_chars Regex.hex_i a = true /\ all_chars Regex.hex_i b = true /\
    all_chars Regex.hex_i c = true /\ all_chars Regex.hex_i d = true /\
    all_chars Regex.hex_i e = true.
Proof.
  unfold Regex.isUUID. rewrite test_matches. unfold Regex.uuidRegex. split.
  - intros H.
    apply times_class in H as [a [t [-> [La [Ha H]]]]].
    apply chr_cat in H as [t' [-> H]].
    apply times_class in H as [b [t [-> [Lb [Hb H]]]]].
    apply chr_cat in H as [t' [-> H]].
    apply times_class in H as [c [t [-> [Lc [Hc H]]]]].
    apply chr_cat in H as [t' [-> H]].
    apply times_class in H as [d [t [-> [Ld [Hd H]]]]].
    apply chr_cat in H as [t' [-> H]].
    apply times_class in H as [e [t [-> [Le [He H]]]]].
    apply eps_inv in H. subst t. rewrite append_empty_r.
    exists a, b, c, d, e. repeat split; assumption.
  - intros [a [b [c [d [e [-> [La [Lb [Lc [Ld [Le [Ha [Hb [Hc [Hd He]]]]]]]]]]]]]]].
    apply times_class. exists a, ("-" ++ b ++ "-" ++ c ++ "-" ++ d ++ "-" ++ e).
    repeat split; try assumption. apply chr_cat. eexists; split; [reflexivity |].
    apply times_class. exists b, ("-" ++ c ++ "-" ++ d ++ "-" ++ e).
    repeat split; try assumption. apply chr_cat. eexists; split; [reflexivity |].
    apply times_class. exists c, ("-" ++ d ++ "-" ++ e).
    repeat split; try assumption. apply chr_cat. eexists; split; [reflexivity |].
    apply times_class. exists d, ("-" ++ e).
    repeat split; try assumption. apply chr_cat. eexists; split; [reflexivity |].
    apply times_class. exists e, "".
    rewrite append_empty_r. repeat split; try assumption. constructor.
Qed.

(** X2.  The phone check accepts exactly an optional [+] followed by 7 to
    15 code units, each a digit, white space, a hyphen or a parenthesis.
    No digit is asked for, and with the [+] the value has up to 16 code
    units. *)
Theorem phone_language (s : string) :
  Regex.test Regex.phoneRegex s = true <->
  exists body,
    (s = body \/ s = "+" ++ body) /\
    (7 <= String.length body <= 15)%nat /\
    all_chars Regex.phone_char body = true.
Proof.
  rewrite test_matches. unfold Regex.phoneRegex, Regex.Opt, Regex.Between.
  change (15 - 7)%nat with 8%nat. split.
  - intros H. apply cat_inv in H as [s1 [body [-> [H1 H2]]]].
    exists body.
    apply times_class in H2 as [a [b [-> [La [Ha Hb]]]]].
    apply upto_class in Hb as [Lb Hb].
    split; [| split].
    + apply alt_inv in H1 as [H1 | H1].
      * apply eps_inv in H1. subst. left. reflexivity.
      * inversion H1; subst. apply Ascii.eqb_eq in H0. subst. right. reflexivity.
    + rewrite length_append. lia.
    + rewrite all_chars_append, Ha, Hb. reflexivity.
  - intros [body [Hs [[Hlo Hhi] Hall]]].
    assert (Hbody : Regex.matches
              (Regex.Times 7 (Regex.Class Regex.phone_char)
                 (Regex.UpTo 8 (Regex.Class Regex.phone_char) Regex.Eps))
              body).
    { destruct (split_at 7 body Hlo) as [a [b [-> La]]].
      rewrite all_chars_append in Hall.
      apply andb_true_iff in Hall as [Ha Hb].
      rewrite length_append in Hhi.
      apply times_class. exists a, b. repeat split; try assumption.
      apply upto_class. split; [lia | assumption]. }
    destruct Hs as [-> | ->].
    + change body with ("" ++ body). constructor; [| assumption].
      apply Regex.m_alt_l. constructor.
    + constructor; [| assumption].
      apply Regex.m_alt_r. constructor. apply Ascii.eqb_refl.
Qed.

(** X3.  The email check accepts exactly [l@m.r] with [l], [m] and [r] not
    empty and free of white space and of [@].  So an accepted value has
    one [@] and no white space; [m] and [r] may hold further dots. *)
Theorem email_language (s : string) :
  Regex.test Regex.emailRegex s = true <->
  exists l m r,
    s = l ++ "@" ++ m ++ "." ++ r /\
    l <> "" /\ m <> "" /\ r <> "" /\
    all_chars Regex.not_space_at l = true /\
    all_chars Regex.not_space_at m = true /\
    all_chars Regex.not_space_at r = true.
Proof.
  rewrite test_matches. unfold Regex.emailRegex. split.
  - intros H.
    apply plus_class_cat in H as [l [t [-> [Nl [Hl H]]]]].
    apply chr_cat in H as [t' [-> H]].
    apply plus_class_cat in H as [m [t [-> [Nm [Hm H]]]]].
    apply chr_cat in H as [r [-> H]].
    apply plus_class in H as [Nr Hr].
    exists l, m, r. repeat split; assumption.
  - intros [l [m [r [-> [Nl [Nm [Nr [Hl [Hm Hr]]]]]]]]].
    apply plus_class_cat. exists l, ("@" ++ m ++ "." ++ r).
    repeat split; try assumption.
    apply chr_cat. eexists; split; [reflexivity |].
    apply plus_class_cat. exists m, ("." ++ r).
    repeat split; try assumption.
    apply chr_cat. eexists; split; [reflexivity |].
    apply plus_class. split; assumption.
Qed.

(** ** Running a handler over effects *)

Lemma perform_step {R} (world : World) (done : list Effect) (e : Effect)
  (k : Answer e -> Task R) :
  perform_from world done (x <~ perform e ;; k x) =
  perform_from world (done ++ [e]) (k (world done e)).
Proof. reflexivity. Qed.

Lemma perform_catch_step {R} (world : World) (done : list Effect)
  (e : Effect) (k : Answer e -> Task R) (h : Task R) :
  perform_from world done (catch (x <~ perform e ;; k x) h) =
  perform_from world (done ++ [e]) (catch (k (world done e)) h).
Proof. reflexivity. Qed.

Lemma perform_catch_done {R} (world : World) (done : list Effect) (r : R)
  (h : Task R) :
  perform_from world done (catch (Done r) h) = (Some r, done).
Proof. reflexivity. Qed.

(** A handler over store calls runs in a world as it runs against the
    store of that world. *)
Lemma perform_lift {R} (world : World) (p : Prog R) (issued : list Call) :
  perform_from world (map Query issued) (lift p) =
  (fst (run_from (store_of world) issued p),
   map Query (snd (run_from (store_of world) issued p))).
Proof.
  revert issued. induction p as [r | | c k IH]; intros issued; cbn.
  - reflexivity.
  - reflexivity.
  - rewrite <- (IH (store_of world issued c) (issued ++ [c])%list).
    rewrite map_app. reflexivity.
Qed.

(** ** The gates in front of the store *)

(** With no admin key configured nobody is admin, whatever [api_key] the
    request carries. *)
Lemma no_admin_key_configured {B} (env : Env) (request : Request B) :
  ADMIN_API_KEY env = None -> validateApiKey env request = false.
Proof.
  intros H. unfold validateApiKey. rewrite H.
  destruct (searchParams_get "api_key" (searchParams request)); reflexivity.
Qed.

(** X4.  Every admin-only handler checks the key before anything else:
    without the admin key the answer is 401 and nothing is asked of the
    store, whatever the path, the id and the body are. *)
Theorem admin_key_comes_first (env : Env) :
  (forall (request : Request unit) store,
      validateApiKey env request = false ->
      run store (Members.GET env request) =
        (Some (NextResponse.mk 401
                 (Some (JObj [("error", JStr "Invalid or missing API key")]))),
         [])
      /\ run store (Transactions.GET env request) =
        (Some (NextResponse.mk 401
                 (Some (JObj [("error", JStr "Invalid or missing API key")]))),
         []))
  /\ (forall (request : Request CreateMemberRequest) store,
      validateApiKey env request = false ->
      run store (Members.POST env request) =
        (Some (NextResponse.mk 401
                 (Some (JObj [("error", JStr "Invalid or missing API key")]))),
         []))
  /\ (forall (request : Request UpdateMemberRequest) store,
      validateApiKey env request = false ->
      run store (Members.PUT env request) =
        (Some (NextResponse.mk 401
                 (Some (JObj [("error", JStr "Invalid or missing API key")]))),
         []))
  /\ (forall (request : Request unit) world,
      validateApiKey env request = false ->
      perform_all world (MemberById.DELETE env request) =
        (Some (NextResponse.mk 401
                 (Some (JObj [("error", JStr "Invalid or missing API key")]))),
         []))
  /\ (forall (request : Request CreatePricingPlanRequest) store,
      validateApiKey env request = false ->
      run store (PricingPlans.POST env request) =
        (Some (NextResponse.mk 401
                 (Some (JObj [("error", JStr "Invalid or missing API key")]))),
         []))
  /\ (forall (request : Request UpdatePricingPlanRequest) store planId,
      validateApiKey env request = false ->
      run store (PricingPlan.PUT env request planId) =
        (Some (NextResponse.mk 401
                 (Some (JObj [("error", JStr "Invalid or missing API key")]))),
         []))
  /\ (forall (request : Request unit) store planId,
      validateApiKey env request = false ->
      run store (PricingPlan.DELETE env request planId) =
        (Some (NextResponse.mk 401
                 (Some (JObj [("error", JStr "Invalid or missing API key")]))),
         []))
  /\ (forall (request : Request TransactionData) store,
      validateApiKey env request = false ->
      run store (Transactions.POST env request) =
        (Some (NextResponse.mk 401
                 (Some (JObj [("error", JStr "Invalid or missing API key")]))),
         []))
  /\ (forall (request : Request UpdateTransactionRequest) world transactionId,
      validateApiKey env request = false ->
      perform_all world (TransactionById.PUT env request transactionId) =
        (Some (NextResponse.mk 401
                 (Some (JObj [("error", JStr "Invalid or missing API key")]))),
         [])).
Proof.
  repeat split; intros;
    unfold Members.GET, Transactions.GET, Members.POST, Members.PUT,
      MemberById.DELETE, PricingPlans.POST, PricingPlan.PUT,
      PricingPlan.DELETE, Transactions.POST, TransactionById.PUT,
      run, perform_all;
    match goal with H : validateApiKey _ _ = false |- _ => rewrite H end;
    reflexivity.
Qed.

Lemma admin_key_comes_first_witness :
  validateApiKey Examples.admin_env Cases.delete_guess = false /\
  perform_all Cases.world
    (MemberById.DELETE Examples.admin_env Cases.delete_guess) =
  (Some (NextResponse.mk 401
           (Some (JObj [("error", JStr "Invalid or missing API key")]))),
   []).
Proof.
  split; [reflexivity |].
  exact (proj1 (proj2 (proj2 (proj2 (admin_key_comes_first Examples.admin_env))))
           Cases.delete_guess Cases.world eq_refl).
Defined.

(** X5.  A body that cannot be read as JSON (or is [null]) is not a
    validation error: once past the key check, and the id check where
    there is one, the handler raises inside its [try] and answers 500
    "Internal server error", with nothing asked of the store. *)
Theorem unreadable_body_is_500 (env : Env) :
  (forall (request : Request CreateMemberRequest) store,
      validateApiKey env request = true -> json_body request = None ->
      run store (Members.POST env request) =
        (Some (NextResponse.mk 500
                 (Some (JObj [("error", JStr "Internal server error")]))), []))
  /\ (forall (request : Request CreatePricingPlanRequest) store,
      validateApiKey env request = true -> json_body request = None ->
      run store (PricingPlans.POST env request) =
        (Some (NextResponse.mk 500
                 (Some (JObj [("error", JStr "Internal server error")]))), []))
  /\ (forall (request : Request TransactionData) store,
      validateApiKey env request = true -> json_body request = None ->
      run store (Transactions.POST env request) =
        (Some (NextResponse.mk 500
                 (Some (JObj [("error", JStr "Internal server error")]))), []))
  /\ (forall (request : Request UpdateMemberRequest) store,
      validateApiKey env request = true -> json_body request = None ->
      last_segment (pathname request) <> "" ->
      last_segment (pathname request) <> "members" ->
      run store (Members.PUT env request) =
        (Some (NextResponse.mk 500
                 (Some (JObj [("error", JStr "Internal server error")]))), []))
  /\ (forall (request : Request UpdatePricingPlanRequest) store planId,
      validateApiKey env request = true -> json_body request = None ->
      Regex.isUUID planId = true ->
      run store (PricingPlan.PUT env request planId) =
        (Some (NextResponse.mk 500
                 (Some (JObj [("error", JStr "Internal server error")]))), []))
  /\ (forall (request : Request UpdateTransactionRequest) world transactionId,
      validateApiKey env request = true -> json_body request = None ->
      Regex.isUUID transactionId = true ->
      perform_all world (TransactionById.PUT env request transactionId) =
        (Some (NextResponse.mk 500
                 (Some (JObj [("error", JStr "Internal server error")]))), []))
  /\ (forall (request : Request AuthCallback.Body) world,
      json_body request = None ->
      perform_all world (AuthCallback.POST request) =
        (Some (NextResponse.mk 500
                 (Some (JObj [("error", JStr "Internal server error")]))), [])).
Proof.
  repeat split.
  - intros request store Hkey Hbody.
    unfold Members.POST, request_json, run. rewrite Hkey, Hbody. reflexivity.
  - intros request store Hkey Hbody.
    unfold PricingPlans.POST, request_json, run. rewrite Hkey, Hbody.
    reflexivity.
  - intros request store Hkey Hbody.
    unfold Transactions.POST, request_json, run. rewrite Hkey, Hbody.
    reflexivity.
  - intros request store Hkey Hbody Hne Hnm.
    unfold Members.PUT, request_json, run. rewrite Hkey, Hbody. cbn [negb].
    apply String.eqb_neq in Hnm. rewrite Hnm.
    destruct (last_segment (pathname request)); [congruence | reflexivity].
  - intros request store planId Hkey Hbody Hid.
    unfold PricingPlan.PUT, request_json, run. rewrite Hkey, Hbody, Hid.
    reflexivity.
  - intros request world transactionId Hkey Hbody Hid.
    unfold TransactionById.PUT, request_json, perform_all.
    rewrite Hkey, Hbody, Hid. reflexivity.
  - intros request world Hbody.
    unfold AuthCallback.POST, request_json, perform_all. rewrite Hbody.
    reflexivity.
Qed.

Lemma unreadable_body_is_500_witness :
  validateApiKey Examples.admin_env Cases.no_body = true /\
  json_body Cases.no_body = None /\
  run Examples.store (Members.POST Examples.admin_env Cases.no_body) =
  (Some (NextResponse.mk 500
           (Some (JObj [("error", JStr "Internal server error")]))), []).
Proof.
  split; [reflexivity |]. split; [reflexivity |].
  exact (proj1 (unreadable_body_is_500 Examples.admin_env)
           Cases.no_body Examples.store eq_refl eq_refl).
Defined.

(** X6.  An id that is not a well-formed UUID never reaches the store on
    the routes that check it: reading a pricing plan or a transaction
    answers 400 for any caller, and updating or deleting a pricing plan or
    updating a transaction answers 400 once the admin key is there. *)
Theorem malformed_id_stops_at_the_gate (env : Env) (id : string) :
  Regex.isUUID id = false ->
  (forall (request : Request unit) world,
      perform_all world (PlanById.GET env request id) =
        (Some (errorResponse "Invalid pricing plan ID format" 400), []))
  /\ (forall (request : Request unit) store,
      run store (Transaction.GET env request id) =
        (Some (errorResponse "Invalid transaction ID format" 400), []))
  /\ (forall (request : Request UpdatePricingPlanRequest) store,
      validateApiKey env request = true ->
      run store (PricingPlan.PUT env request id) =
        (Some (errorResponse "Invalid pricing plan ID format" 400), []))
  /\ (forall (request : Request unit) store,
      validateApiKey env request = true ->
      run store (PricingPlan.DELETE env request id) =
        (Some (errorResponse "Invalid pricing plan ID format" 400), []))
  /\ (forall (request : Request UpdateTransactionRequest) world,
      validateApiKey env request = true ->
      perform_all world (TransactionById.PUT env request id) =
        (Some (errorResponse "Invalid transaction ID format" 400), [])).
Proof.
  intros Hid. repeat split; intros;
    unfold PlanById.GET, Transaction.GET, PricingPlan.PUT, PricingPlan.DELETE,
      TransactionById.PUT, run, perform_all;
    try match goal with H : validateApiKey _ _ = true |- _ => rewrite H end;
    rewrite Hid; reflexivity.
Qed.

Lemma malformed_id_stops_at_the_gate_witness :
  Regex.isUUID "42" = false /\
  run Examples.store
    (Transaction.GET Examples.admin_env Examples.anonymous "42") =
  (Some (errorResponse "Invalid transaction ID format" 400), []).
Proof.
  split; [reflexivity |].
  exact (proj1 (proj2 (malformed_id_stops_at_the_gate Examples.admin_env "42"
                         eq_refl))
           Examples.anonymous Examples.store).
Defined.

(** ** What reaches the store on create *)

Lemma no_missing (l : list string) : (0 <? length l)%nat = false -> l = [].
Proof. destruct l; [reflexivity | discriminate]. Qed.

Lemma truthy_some (o : option string) :
  truthy o = true -> exists s, o = Some s /\ s <> "".
Proof.
  destruct o as [[| c s] |]; cbn; intros H; try discriminate.
  eexists; split; [reflexivity | discriminate].
Qed.

Lemma members_required_present (memberData : CreateMemberRequest) :
  Members.missingFields memberData = [] ->
  truthy (first_name memberData) = true /\ truthy (last_name memberData) = true
  /\ truthy (phone memberData) = true /\ truthy (email memberData) = true.
Proof.
  unfold Members.missingFields, Members.requiredFields. cbn [filter].
  unfold Members.field. simpl.
  destruct (truthy (first_name memberData)),
           (truthy (last_name memberData)),
           (truthy (phone memberData)),
           (truthy (email memberData)); cbn; intros H;
    try discriminate; auto.
Qed.

(** X7.  The only call [POST /api/members] ever issues is the insert of
    the request body, and only for a caller with the admin key and a body
    whose first name, last name, phone and email are present and not
    empty, with the email and the phone matching their patterns. *)
Theorem members_insert_only_validated (env : Env)
  (request : Request CreateMemberRequest) (store : Store) (c : Call) :
  In c (snd (run store (Members.POST env request))) ->
  exists row fn ln ph em,
    c = MembersInsert row /\
    snd (run store (Members.POST env request)) = [MembersInsert row] /\
    validateApiKey env request = true /\
    json_body request = Some row /\
    first_name row = Some fn /\ fn <> "" /\
    last_name row = Some ln /\ ln <> "" /\
    phone row = Some ph /\ Regex.test Regex.phoneRegex ph = true /\
    email row = Some em /\ Regex.test Regex.emailRegex em = true.
Proof.
  destruct (validateApiKey env request) eqn:Hkey;
    [| unfold Members.POST, run; rewrite Hkey; intros []].
  destruct (json_body request) as [row |] eqn:Hbody;
    [| unfold Members.POST, request_json, run; rewrite Hkey, Hbody;
       intros []].
  rewrite (members_POST_validation env request store row Hkey Hbody).
  destruct (0 <? length (Members.missingFields row))%nat eqn:Hm; [intros [] |].
  destruct (regex_test Regex.emailRegex (email row)) eqn:He; [| intros []].
  destruct (regex_test Regex.phoneRegex (phone row)) eqn:Hp; [| intros []].
  cbn [negb].
  assert (Htrace : snd (run_from store [MembersInsert row]
            (try_catch
               (match error (store [] (MembersInsert row)) with
                | Some e =>
                    if code_is "23505" e
                    then Ret (errorResponse
                                "Member with this email or phone already exists"
                                409)
                    else Ret (errorResponse "Failed to create member" 500)
                | None =>
                    Ret (successResponse
                           (row_json (data (store [] (MembersInsert row))))
                           201)
                end) internal_error)) = [MembersInsert row]).
  { destruct (error (store [] (MembersInsert row))) as [e |];
      [destruct (code_is "23505" e) |]; reflexivity. }
  rewrite Htrace. intros [<- | []].
  apply no_missing, members_required_present in Hm as [Hf [Hl [Hph Hem]]].
  apply truthy_some in Hf as [fn [Hf Nf]], Hl as [ln [Hl Nl]],
    Hph as [ph [Hph _]], Hem as [em [Hem _]].
  rewrite Hem in He. rewrite Hph in Hp.
  exists row, fn, ln, ph, em. repeat split; assumption.
Qed.

Lemma members_insert_only_validated_witness :
  exists row fn ln ph em,
    MembersInsert Examples.good_member = MembersInsert row /\
    snd (run Examples.store
           (Members.POST Examples.admin_env
              (Examples.body_request "/api/members" Examples.good_member)))
      = [MembersInsert row] /\
    validateApiKey Examples.admin_env
      (Examples.body_request "/api/members" Examples.good_member) = true /\
    json_body (Examples.body_request "/api/members" Examples.good_member)
      = Some row /\
    first_name row = Some fn /\ fn <> "" /\
    last_name row = Some ln /\ ln <> "" /\
    phone row = Some ph /\ Regex.test Regex.phoneRegex ph = true /\
    email row = Some em /\ Regex.test Regex.emailRegex em = true.
Proof.
  apply (members_insert_only_validated Examples.admin_env
           (Examples.body_request "/api/members" Examples.good_member)
           Examples.store (MembersInsert Examples.good_member)).
  left. reflexivity.
Defined.









(** X10.  Store failures while creating a transaction.  The member lookup
    only reads [data]: when it comes back [null], for whatever [error],
    the answer is 404 "Member not found" and nothing is inserted; the same
    for the plan lookup.  An insert the store refuses is answered 500
    whatever the error code: a uniqueness violation gets no 409 here. *)
Theorem transaction_create_store_failures (env : Env)
  (request : Request TransactionData) (store : Store)
  (transactionData : TransactionData) :
  validateApiKey env request = true ->
  json_body request = Some transactionData ->
  Transactions.missingFields transactionData = [] ->
  PricingPlans.le_0 (amount transactionData) = false ->
  let find_member := MembersSelectId (member_id transactionData) in
  let find_plan := PlansSelectId (plan_id transactionData) in
  (data (store [] find_member) = None ->
   run store (Transactions.POST env request) =
     (Some (NextResponse.mk 404
              (Some (JObj [("error", JStr "Member not found")]))), [find_member]))
  /\ (data (store [] find_member) <> None ->
      truthy (plan_id transactionData) = true ->
      data (store [find_member] find_plan) = None ->
      run store (Transactions.POST env request) =
        (Some (NextResponse.mk 404
                 (Some (JObj [("error", JStr "Pricing plan not found")]))),
         [find_member; find_plan]))
  /\ (let issued :=
        find_member
        :: (if truthy (plan_id transactionData) then [find_plan] else []) in
      let insert :=
        TransactionsInsert (Transactions.with_status transactionData) in
      data (store [] find_member) <> None ->
      (truthy (plan_id transactionData) = true ->
       data (store [find_member] find_plan) <> None) ->
      forall e, error (store issued insert) = Some e ->
      run store (Transactions.POST env request) =
        (Some (NextResponse.mk 500
                 (Some (JObj [("error", JStr "Failed to create transaction")]))),
         (issued ++ [insert])%list)).
Proof.
  intros Hkey Hbody Hm Ha find_member find_plan.
  rewrite (transactions_POST_validated env request store transactionData
             Hkey Hbody Hm Ha). cbv zeta. fold find_member find_plan.
  split; [| split].
  - intros ->. reflexivity.
  - intros Hmember Hplan Hp.
    destruct (data (store [] find_member)); [| congruence].
    cbn [Transactions.absent]. rewrite Hplan, Hp. reflexivity.
  - intros Hmember Hplan e.
    destruct (data (store [] find_member)); [| congruence].
    cbn [Transactions.absent].
    destruct (truthy (plan_id transactionData)).
    + destruct (data (store [find_member] find_plan));
        [| exfalso; apply Hplan; reflexivity].
      cbn [Transactions.absent]. intros ->. reflexivity.
    + intros ->. reflexivity.
Qed.

Lemma transaction_create_store_failures_witness :
  validateApiKey Examples.admin_env
    (Examples.body_request "/api/transactions" Examples.payment) = true /\
  error (Cases.down [] (MembersSelectId (Some "member-1"))) <> None /\
  run Cases.down
    (Transactions.POST Examples.admin_env
       (Examples.body_request "/api/transactions" Examples.payment)) =
  (Some (NextResponse.mk 404 (Some (JObj [("error", JStr "Member not found")]))),
   [MembersSelectId (Some "member-1")]).
Proof.
  split; [reflexivity |]. split; [discriminate |].
  exact (proj1 (transaction_create_store_failures Examples.admin_env
                  (Examples.body_request "/api/transactions" Examples.payment)
                  Cases.down Examples.payment
                  eq_refl eq_refl eq_refl eq_refl) eq_refl).
Defined.

(** ** What reaches the store on update *)

Lemma check_passes (r : Regex.regex) (v : option string) :
  truthy v && negb (regex_test r v) = false <->
  v = None \/ v = Some "" \/ exists s, v = Some s /\ Regex.test r s = true.
Proof.
  unfold truthy, regex_test. destruct v as [[| c s] |].
  - cbn [JS.truthy_string andb]. split; auto.
  - change (JS.truthy_string (String c s)) with true. cbn [andb].
    destruct (Regex.test r (String c s)) eqn:Ht; cbn [negb]; split; intros H.
    + right; right. eauto.
    + reflexivity.
    + discriminate.
    + destruct H as [H | [H | [s' [H H']]]]; try discriminate.
      injection H as <-. congruence.
  - cbn [andb]. split; auto.
Qed.

(** X11.  [PUT /api/members/:id], with the admin key and a readable body,
    sends the update to the store exactly when the email and the phone
    are each absent, empty or well-formed.  The id is the last path
    segment, whatever its form; an empty email or phone is written
    without a format check, and no field is required. *)
Theorem member_update_reaches_store_iff (env : Env)
  (request : Request UpdateMemberRequest) (store : Store)
  (body : UpdateMemberRequest) :
  validateApiKey env request = true ->
  json_body request = Some body ->
  last_segment (pathname request) <> "" ->
  last_segment (pathname request) <> "members" ->
  let row := update_fields body in
  (snd (run store (Members.PUT env request)) =
     [MembersUpdate (last_segment (pathname request)) row (now_ISO env)]
   <->
   (email row = None \/ email row = Some "" \/
    exists s, email row = Some s /\ Regex.test Regex.emailRegex s = true)
   /\ (phone row = None \/ phone row = Some "" \/
       exists s, phone row = Some s /\ Regex.test Regex.phoneRegex s = true))
  /\ (snd (run store (Members.PUT env request)) <>
        [MembersUpdate (last_segment (pathname request)) row (now_ISO env)] ->
      exists response,
        run store (Members.PUT env request) = (Some response, []) /\
        NextResponse.status response = 400).
Proof.
  intros Hkey Hbody Hne Hnm row. subst row.
  rewrite (members_PUT_validation env request store body Hkey Hbody).
  cbv zeta. apply String.eqb_neq in Hnm. rewrite Hnm.
  assert (Hid : negb (JS.truthy_string (last_segment (pathname request)))
                = false)
    by (destruct (last_segment (pathname request)); [congruence | reflexivity]).
  rewrite Hid. cbn [orb].
  rewrite <- !check_passes.
  set (update := MembersUpdate (last_segment (pathname request))
                   (update_fields body) (now_ISO env)).
  assert (Htrace : forall p : Prog Response,
            (exists r, p = Ret r) ->
            snd (run_from store [update] (try_catch p internal_error))
            = [update])
    by (intros p [r ->]; reflexivity).
  destruct (truthy (email (update_fields body))
            && negb (regex_test Regex.emailRegex (email (update_fields body)))).
  { split.
    - split; [discriminate | intros [H _]; discriminate H].
    - intros _. eexists; split; reflexivity. }
  destruct (truthy (phone (update_fields body))
            && negb (regex_test Regex.phoneRegex (phone (update_fields body)))).
  { split.
    - split; [discriminate | intros [_ H]; discriminate H].
    - intros _. eexists; split; reflexivity. }
  assert (E : snd (run_from store [update]
            (try_catch
               (match error (store [] update) with
                | Some e =>
                    if code_is "PGRST116" e then
                      Ret (errorResponse "Member not found" 404)
                    else if code_is "23505" e then
                      Ret (errorResponse
                             "Email or phone already exists for another member"
                             409)
                    else Ret (errorResponse "Failed to update member" 500)
                | None =>
                    Ret (successResponse (row_json (data (store [] update)))
                           200)
                end) internal_error)) = [update]).
  { apply Htrace. destruct (error (store [] update)) as [e |];
      [destruct (code_is "PGRST116" e); [| destruct (code_is "23505" e)] |];
      eexists; reflexivity. }
  split.
  - split; [auto | intros _; exact E].
  - intros H. exfalso. apply H. exact E.
Qed.

Lemma member_update_reaches_store_iff_witness :
  validateApiKey Examples.admin_env Cases.blank_contact = true /\
  snd (run Examples.store (Members.PUT Examples.admin_env Cases.blank_contact))
  = [MembersUpdate "some-id"
       {| first_name := None; last_name := None; photo_url := None;
          phone := Some ""; email := Some ""; address := None;
          health_issues := None; subscription_plan_id := None;
          subscription_start_date := None; subscription_expiry_date := None;
          last_fee_paid_date := None |}
       "2024-05-01T10:00:00.000Z"].
Proof.
  split; [reflexivity |].
  refine (proj2 (proj1 (member_update_reaches_store_iff Examples.admin_env
                          Cases.blank_contact Examples.store _
                          eq_refl eq_refl _ _)) _).
  - discriminate.
  - discriminate.
  - split; right; left; reflexivity.
Defined.

(** ** The statistics of the members route *)

(** X12.  [GET /api/members/stats] with the admin key asks the store for
    four head counts and answers 200 whatever comes back: it never reads
    [error], and a count the store did not give shows as 0. *)
Theorem statistics_always_200 (env : Env) (request : Request unit)
  (store : Store) :
  validateApiKey env request = true ->
  Regex.isUUID (last_segment (pathname request)) = false ->
  Str.includes "/stats" (pathname request) = true ->
  let c1 := MembersCount AllMembers in
  let c2 := MembersCount (ExpiryGte (today env)) in
  let c3 := MembersCount (ExpiryLtNotNull (today env)) in
  let c4 := MembersCount PlanIsNull in
  let shown (issued : list Call) (c : Call) : json :=
    JNum (match count (store issued c) with
          | Some n => JS.of_Z n
          | None => JS.of_Z 0
          end) in
  run store (Members.GET env request) =
    (Some (NextResponse.mk 200
             (Some (JObj [("data",
                           JObj [("totalMembers", shown [] c1);
                                 ("activeSubscriptions", shown [c1] c2);
                                 ("expiredSubscriptions", shown [c1; c2] c3);
                                 ("noSubscription", shown [c1; c2; c3] c4)])]))),
     [c1; c2; c3; c4]).
Proof.
  intros Hkey Hid Hstats. cbv zeta.
  unfold Members.GET, run. rewrite Hkey, Hid, Hstats. cbn [negb andb].
  rewrite !run_await. cbn [app]. rewrite run_ret.
  unfold successResponse, NextResponse.json, Members.stat, count_or_0.
  cbn [wire map fst snd].
  repeat match goal with
         | |- context [count ?r] => destruct (count r); cbn [wire]
         end; reflexivity.
Qed.

Lemma statistics_always_200_witness :
  validateApiKey Examples.admin_env Cases.members_stats = true /\
  fst (run Cases.down (Members.GET Examples.admin_env Cases.members_stats)) =
  Some (NextResponse.mk 200
          (Some (JObj [("data",
                        JObj [("totalMembers", JNum (JS.of_Z 0));
                              ("activeSubscriptions", JNum (JS.of_Z 0));
                              ("expiredSubscriptions", JNum (JS.of_Z 0));
                              ("noSubscription", JNum (JS.of_Z 0))])]))).
Proof.
  split; [reflexivity |].
  exact (f_equal fst
           (statistics_always_200 Examples.admin_env Cases.members_stats
              Cases.down eq_refl eq_refl eq_refl)).
Defined.

(** ** The range asked of the store and the summary returned *)

Lemma of_Z_add (a b : Z) :
  Z.abs (a + b) <= 2 ^ 53 ->
  JS.add (JS.of_Z a) (JS.of_Z b) = JS.of_Z (a + b).
Proof.
  intros H. unfold JS.of_Z, JS.add. apply round_integer; [| exact H].
  rewrite inject_Z_plus. reflexivity.
Qed.

Lemma of_Z_sub_1 (p : Z) :
  Z.abs (p - 1) <= 2 ^ 53 ->
  JS.sub (JS.of_Z p) (JS.of_Z 1) = JS.of_Z (p - 1).
Proof.
  intros H. unfold JS.sub.
  change (JS.neg (JS.of_Z 1)) with (JS.of_Z (-1)).
  apply (of_Z_add p (-1)). exact H.
Qed.

Lemma of_Z_mul_pos (a b : Z) :
  0 < b -> Z.abs (a * b) <= 2 ^ 53 ->
  JS.mul (JS.of_Z a) (JS.of_Z b) = JS.of_Z (a * b).
Proof.
  intros Hb Hab. unfold JS.mul.
  change (JS.is_nan (JS.of_Z a)) with false.
  change (JS.is_nan (JS.of_Z b)) with false.
  change (JS.is_inf (JS.of_Z a)) with false.
  change (JS.is_inf (JS.of_Z b)) with false.
  cbn [orb]. rewrite !of_Z_zero, !of_Z_sgn.
  destruct (Z.eqb_spec b 0); [lia |]. rewrite orb_false_r.
  destruct (Z.eqb_spec a 0) as [-> | Ha].
  - destruct (Z.ltb_spec b 0); [lia |]. reflexivity.
  - apply round_integer; [| exact Hab].
    unfold JS.of_Z, JS.val. rewrite inject_Z_mult. reflexivity.
Qed.

(** The range of a list query, for whichever endpoint. *)
Lemma range_of_list_call (l : Listing) (env : Env) (request : Request unit) :
  range_of (list_call l env request) =
  Some (offset_of (page_of request) (limit_of request),
        range_end (offset_of (page_of request) (limit_of request))
          (limit_of request)).
Proof. destruct l; reflexivity. Qed.

(** Every intermediate result of the range is within [2^53] when its two
    ends are. *)
Lemma range_bounds (p n : Z) :
  0 < n -> - 2 ^ 53 <= (p - 1) * n -> p * n <= 2 ^ 53 ->
  n <= 2 ^ 53 /\ Z.abs (p - 1) <= 2 ^ 53 /\ Z.abs ((p - 1) * n) <= 2 ^ 53 /\
  Z.abs ((p - 1) * n + n) <= 2 ^ 53 /\ Z.abs ((p - 1) * n + n - 1) <= 2 ^ 53.
Proof.
  intros Hn Hlo Hhi. generalize dependent (2 ^ 53). intros K Hlo Hhi.
  assert (E : (p - 1) * n + n = p * n) by ring.
  destruct (Z.le_gt_cases 1 p) as [Hp | Hp].
  - assert (0 <= (p - 1) * n) by (apply Z.mul_nonneg_nonneg; lia).
    assert (p - 1 <= (p - 1) * n) by nia.
    repeat split; lia.
  - assert ((p - 1) * n <= p - 1) by nia.
    assert ((p - 1) * n <= - n) by nia.
    repeat split; lia.
Qed.

(** X13.  For an integer page [p] and a positive integer limit [n], each
    list endpoint asks the store for the rows [(p - 1) * n] to
    [p * n - 1], that is [n] rows, and the summary it returns agrees with
    that range: [hasNext] holds exactly when the count goes beyond the end
    of the range, [hasPrev] exactly when the range does not start at row
    0.  The page is not checked against the count or against zero: a page
    of 0 or less asks for a range that starts below 0.  This is for
    products and counts within [2^53], where the arithmetic of numbers is
    that of integers. *)
Theorem range_and_summary_agree (l : Listing) (env : Env)
  (request : Request unit) (p n : Z) :
  page_of request = JS.of_Z p ->
  limit_of request = JS.of_Z n ->
  0 < n ->
  - 2 ^ 53 <= (p - 1) * n ->
  p * n <= 2 ^ 53 ->
  range_of (list_call l env request) =
    Some (JS.of_Z ((p - 1) * n), JS.of_Z (p * n - 1))
  /\ forall store t,
       lists l env request = true ->
       error (list_reply store l env request) = None ->
       count (list_reply store l env request) = Some t ->
       0 <= t < 2 ^ 53 ->
       fst (run store (list_GET l env request)) =
         Some (NextResponse.mk 200
                 (Some (JObj [("data",
                               wire (rows_json
                                       (data (list_reply store l env request))));
                              ("pagination",
                               JObj [("page", JNum (JS.of_Z p));
                                     ("limit", JNum (JS.of_Z n));
                                     ("total", JNum (JS.of_Z t));
                                     ("totalPages",
                                      JNum (JS.of_Z (- (- t / n))));
                                     ("hasNext",
                                      JBool (p * n - 1 + 1 <? t)%Z);
                                     ("hasPrev",
                                      JBool (0 <? (p - 1) * n)%Z)])]))).
Proof.
  intros Hp Hn Hpos Hlo Hhi.
  destruct (range_bounds p n Hpos Hlo Hhi) as [Hn53 [B1 [B2 [B3 B4]]]].
  split.
  - rewrite range_of_list_call, Hp, Hn. unfold offset_of, range_end.
    rewrite (of_Z_sub_1 p B1).
    rewrite (of_Z_mul_pos (p - 1) n Hpos B2).
    rewrite (of_Z_add ((p - 1) * n) n B3).
    rewrite (of_Z_sub_1 ((p - 1) * n + n) B4).
    do 3 f_equal. lia.
  - intros store t Hl He Hc Ht.
    rewrite (list_GET_answer l env request store t Hl He Hc).
    rewrite Hp, Hn.
    rewrite ceil_div_pos by lia.
    rewrite of_Z_lt, of_Z_gt.
    pose proof (ceiling_bounds t n Hpos) as B. cbv zeta in B.
    replace (p <? - (- t / n))%Z with (p * n - 1 + 1 <? t)%Z
      by (destruct (Z.ltb_spec p (- (- t / n))),
                   (Z.ltb_spec (p * n - 1 + 1) t); trivial; nia).
    replace (1 <? p)%Z with (0 <? (p - 1) * n)%Z
      by (destruct (Z.ltb_spec 1 p), (Z.ltb_spec 0 ((p - 1) * n));
          trivial; nia).
    reflexivity.
Qed.

Lemma range_and_summary_agree_witness :
  page_of Examples.members_page_2 = JS.of_Z 2 /\
  range_of (Members.query Examples.admin_env Examples.members_page_2) =
  Some (JS.of_Z 10, JS.of_Z 19).
Proof.
  split; [reflexivity |].
  exact (proj1 (range_and_summary_agree ListMembers Examples.admin_env
                  Examples.members_page_2 2 10 eq_refl eq_refl eq_refl
                  (proj1 (Z.leb_le (- 2 ^ 53) ((2 - 1) * 10)) eq_refl)
                  (proj1 (Z.leb_le (2 * 10) (2 ^ 53)) eq_refl))).
Defined.

Lemma nan_offset (limit : JS.number) :
  offset_of JS.NaN limit = JS.NaN /\ range_end JS.NaN limit = JS.NaN.
Proof. split; reflexivity. Qed.

Lemma offset_nan (page : JS.number) :
  offset_of page JS.NaN = JS.NaN.
Proof.
  unfold offset_of, JS.mul. rewrite orb_true_r. reflexivity.
Qed.

(** X14.  [page] and [limit] are not validated.  When [parseInt] gives
    [NaN] for either (["abc"], say), the list query still goes to the
    store, with [NaN] for both ends of the range; if the store answers,
    the summary has neither a next nor a previous page whatever the
    count is. *)
Theorem unparsable_page_reaches_store (l : Listing) (env : Env)
  (request : Request unit) (store : Store) :
  lists l env request = true ->
  page_of request = JS.NaN \/ limit_of request = JS.NaN ->
  snd (run store (list_GET l env request)) = [list_call l env request]
  /\ range_of (list_call l env request) = Some (JS.NaN, JS.NaN)
  /\ forall count,
       let P := pagination (page_of request) (limit_of request) count in
       hasNext P = false
       /\ (page_of request = JS.NaN -> hasPrev P = false).
Proof.
  intros Hl Hnan. split; [| split].
  - destruct l; cbn in Hl |- *.
    + apply andb_true_iff in Hl as [Hl Hstats].
      apply andb_true_iff in Hl as [Hkey Hid].
      apply negb_true_iff in Hid, Hstats.
      unfold Members.GET, run. rewrite Hkey, Hid, Hstats. cbn [negb].
      simpl. destruct (error _); reflexivity.
    + unfold Transactions.GET, run. rewrite Hl. cbn [negb].
      simpl. destruct (error _); reflexivity.
    + unfold PricingPlans.GET, run.
      simpl. destruct (error _); reflexivity.
  - rewrite range_of_list_call.
    destruct Hnan as [-> | ->].
    + reflexivity.
    + rewrite offset_nan. reflexivity.
  - intros count P. subst P. unfold pagination. cbn [hasNext hasPrev].
    destruct Hnan as [-> | ->].
    + split; reflexivity.
    + assert (E : JS.div (count_or_0 count) JS.NaN = JS.NaN).
      { unfold JS.div. rewrite orb_true_r. reflexivity. }
      rewrite E. cbn [JS.Math_ceil]. split.
      * destruct (page_of request); reflexivity.
      * intros ->. reflexivity.
Qed.

Lemma unparsable_page_reaches_store_witness :
  lists ListMembers Examples.admin_env Cases.members_page_abc = true /\
  page_of Cases.members_page_abc = JS.NaN /\
  snd (run Examples.store
         (Members.GET Examples.admin_env Cases.members_page_abc)) =
  [MembersList None None None "created_at" false JS.NaN JS.NaN].
Proof.
  split; [reflexivity |]. split; [reflexivity |].
  exact (proj1 (unparsable_page_reaches_store ListMembers Examples.admin_env
                  Cases.members_page_abc Examples.store eq_refl
                  (or_introl eq_refl))).
Defined.

(** ** Who reads what *)

Lemma strict_neq_false (a : MemberId) (o : option json) :
  Transaction.strict_neq a o = false <->
  (exists m, a = Id m /\ o = Some (JStr m))
  \/ (a = IdNull /\ o = Some JNull)
  \/ (a = IdUndefined /\ o = None).
Proof.
  unfold Transaction.strict_neq. split.
  - destruct a as [| | m], o as [[| | | s | |] |]; intros H; try discriminate.
    + right. left. auto.
    + right. right. auto.
    + apply negb_false_iff, String.eqb_eq in H. subst. left. eauto.
  - intros [[m [-> ->]] | [[-> ->] | [-> ->]]]; try reflexivity.
    rewrite String.eqb_refl. reflexivity.
Qed.

(** X15.  [GET /api/transactions/:id] answers 200 only with the row the
    store returned for that id, and only to a caller with the admin key
    or to one whose verified token names the row's [member_id].  Two more
    cases pass the comparison, because [null !== null] and
    [undefined !== undefined] are false: a row whose [member_id] is
    [null], read with no valid token, and a row with no [member_id] at
    all, read with a verified token that carries no [memberId]. *)
Theorem transaction_disclosed_only_to (env : Env) (request : Request unit)
  (store : Store) (id : string) (response : Response) :
  fst (run store (Transaction.GET env request id)) = Some response ->
  NextResponse.status response = 200 ->
  let reply := store [] (TransactionsSelectById id) in
  Regex.isUUID id = true
  /\ error reply = None
  /\ response =
       NextResponse.mk 200
         (Some (JObj [("data", wire (row_json (data reply)))]))
  /\ (validateApiKey env request = true
      \/ exists row,
           data reply = Some row /\
           ((exists m, validateMemberToken env request = Id m /\
                       get_prop "member_id" row = Some (JStr m))
            \/ (validateMemberToken env request = IdNull /\
                get_prop "member_id" row = Some JNull)
            \/ (validateMemberToken env request = IdUndefined /\
                get_prop "member_id" row = None))).
Proof.
  cbv zeta. destruct (Regex.isUUID id) eqn:Hid.
  2: { unfold Transaction.GET, run. rewrite Hid. cbn.
       intros [= <-]. discriminate. }
  rewrite (transaction_GET_fetch env request store id Hid). cbv zeta.
  destruct (store [] (TransactionsSelectById id)) as [d [e |] n];
    cbn [data error].
  - destruct (code_is "PGRST116" e); rewrite run_ret; cbn;
      intros [= <-]; discriminate.
  - destruct (validateApiKey env request).
    + rewrite run_ret; cbn. intros [= <-] _. auto.
    + destruct d as [row |].
      * destruct (Transaction.strict_neq _ _) eqn:Hneq; rewrite run_ret; cbn.
        -- intros [= <-]. discriminate.
        -- intros [= <-] _. repeat split. right. exists row.
           split; [reflexivity |]. apply strict_neq_false. exact Hneq.
      * cbn. intros [= <-]. discriminate.
Qed.

Lemma transaction_disclosed_only_to_witness :
  fst (run Examples.store
         (Transaction.GET Examples.admin_env Cases.admin_reads
            Examples.transaction_id)) =
    Some (NextResponse.mk 200
            (Some (JObj [("data", JObj Examples.transaction_row)]))) /\
  validateApiKey Examples.admin_env Cases.admin_reads = true.
Proof.
  split; [reflexivity |].
  destruct (transaction_disclosed_only_to Examples.admin_env Cases.admin_reads
              Examples.store Examples.transaction_id
              (NextResponse.mk 200
                 (Some (JObj [("data", JObj Examples.transaction_row)])))
              eq_refl eq_refl)
    as [_ [_ [_ [H | [row [_ [[m [H _]] | [[H _] | [H _]]]]]]]]].
  - exact H.
  - discriminate H.
  - reflexivity.
  - discriminate H.
Defined.

(** X16.  [DELETE /api/pricing_plans/:id] with the admin key and a
    well-formed id.  A usage check that fails is answered 500 and nothing
    is deleted.  A check that comes back clean is followed by one delete,
    of the id of the request, answered 204, or 500 when the store refuses.
    So a delete reaches the store only for that id and only after a clean
    check, and 204 is answered only after a delete the store accepted. *)
Theorem plan_delete_outcomes (env : Env) (request : Request unit)
  (store : Store) (planId : string) :
  validateApiKey env request = true ->
  Regex.isUUID planId = true ->
  let check := store [] (MembersUsingPlan planId) in
  let deleted := store [MembersUsingPlan planId] (PlansDelete planId) in
  (error check <> None ->
   run store (PricingPlan.DELETE env request planId) =
     (Some (NextResponse.mk 500
              (Some (JObj [("error", JStr "Failed to check plan usage")]))),
      [MembersUsingPlan planId]))
  /\ (error check = None -> PricingPlan.in_use (data check) = false ->
      run store (PricingPlan.DELETE env request planId) =
        (Some (match error deleted with
               | Some _ => NextResponse.mk 500
                             (Some (JObj [("error",
                                           JStr "Failed to delete pricing plan")]))
               | None => NextResponse.empty 204
               end),
         [MembersUsingPlan planId; PlansDelete planId]))
  /\ (forall id,
        In (PlansDelete id)
           (snd (run store (PricingPlan.DELETE env request planId))) ->
        id = planId /\ error check = None /\
        PricingPlan.in_use (data check) = false)
  /\ (fst (run store (PricingPlan.DELETE env request planId)) =
        Some (NextResponse.empty 204) ->
      error check = None /\ PricingPlan.in_use (data check) = false /\
      error deleted = None).
Proof.
  intros Hkey Hid check deleted.
  assert (E : run store (PricingPlan.DELETE env request planId) =
    match error check with
    | Some _ =>
        (Some (errorResponse "Failed to check plan usage" 500),
         [MembersUsingPlan planId])
    | None =>
        if PricingPlan.in_use (data check) then
          (Some (errorResponse
                   "Cannot delete pricing plan that is currently in use by members"
                   409),
           [MembersUsingPlan planId])
        else
          (Some (match error deleted with
                 | Some _ => errorResponse "Failed to delete pricing plan" 500
                 | None => NextResponse.empty 204
                 end),
           [MembersUsingPlan planId; PlansDelete planId])
    end).
  { unfold PricingPlan.DELETE, run. rewrite Hkey, Hid. cbn [negb].
    rewrite run_await. cbn [app]. fold check.
    destruct (error check); [reflexivity |].
    destruct (PricingPlan.in_use (data check)); [reflexivity |].
    rewrite run_await. cbn [app]. fold deleted.
    destruct (error deleted); reflexivity. }
  split; [| split; [| split]].
  - intros H. rewrite E. destruct (error check); [reflexivity | congruence].
  - intros He Hu. rewrite E, He, Hu. reflexivity.
  - intros id. apply plan_delete_only_when_unused.
  - rewrite E. destruct (error check); [intros H; response_clash H |].
    destruct (PricingPlan.in_use (data check)); [intros H; response_clash H |].
    destruct (error deleted); [intros H; response_clash H |]. auto.
Qed.

Lemma plan_delete_outcomes_witness :
  validateApiKey Examples.admin_env Examples.delete_plan = true /\
  run Cases.quiet
    (PricingPlan.DELETE Examples.admin_env Examples.delete_plan
       Examples.plan_uuid) =
  (Some (NextResponse.empty 204),
   [MembersUsingPlan Examples.plan_uuid; PlansDelete Examples.plan_uuid]).
Proof.
  split; [reflexivity |].
  exact (proj1 (proj2 (plan_delete_outcomes Examples.admin_env
                         Examples.delete_plan Cases.quiet Examples.plan_uuid
                         eq_refl eq_refl))
           eq_refl eq_refl).
Defined.

(** X17.  [GET /api/members/me] answers 200 only to a caller whose
    bearer token [verify] accepts, and then with the row the store
    returned for the [memberId] of that token and for no other id.
    Without a token that names a member (no valid token, a payload
    without [memberId], or an empty one) the answer is 401 and the store
    is not asked. *)
Theorem profile_only_for_token_owner (env : Env) (request : Request unit)
  (store : Store) :
  (forall response,
      fst (run store (Me.GET env request)) = Some response ->
      NextResponse.status response = 200 ->
      exists m,
        validateMemberToken env request = Id m /\ m <> "" /\
        snd (run store (Me.GET env request)) = [MembersSelectById m] /\
        error (store [] (MembersSelectById m)) = None /\
        response =
          NextResponse.mk 200
            (Some (JObj [("data",
                          wire (row_json
                                  (data (store [] (MembersSelectById m)))))])))
  /\ (validateMemberToken env request = IdNull
      \/ validateMemberToken env request = IdUndefined
      \/ validateMemberToken env request = Id "" ->
      run store (Me.GET env request) =
        (Some (NextResponse.mk 401
                 (Some (JObj [("error",
                               JStr "Invalid or missing authentication token")]))),
         [])).
Proof.
  split.
  - intros response. unfold Me.GET, run. cbv zeta.
    destruct (validateMemberToken env request) as [| | [| c m]] eqn:Htok;
      cbn [no_id JS.truthy_string negb].
    + rewrite run_ret. cbn. intros [= <-]. discriminate.
    + rewrite run_ret. cbn. intros [= <-]. discriminate.
    + rewrite run_ret. cbn. intros [= <-]. discriminate.
    + rewrite run_await. cbn [app].
      destruct (store [] (MembersSelectById (String c m))) as [d [e |] n] eqn:Hr;
        cbn [data error].
      * destruct (code_is "PGRST116" e); rewrite run_ret; cbn;
          intros [= <-]; discriminate.
      * rewrite run_ret. cbn. intros [= <-] _.
        exists (String c m). rewrite Hr. cbn [data error].
        repeat split. discriminate.
  - intros Htok. unfold Me.GET, run.
    destruct Htok as [-> | [-> | ->]]; reflexivity.
Qed.

Lemma profile_only_for_token_owner_witness :
  validateMemberToken Examples.admin_env Cases.without_member = IdUndefined /\
  run Examples.store (Me.GET Examples.admin_env Cases.without_member) =
  (Some (NextResponse.mk 401
           (Some (JObj [("error",
                         JStr "Invalid or missing authentication token")]))),
   []).
Proof.
  split; [reflexivity |].
  exact (proj2 (profile_only_for_token_owner Examples.admin_env
                  Cases.without_member Examples.store)
           (or_intror (or_introl eq_refl))).
Defined.

(** X18.  [DELETE /api/members/:id] with the admin key deletes by the last
    path segment, whatever its form: there is no UUID check and no lookup
    first.  The answer is 204 whenever the store reports no error, so also
    for an id that names no member, and 500 otherwise; an empty segment
    or ["members"] is answered 400 with nothing deleted. *)
Theorem member_delete_outcomes (env : Env) (request : Request unit)
  (world : World) :
  validateApiKey env request = true ->
  let memberId := last_segment (pathname request) in
  (memberId = "" \/ memberId = "members" ->
   perform_all world (MemberById.DELETE env request) =
     (Some (NextResponse.mk 400
              (Some (JObj [("error", JStr "Member ID is required")]))), []))
  /\ (memberId <> "" -> memberId <> "members" ->
      perform_all world (MemberById.DELETE env request) =
        (Some (match error (world [] (MembersDelete memberId)) with
               | Some _ => NextResponse.mk 500
                             (Some (JObj [("error", JStr "Failed to delete member")]))
               | None => NextResponse.empty 204
               end),
         [MembersDelete memberId])).
Proof.
  intros Hkey memberId. subst memberId.
  unfold MemberById.DELETE, perform_all. rewrite Hkey. cbn [negb]. cbv zeta.
  split.
  - intros [-> | ->]; reflexivity.
  - intros Hne Hnm. apply String.eqb_neq in Hnm. rewrite Hnm.
    destruct (last_segment (pathname request)) as [| c s] eqn:Hs;
      [congruence |].
    cbn [JS.truthy_string negb orb]. rewrite perform_catch_step. cbn [app].
    destruct (error (world [] (MembersDelete (String c s)))); reflexivity.
Qed.

Lemma member_delete_outcomes_witness :
  validateApiKey Examples.admin_env Cases.delete_some_id = true /\
  perform_all Cases.world
    (MemberById.DELETE Examples.admin_env Cases.delete_some_id) =
  (Some (NextResponse.empty 204), [MembersDelete "some-id"]).
Proof.
  split; [reflexivity |].
  refine (proj2 (member_delete_outcomes Examples.admin_env
                   Cases.delete_some_id Cases.world eq_refl) _ _);
    discriminate.
Defined.

(** ** Updating a transaction *)

(** The update handler past its gates, as a table. *)
Lemma transaction_PUT_table (env : Env)
  (request : Request UpdateTransactionRequest) (world : World)
  (transactionId : string) (body : UpdateTransactionRequest) :
  validateApiKey env request = true ->
  Regex.isUUID transactionId = true ->
  json_body request = Some body ->
  let updateData := transaction_update_fields body in
  let find_member := Query (MembersSelectId (member_id updateData)) in
  let find_plan := Query (PlansSelectId (plan_id updateData)) in
  let update := TransactionsUpdate transactionId updateData (now_ISO env) in
  let updated (done : list Effect) : option Response * list Effect :=
    (Some match error (world done update) with
          | Some e =>
              if code_is "PGRST116" e
              then errorResponse "Transaction not found" 404
              else errorResponse "Failed to update transaction" 500
          | None => successResponse (row_json (data (world done update))) 200
          end,
     (done ++ [update])%list) in
  let after_member (done : list Effect) :=
    if truthy (plan_id updateData) then
      if Transactions.absent (data (world done find_plan)) then
        (Some (errorResponse "Pricing plan not found" 404),
         (done ++ [find_plan])%list)
      else updated (done ++ [find_plan])%list
    else updated done in
  perform_all world (TransactionById.PUT env request transactionId) =
    if TransactionById.given_le_0 (amount updateData) then
      (Some (errorResponse "Amount must be greater than 0" 400), [])
    else if truthy (member_id updateData) then
      if Transactions.absent (data (world [] find_member)) then
        (Some (errorResponse "Member not found" 404), [find_member])
      else after_member [find_member]
    else after_member [].
Proof.
  intros Hkey Hid Hbody. cbv zeta.
  unfold TransactionById.PUT, request_json, perform_all.
  rewrite Hkey, Hid, Hbody. cbn [negb lift and_then]. cbv zeta.
  destruct (TransactionById.given_le_0 (amount (transaction_update_fields body)));
    [reflexivity |].
  destruct (truthy (member_id (transaction_update_fields body)));
    destruct (truthy (plan_id (transaction_update_fields body)));
    repeat (rewrite perform_catch_step; cbn [app];
            try match goal with
                | |- context [Transactions.absent ?d] =>
                    destruct (Transactions.absent d); [reflexivity |]
                end);
    match goal with
    | |- context [error ?r] =>
        destruct (error r) as [e |]; [destruct (code_is "PGRST116" e) |]
    end; reflexivity.
Qed.

(** X19.  [PUT /api/transactions/:id] with the admin key, a well-formed
    id and a readable body.  An amount that is given and [<= 0], zero
    included, is answered 400 "Amount must be greater than 0" with
    nothing asked of the store.  The update that reaches the store is for
    the id of the request and carries the body unchanged, and it is sent
    only when the amount passed that test and, if the body names a
    member, after the store returned that member. *)
Theorem transaction_update_checks (env : Env)
  (request : Request UpdateTransactionRequest) (world : World)
  (transactionId : string) (body : UpdateTransactionRequest) :
  validateApiKey env request = true ->
  Regex.isUUID transactionId = true ->
  json_body request = Some body ->
  let updateData := transaction_update_fields body in
  (forall a, amount updateData = Some a -> JS.le a (JS.of_Z 0) = true ->
             perform_all world (TransactionById.PUT env request transactionId) =
               (Some (errorResponse "Amount must be greater than 0" 400), []))
  /\ (forall id row updated_at,
        In (TransactionsUpdate id row updated_at)
           (snd (perform_all world
                   (TransactionById.PUT env request transactionId))) ->
        id = transactionId /\ row = updateData /\ updated_at = now_ISO env /\
        (forall a, amount updateData = Some a -> JS.le a (JS.of_Z 0) = false) /\
        (truthy (member_id updateData) = true ->
         data (world [] (Query (MembersSelectId (member_id updateData))))
         <> None)).
Proof.
  intros Hkey Hid Hbody updateData.
  rewrite (transaction_PUT_table env request world transactionId body
             Hkey Hid Hbody). cbv zeta. fold updateData.
  split.
  - intros a Ha Hle. unfold TransactionById.given_le_0. rewrite Ha, Hle.
    reflexivity.
  - intros id row updated_at.
    destruct (TransactionById.given_le_0 (amount updateData)) eqn:Hamount;
      [intros [] |].
    assert (Ham : forall a, amount updateData = Some a ->
                            JS.le a (JS.of_Z 0) = false).
    { intros a Ha. unfold TransactionById.given_le_0 in Hamount.
      rewrite Ha in Hamount. exact Hamount. }
    destruct (truthy (member_id updateData)).
    + destruct (data (world [] (Query (MembersSelectId (member_id updateData)))))
        as [member |] eqn:Hmember; cbn [Transactions.absent].
      2: { cbn. intros [H | []]. discriminate H. }
      destruct (truthy (plan_id updateData)).
      * match goal with
        | |- context [Transactions.absent ?d] =>
            destruct (Transactions.absent d)
        end; cbn; intros H;
          repeat (destruct H as [H | H]; try discriminate H); try contradiction.
        injection H as <- <- <-. repeat split; try assumption.
        intros _. discriminate.
      * cbn. intros H.
        repeat (destruct H as [H | H]; try discriminate H); try contradiction.
        injection H as <- <- <-. repeat split; try assumption.
        intros _. discriminate.
    + destruct (truthy (plan_id updateData)).
      * match goal with
        | |- context [Transactions.absent ?d] =>
            destruct (Transactions.absent d)
        end; cbn; intros H;
          repeat (destruct H as [H | H]; try discriminate H); try contradiction.
        injection H as <- <- <-. repeat split; try assumption.
        intros H. discriminate H.
      * cbn. intros H.
        repeat (destruct H as [H | H]; try discriminate H); try contradiction.
        injection H as <- <- <-. repeat split; try assumption.
        intros H. discriminate H.
Qed.

Lemma transaction_update_checks_witness :
  validateApiKey Examples.admin_env Cases.amount_zero = true /\
  perform_all Cases.world
    (TransactionById.PUT Examples.admin_env Cases.amount_zero
       Examples.transaction_id) =
  (Some (errorResponse "Amount must be greater than 0" 400), []).
Proof.
  split; [reflexivity |].
  exact (proj1 (transaction_update_checks Examples.admin_env Cases.amount_zero
                  Cases.world Examples.transaction_id _
                  eq_refl eq_refl eq_refl)
           (JS.of_Z 0) eq_refl eq_refl).
Defined.

(** ** The profile handler of [pages/api] *)

Lemma pages_me_table (req : PagesMe.Req) (world : World) :
  perform_all world (PagesMe.handler req) =
    if negb (String.eqb (PagesMe.method req) "GET") then
      (Some (PagesMe.respond 405 (JObj [("error", JStr "Method Not Allowed")])),
       [])
    else
      match PagesMe.headers_authorization req with
      | None =>
          (Some (PagesMe.respond 401 (JObj [("error", JStr "Missing auth token")])),
           [])
      | Some h =>
          let token := replace_first "Bearer " "" h in
          if negb (JS.truthy_string token) then
            (Some (PagesMe.respond 401
                     (JObj [("error", JStr "Missing auth token")])), [])
          else
            let u := world [] (AuthGetUser token) in
            match userError u, user_id u with
            | None, Some id =>
                let r := world [AuthGetUser token]
                           (Query (MembersSelectById id)) in
                (Some match error r with
                      | Some memberError =>
                          PagesMe.respond 500
                            (JObj [("error", JStr (message memberError))])
                      | None =>
                          PagesMe.respond 200
                            (JObj [("member", row_json (data r))])
                      end,
                 [AuthGetUser token; Query (MembersSelectById id)])
            | _, _ =>
                (Some (PagesMe.respond 401
                         (JObj [("error", JStr "Invalid or expired token")])),
                 [AuthGetUser token])
            end
      end.
Proof.
  unfold PagesMe.handler, perform_all.
  destruct (negb (String.eqb (PagesMe.method req) "GET")); [reflexivity |].
  destruct (PagesMe.headers_authorization req) as [h |]; [| reflexivity].
  cbn [truthy]. cbv zeta.
  destruct (negb (JS.truthy_string (replace_first "Bearer " "" h)));
    [reflexivity |].
  rewrite perform_step. cbn [app].
  destruct (world [] (AuthGetUser (replace_first "Bearer " "" h)))
    as [[id |] [e |]]; cbn [user_id userError]; try reflexivity.
  rewrite perform_step. cbn [app].
  match goal with
  | |- context [error ?r] => destruct (error r)
  end; reflexivity.
Qed.

Lemma replace_first_absent (pattern replacement s : string) :
  Str.includes pattern s = false -> replace_first pattern replacement s = s.
Proof.
  induction s as [| c s IH]; cbn; intros H;
    apply orb_false_iff in H as [Hp Hi]; rewrite Hp.
  - reflexivity.
  - rewrite IH by assumption. reflexivity.
Qed.

(** X20.  The handler answers 405 to any method but GET, with nothing
    called.  It answers 200 only to a GET whose token the identity
    provider resolved to a user without error, and then with the row the
    store returned for the id of that user. *)
Theorem pages_me_profile (req : PagesMe.Req) (world : World) :
  (PagesMe.method req <> "GET" ->
   perform_all world (PagesMe.handler req) =
     (Some (PagesMe.respond 405 (JObj [("error", JStr "Method Not Allowed")])),
      []))
  /\ (forall response,
        fst (perform_all world (PagesMe.handler req)) = Some response ->
        NextResponse.status response = 200 ->
        exists h id,
          PagesMe.method req = "GET" /\
          PagesMe.headers_authorization req = Some h /\
          let token := replace_first "Bearer " "" h in
          let member := world [AuthGetUser token]
                          (Query (MembersSelectById id)) in
          token <> "" /\
          userError (world [] (AuthGetUser token)) = None /\
          user_id (world [] (AuthGetUser token)) = Some id /\
          snd (perform_all world (PagesMe.handler req)) =
            [AuthGetUser token; Query (MembersSelectById id)] /\
          error member = None /\
          response =
            PagesMe.respond 200 (JObj [("member", row_json (data member))])).
Proof.
  rewrite (pages_me_table req world). split.
  - intros H. apply String.eqb_neq in H. rewrite H. reflexivity.
  - intros response.
    destruct (String.eqb_spec (PagesMe.method req) "GET") as [Hm | _];
      cbn [negb]; [| intros [= <-] H; cbn in H; discriminate H].
    destruct (PagesMe.headers_authorization req) as [h |];
      [| intros [= <-] H; cbn in H; discriminate H].
    cbv zeta.
    destruct (replace_first "Bearer " "" h) as [| c t] eqn:Htoken;
      cbn [JS.truthy_string negb];
      [intros [= <-] H; cbn in H; discriminate H |].
    destruct (world [] (AuthGetUser (String c t))) as [[id |] [e |]] eqn:Hu;
      cbn [user_id userError];
      try (intros [= <-] H; cbn in H; discriminate H).
    destruct (world [AuthGetUser (String c t)] (Query (MembersSelectById id)))
      as [d [e |] n] eqn:Hr; cbn [data error fst snd];
      intros [= <-] H; [cbn in H; discriminate H |].
    exists h, id. rewrite Htoken, Hu, Hr.
    cbn [data error user_id userError].
    repeat split; try assumption; discriminate.
Qed.

Lemma pages_me_profile_witness :
  PagesMe.method {| PagesMe.method := "POST";
                    PagesMe.headers_authorization := Some "Bearer good" |}
    <> "GET" /\
  perform_all Cases.world
    (PagesMe.handler {| PagesMe.method := "POST";
                        PagesMe.headers_authorization := Some "Bearer good" |})
  = (Some (PagesMe.respond 405 (JObj [("error", JStr "Method Not Allowed")])),
     []).
Proof.
  split; [discriminate |].
  refine (proj1 (pages_me_profile _ Cases.world) _). discriminate.
Defined.

(** X21.  When the member lookup fails, the handler answers 500 and hands
    the caller the store's own message, also when the failure is that the
    user has no member row (PGRST116): there is no 404 here. *)
Theorem pages_me_lookup_failure (req : PagesMe.Req) (world : World)
  (h id : string) (e : PostgrestError) :
  PagesMe.method req = "GET" ->
  PagesMe.headers_authorization req = Some h ->
  let token := replace_first "Bearer " "" h in
  token <> "" ->
  userError (world [] (AuthGetUser token)) = None ->
  user_id (world [] (AuthGetUser token)) = Some id ->
  error (world [AuthGetUser token] (Query (MembersSelectById id))) = Some e ->
  perform_all world (PagesMe.handler req) =
    (Some (NextResponse.mk 500 (Some (JObj [("error", JStr (message e))]))),
     [AuthGetUser token; Query (MembersSelectById id)]).
Proof.
  intros Hm Hh token Hne Hue Hui He. subst token.
  rewrite (pages_me_table req world), Hm, Hh. cbv zeta.
  cbn [String.eqb negb].
  destruct (replace_first "Bearer " "" h) as [| c t]; [congruence |].
  change (String.eqb "GET" "GET") with true.
  cbn [JS.truthy_string negb]. rewrite Hue, Hui, He. reflexivity.
Qed.

(** X22.  The token is the header with its first ["Bearer "] removed,
    wherever that stands.  So the handler takes a token sent with the
    scheme, and just as well a header that is the bare token. *)
Theorem pages_me_token (req : PagesMe.Req) (world : World) (h : string) :
  PagesMe.method req = "GET" ->
  PagesMe.headers_authorization req = Some h ->
  (forall t, h = "Bearer " ++ t -> t <> "" ->
             hd_error (snd (perform_all world (PagesMe.handler req))) =
               Some (AuthGetUser t))
  /\ (Str.includes "Bearer " h = false -> h <> "" ->
      hd_error (snd (perform_all world (PagesMe.handler req))) =
        Some (AuthGetUser h)).
Proof.
  intros Hm Hh.
  assert (E : forall t, replace_first "Bearer " "" h = t -> t <> "" ->
            hd_error (snd (perform_all world (PagesMe.handler req))) =
              Some (AuthGetUser t)).
  { intros t Ht Hne. rewrite (pages_me_table req world), Hm, Hh, Ht.
    change (String.eqb "GET" "GET") with true. cbv zeta. cbn [negb].
    destruct t as [| c t]; [congruence |]. cbn [JS.truthy_string negb].
    destruct (world [] (AuthGetUser (String c t))) as [[id |] [e |]];
      reflexivity. }
  split.
  - intros t -> Hne. apply E; [| assumption].
    cbn. destruct t; reflexivity.
  - intros Hi Hne. apply E; [| assumption].
    apply replace_first_absent. assumption.
Qed.

Lemma pages_me_lookup_failure_witness :
  PagesMe.method Cases.bare_token = "GET" /\
  perform_all Cases.world_down (PagesMe.handler Cases.bare_token) =
  (Some (NextResponse.mk 500
           (Some (JObj [("error", JStr "no rows returned")]))),
   [AuthGetUser "good"; Query (MembersSelectById "member-1")]).
Proof.
  split; [reflexivity |].
  refine (pages_me_lookup_failure Cases.bare_token Cases.world_down
            "good" "member-1"
            {| code := "PGRST116"; message := "no rows returned" |}
            eq_refl eq_refl _ eq_refl eq_refl eq_refl).
  discriminate.
Defined.

Lemma pages_me_token_witness :
  Str.includes "Bearer " "good" = false /\
  hd_error (snd (perform_all Cases.world (PagesMe.handler Cases.bare_token))) =
  Some (AuthGetUser "good").
Proof.
  split; [reflexivity |].
  refine (proj2 (pages_me_token Cases.bare_token Cases.world "good"
                   eq_refl eq_refl) eq_refl _).
  discriminate.
Defined.

(** ** The OAuth callback *)

Lemma callback_GET_table (parses : string -> string -> bool)
  (request : Request unit) (origin : string) (world : World) :
  let get := fun k => searchParams_get k (searchParams request) in
  let next := match get "next" with Some n => n | None => "/dashboard" end in
  let no_code :=
    AuthCallback.to_login origin
      [("error", "missing_code");
       ("error_description", "No authorization code found")] in
  let unexpected :=
    AuthCallback.to_login origin
      [("error", "unexpected_error");
       ("error_description",
        "An unexpected error occurred during authentication")] in
  perform_all world (AuthCallback.GET parses request origin) =
    if truthy (get "error") then
      (Some (AuthCallback.to_login origin
               (("error", AuthCallback.value (get "error"))
                :: if truthy (get "error_description")
                   then [("error_description",
                          AuthCallback.value (get "error_description"))]
                   else [])),
       [])
    else if truthy (get "code") then
      let exchange :=
        AuthExchangeCodeForSession (AuthCallback.value (get "code")) in
      (Some match world [] exchange with
            | None => unexpected
            | Some reply =>
                match exchangeError reply, session_user reply with
                | Some e, _ =>
                    AuthCallback.to_login origin
                      [("error", "auth_error");
                       ("error_description", auth_message e)]
                | None, Some _ =>
                    if parses next origin then
                      AuthCallback.Redirect
                        {| AuthCallback.input := next;
                           AuthCallback.base := origin;
                           AuthCallback.set_params := [("auth", "success")] |}
                    else unexpected
                | None, None => no_code
                end
            end,
       [exchange])
    else (Some no_code, []).
Proof.
  cbv zeta. unfold AuthCallback.GET, perform_all. cbv zeta.
  destruct (truthy (searchParams_get "error" (searchParams request)));
    [reflexivity |].
  destruct (truthy (searchParams_get "code" (searchParams request)));
    [| reflexivity].
  cbn [and_then catch perform perform_from app].
  destruct (world [] (AuthExchangeCodeForSession _)) as [[u [e |]] |];
    cbn [exchangeError session_user]; try reflexivity.
  destruct u; [| reflexivity].
  destruct (parses _ origin); reflexivity.
Qed.

(** X23.  An [error] parameter on the callback wins over everything else:
    the browser is sent to [/login] with that error, and its description
    when there is one, and the code is not exchanged even if the request
    carries one. *)
Theorem oauth_error_comes_first (parses : string -> string -> bool)
  (request : Request unit) (origin : string) (world : World) (e : string) :
  searchParams_get "error" (searchParams request) = Some e ->
  e <> "" ->
  exists description,
    perform_all world (AuthCallback.GET parses request origin) =
      (Some (AuthCallback.Redirect
               {| AuthCallback.input := "/login";
                  AuthCallback.base := origin;
                  AuthCallback.set_params := ("error", e) :: description |}),
       [])
    /\ (description = [] \/
        exists d, searchParams_get "error_description" (searchParams request)
                  = Some d /\ d <> "" /\
                  description = [("error_description", d)]).
Proof.
  intros He Hne. rewrite (callback_GET_table parses request origin world).
  cbv zeta.
  rewrite He.
  assert (Ht : truthy (Some e) = true) by (destruct e; [congruence | reflexivity]).
  rewrite Ht.
  destruct (searchParams_get "error_description" (searchParams request))
    as [[| c d] |]; cbn [truthy JS.truthy_string AuthCallback.value].
  - exists []. split; [reflexivity | left; reflexivity].
  - exists [("error_description", String c d)]. split; [reflexivity |].
    right. exists (String c d). repeat split. discriminate.
  - exists []. split; [reflexivity | left; reflexivity].
Qed.

Lemma oauth_error_comes_first_witness :
  searchParams_get "code" (searchParams Cases.denied) = Some "c0de" /\
  exists description,
    perform_all Cases.world
      (AuthCallback.GET (fun _ _ => true) Cases.denied "https://gym.example") =
      (Some (AuthCallback.Redirect
               {| AuthCallback.input := "/login";
                  AuthCallback.base := "https://gym.example";
                  AuthCallback.set_params :=
                    ("error", "access_denied") :: description |}),
       []).
Proof.
  split; [reflexivity |].
  destruct (oauth_error_comes_first (fun _ _ => true) Cases.denied
              "https://gym.example" Cases.world "access_denied" eq_refl)
    as [description [H _]]; [discriminate |].
  exists description. exact H.
Defined.

(** X24.  With no [error] parameter and a code, the callback exchanges
    that code once.  A session with a user sends the browser to
    whatever [next] the request names, unchecked but for being parsable,
    and to [/dashboard] only when the parameter is absent; a [next] that
    [URL] refuses raises inside the [try] and gives "unexpected_error".
    An exchange that returns neither an error nor a user falls out of the
    [try]: the browser is sent to [/login] with "missing_code", although a
    code was given.  An exchange that rejects gives "unexpected_error",
    one that reports an error gives "auth_error" with the provider's
    message. *)
Theorem callback_exchange_outcomes (parses : string -> string -> bool)
  (request : Request unit) (origin : string) (world : World) (code : string) :
  truthy (searchParams_get "error" (searchParams request)) = false ->
  searchParams_get "code" (searchParams request) = Some code ->
  code <> "" ->
  let reply := world [] (AuthExchangeCodeForSession code) in
  let outcome :=
    fst (perform_all world (AuthCallback.GET parses request origin)) in
  let next := match searchParams_get "next" (searchParams request) with
              | Some n => n
              | None => "/dashboard"
              end in
  let to_login := fun error description =>
    Some (AuthCallback.Redirect
            {| AuthCallback.input := "/login"; AuthCallback.base := origin;
               AuthCallback.set_params :=
                 [("error", error); ("error_description", description)] |}) in
  snd (perform_all world (AuthCallback.GET parses request origin)) =
    [AuthExchangeCodeForSession code]
  /\ (forall user,
        reply = Some {| session_user := Some user; exchangeError := None |} ->
        (parses next origin = true ->
         outcome =
           Some (AuthCallback.Redirect
                   {| AuthCallback.input := next;
                      AuthCallback.base := origin;
                      AuthCallback.set_params := [("auth", "success")] |}))
        /\ (parses next origin = false ->
            outcome = to_login "unexpected_error"
                        "An unexpected error occurred during authentication"))
  /\ (reply = Some {| session_user := None; exchangeError := None |} ->
      outcome = to_login "missing_code" "No authorization code found")
  /\ (reply = None ->
      outcome = to_login "unexpected_error"
                  "An unexpected error occurred during authentication")
  /\ (forall user e,
        reply = Some {| session_user := user; exchangeError := Some e |} ->
        outcome = to_login "auth_error" (auth_message e)).
Proof.
  intros Herr Hcode Hne. cbv zeta.
  rewrite (callback_GET_table parses request origin world). cbv zeta.
  rewrite Herr, Hcode.
  assert (Ht : truthy (Some code) = true)
    by (destruct code; [congruence | reflexivity]).
  rewrite Ht. cbn [AuthCallback.value fst snd].
  split; [reflexivity |].
  split; [| split; [| split]].
  - intros user ->. cbn [exchangeError session_user].
    split; intros ->; reflexivity.
  - intros ->. reflexivity.
  - intros ->. reflexivity.
  - intros user e ->. reflexivity.
Qed.

Lemma callback_exchange_outcomes_witness :
  searchParams_get "next" (searchParams Cases.granted) =
    Some "https://elsewhere.example/" /\
  fst (perform_all Cases.world
         (AuthCallback.GET (fun _ _ => true) Cases.granted
            "https://gym.example")) =
  Some (AuthCallback.Redirect
          {| AuthCallback.input := "https://elsewhere.example/";
             AuthCallback.base := "https://gym.example";
             AuthCallback.set_params := [("auth", "success")] |}).
Proof.
  split; [reflexivity |].
  refine (proj1 (proj1 (proj2 (callback_exchange_outcomes (fun _ _ => true)
                                 Cases.granted "https://gym.example"
                                 Cases.world "c0de" eq_refl eq_refl _))
                   (JObj [("id", JStr "member-1")]) eq_refl)
            eq_refl).
  discriminate.
Defined.

Lemma callback_POST_table (request : Request AuthCallback.Body)
  (world : World) (body : AuthCallback.Body) :
  json_body request = Some body ->
  perform_all world (AuthCallback.POST request) =
    if negb (truthy (AuthCallback.body_code body)) then
      (Some (NextResponse.mk 400
               (Some (JObj [("error", JStr "Authorization code is required")]))),
       [])
    else
      let exchange :=
        AuthExchangeCodeForSession
          (AuthCallback.value (AuthCallback.body_code body)) in
      (Some match world [] exchange with
            | None => errorResponse "Internal server error" 500
            | Some reply =>
                match exchangeError reply with
                | Some e =>
                    NextResponse.mk 400
                      (Some (JObj [("error", JStr (auth_message e))]))
                | None =>
                    NextResponse.mk 200
                      (Some (JObj [("success", JBool true);
                                   ("user", wire match session_user reply with
                                                 | Some user => user
                                                 | None => JNull
                                                 end);
                                   ("redirect",
                                    JStr match AuthCallback.body_next body with
                                         | Some n => n
                                         | None => "/dashboard"
                                         end)]))
                end
            end,
       [exchange]).
Proof.
  intros Hbody.
  unfold AuthCallback.POST, request_json, perform_all. rewrite Hbody.
  cbn [lift and_then]. cbv zeta.
  destruct (negb (truthy (AuthCallback.body_code body))); [reflexivity |].
  rewrite perform_catch_step. cbn [app].
  destruct (world [] (AuthExchangeCodeForSession _)) as [[user [e |]] |];
    reflexivity.
Qed.

(** X25.  The programmatic exchange, [POST] with a readable body.  With
    no code, or an empty one, the answer is 400 and the provider is not
    called.  The provider is called at most once, with the code of the
    body.  200 is answered only when the provider returned no error, and
    it carries the [next] of the body, or [/dashboard] when the body has
    none; an error of the provider is answered 400 with the provider's
    message. *)
Theorem callback_post_outcomes (request : Request AuthCallback.Body)
  (world : World) (body : AuthCallback.Body) :
  json_body request = Some body ->
  (truthy (AuthCallback.body_code body) = false ->
   perform_all world (AuthCallback.POST request) =
     (Some (NextResponse.mk 400
              (Some (JObj [("error", JStr "Authorization code is required")]))),
      []))
  /\ (forall e,
        In e (snd (perform_all world (AuthCallback.POST request))) ->
        exists code,
          AuthCallback.body_code body = Some code /\ code <> "" /\
          e = AuthExchangeCodeForSession code /\
          snd (perform_all world (AuthCallback.POST request)) = [e])
  /\ (forall response,
        fst (perform_all world (AuthCallback.POST request)) = Some response ->
        NextResponse.status response = 200 ->
        exists code user,
          AuthCallback.body_code body = Some code /\
          world [] (AuthExchangeCodeForSession code) =
            Some {| session_user := user; exchangeError := None |} /\
          get_prop "redirect"
            (match NextResponse.body response with
             | Some (JObj fields) => fields
             | _ => []
             end) =
          Some (JStr (match AuthCallback.body_next body with
                      | Some n => n
                      | None => "/dashboard"
                      end)))
  /\ (forall code user e,
        AuthCallback.body_code body = Some code -> code <> "" ->
        world [] (AuthExchangeCodeForSession code) =
          Some {| session_user := user; exchangeError := Some e |} ->
        fst (perform_all world (AuthCallback.POST request)) =
          Some (NextResponse.mk 400
                  (Some (JObj [("error", JStr (auth_message e))])))).
Proof.
  intros Hbody.
  rewrite (callback_POST_table request world body Hbody). cbv zeta.
  destruct (AuthCallback.body_code body) as [[| c code] |];
    cbn [truthy JS.truthy_string negb AuthCallback.value].
  - repeat split; try reflexivity; try (intros; discriminate).
    + intros e [].
    + intros response [= <-] H. cbn in H. discriminate H.
    + intros code user e [= <-] H. congruence.
  - destruct (world [] (AuthExchangeCodeForSession (String c code)))
      as [[user [e |]] |] eqn:Hw; cbn [exchangeError session_user fst snd].
    + repeat split; try (intros; discriminate).
      * intros x [<- | []]. exists (String c code).
        repeat split. discriminate.
      * intros response [= <-] H. cbn in H. discriminate H.
      * intros code' user' e' [= <-] _ H. rewrite Hw in H.
        injection H as _ <-. reflexivity.
    + repeat split; try (intros; discriminate).
      * intros x [<- | []]. exists (String c code).
        repeat split. discriminate.
      * intros response [= <-] _. exists (String c code), user.
        rewrite Hw. repeat split.
      * intros code' user' e' [= <-] _ H. rewrite Hw in H. discriminate H.
    + repeat split; try (intros; discriminate).
      * intros x [<- | []]. exists (String c code).
        repeat split. discriminate.
      * intros response [= <-] H. cbn in H. discriminate H.
      * intros code' user' e' [= <-] _ H. rewrite Hw in H. discriminate H.
  - repeat split; try reflexivity; try (intros; discriminate).
    + intros e [].
    + intros response [= <-] H. cbn in H. discriminate H.
Qed.

Lemma callback_post_outcomes_witness :
  truthy (AuthCallback.body_code
            {| AuthCallback.body_code := None;
               AuthCallback.body_next := None |}) = false /\
  perform_all Cases.world (AuthCallback.POST Cases.post_no_code) =
  (Some (NextResponse.mk 400
           (Some (JObj [("error", JStr "Authorization code is required")]))),
   []).
Proof.
  split; [reflexivity |].
  exact (proj1 (callback_post_outcomes Cases.post_no_code Cases.world _
                  eq_refl) eq_refl).
Defined.

(** ** Updating a pricing plan *)

Lemma given_le_0_false (v : option JS.number) :
  PricingPlan.given_le_0 v = false <->
  v = None \/ exists n, v = Some n /\ JS.le n (JS.of_Z 0) = false.
Proof.
  destruct v as [n |]; cbn; split; intros H; auto.
  - right. eauto.
  - destruct H as [H | [m [[= <-] H]]]; [discriminate | exact H].
Qed.

(** X26.  [PUT /api/pricing_plans/:id], with the admin key, a well-formed
    id and a readable body, sends the update to the store exactly when
    the price and the duration are each absent or not [<= 0]; otherwise
    the answer is 400 and the store is not asked.  Nothing else is
    checked: the name may be empty, and no field is required. *)
Theorem plan_update_reaches_store_iff (env : Env)
  (request : Request UpdatePricingPlanRequest) (store : Store)
  (planId : string) (body : UpdatePricingPlanRequest) :
  validateApiKey env request = true ->
  Regex.isUUID planId = true ->
  json_body request = Some body ->
  let row := plan_update_fields body in
  (snd (run store (PricingPlan.PUT env request planId)) =
     [PlansUpdate planId row (now_ISO env)]
   <->
   (price row = None \/
    exists p, price row = Some p /\ JS.le p (JS.of_Z 0) = false)
   /\ (duration_days row = None \/
       exists d, duration_days row = Some d /\ JS.le d (JS.of_Z 0) = false))
  /\ (snd (run store (PricingPlan.PUT env request planId)) <>
        [PlansUpdate planId row (now_ISO env)] ->
      exists response,
        run store (PricingPlan.PUT env request planId) = (Some response, []) /\
        NextResponse.status response = 400).
Proof.
  intros Hkey Hid Hbody row. subst row.
  rewrite <- !given_le_0_false.
  unfold PricingPlan.PUT, request_json, run. rewrite Hkey, Hid, Hbody.
  cbn [negb bind]. cbv zeta.
  destruct (PricingPlan.given_le_0 (price (plan_update_fields body))).
  { rewrite run_ret. cbn [snd]. split.
    - split; [discriminate | intros [H _]; discriminate H].
    - intros _. eexists; split; reflexivity. }
  destruct (PricingPlan.given_le_0 (duration_days (plan_update_fields body))).
  { rewrite run_ret. cbn [snd]. split.
    - split; [discriminate | intros [_ H]; discriminate H].
    - intros _. eexists; split; reflexivity. }
  rewrite run_await. cbn [app].
  assert (E : forall p : Prog Response,
            (exists r, p = Ret r) ->
            snd (run_from store
                   [PlansUpdate planId (plan_update_fields body) (now_ISO env)]
                   (try_catch p internal_error)) =
            [PlansUpdate planId (plan_update_fields body) (now_ISO env)])
    by (intros p [r ->]; reflexivity).
  match goal with
  | |- context [run_from store _ (try_catch ?p internal_error)] =>
      assert (Hp : exists r, p = Ret r)
  end.
  { match goal with
    | |- context [error ?r] => destruct (error r) as [e |]
    end; [destruct (code_is "PGRST116" e); [| destruct (code_is "23505" e)] |];
      eexists; reflexivity. }
  rewrite (E _ Hp). split.
  - split; auto.
  - intros H. exfalso. apply H. reflexivity.
Qed.

Lemma plan_update_reaches_store_iff_witness :
  snd (run Examples.store
         (PricingPlan.PUT Examples.admin_env Cases.empty_name
            Examples.plan_uuid)) =
  [PlansUpdate Examples.plan_uuid
     (plan_update_fields
        {| plan_update_id := None;
           plan_update_fields :=
             {| name := Some ""; description := None; price := None;
                duration_days := None; features := None;
                is_active := None |} |})
     (now_ISO Examples.admin_env)].
Proof.
  refine (proj2 (proj1 (plan_update_reaches_store_iff Examples.admin_env
                          Cases.empty_name Examples.store Examples.plan_uuid
                          _ eq_refl eq_refl eq_refl)) _).
  split; left; reflexivity.
Defined.

(** ** The patterns on examples *)

Lemma uuid_language_witness :
  Regex.isUUID Examples.plan_uuid = true /\
  exists a b c d e,
    Examples.plan_uuid = a ++ "-" ++ b ++ "-" ++ c ++ "-" ++ d ++ "-" ++ e /\
    String.length a = 8%nat /\ String.length b = 4%nat /\
    String.length c = 4%nat /\ String.length d = 4%nat /\
    String.length e = 12%nat /\
    all_chars Regex.hex_i a = true /\ all_chars Regex.hex_i b = true /\
    all_chars Regex.hex_i c = true /\ all_chars Regex.hex_i d = true /\
    all_chars Regex.hex_i e = true.
Proof.
  split; [reflexivity |].
  exact (proj1 (uuid_language Examples.plan_uuid) eq_refl).
Defined.

Lemma phone_language_witness :
  Regex.test Regex.phoneRegex "(   ) --" = true.
Proof.
  apply (proj2 (phone_language "(   ) --")).
  exists "(   ) --". split; [left; reflexivity |].
  split; [cbn; lia | reflexivity].
Defined.

Lemma email_language_witness :
  Regex.test Regex.emailRegex "a@.b..c" = true.
Proof.
  apply (proj2 (email_language "a@.b..c")).
  exists "a", ".b.", "c". repeat split; discriminate.
Defined.
